(** * Progression accounting engine: XP, levels, daily cap, streaks, mascot evolution

    A shallow embedding of the habit-tracking back end:
    - [utils/xp.js]      level table, [getLevelForXp], [capDailyXp];
    - [routes/habits.js] the five category handlers and [applyXpToUser];
    - [utils/streak.js]  [countCompletedCategories], [evaluateStreakIfNeeded];
    - [utils/mascot.js]  [getMascotForLevel], [checkAndApplyEvolution];
    - [db/index.js]      the schema the statements are prepared against.

    Conventions of the embedding.
    - JavaScript numbers that hold integers are [Z].
    - A SQL column that may be NULL is an [option]; a column declared
      [DEFAULT 0] that the handlers only ever write numbers to is a [Z].
    - A calendar date "YYYY-MM-DD" is the number of its day ([Z]): the
      lexicographic order of such strings is the chronological order, and
      [addDays d n] is [d + n].
    - An instant is a number of milliseconds since the epoch ([Z]); an ISO
      string written by [toISOString] reads back to the same number.
    - The database is a record of finite maps, one per table, keyed by the
      table's unique key; a handler is a function from the database to an
      [outcome] holding the new database. *)

From Stdlib Require Import ZArith Lia.
From stdpp Require Import base option list sorting gmap strings fin_maps.

Local Open Scope Z_scope.

(* ===================================================================== *)
(** ** utils/xp.js *)
(* ===================================================================== *)

Module Xp.

Definition DAILY_XP_CAP : Z := 150.

(** [Math.round(prevIncrement * 1.2)].  The product is never half-way between
    two integers (12 * p is even), and for the sizes of the table the double
    product is far closer to 6p/5 than to a half-integer, so rounding to the
    nearest integer is exact integer arithmetic.  That holds for the first
    158 entries of a table, the 100 of [LEVEL_THRESHOLDS] among them: every
    value is below 2^53 there.  From entry 158 on the sums pass 2^53 and the
    double computation of the source gives other numbers. *)
Definition round_times_1_2 (prevIncrement : Z) : Z := (12 * prevIncrement + 5) / 10.

(** The [for (let i = 3; i < maxLevel; i++)] loop of [buildLevelThresholds];
    [fuel] bounds the number of iterations. *)
Fixpoint build_loop (fuel : nat) (i maxLevel : Z) (thresholds : list Z)
    (prevIncrement : Z) : list Z :=
  match fuel with
  | O => thresholds
  | S fuel' =>
      if i <? maxLevel then
        let prevIncrement' := round_times_1_2 prevIncrement in
        let prev := default 0 (thresholds !! Z.to_nat (i - 1)) in
        build_loop fuel' (i + 1) maxLevel
                   (thresholds ++ [prev + prevIncrement']) prevIncrement'
      else thresholds
  end.

Definition buildLevelThresholds (maxLevel : Z) : list Z :=
  build_loop (Z.to_nat maxLevel) 3 maxLevel [0; 500; 1200] 700.

Definition LEVEL_THRESHOLDS : list Z := buildLevelThresholds 100.

(** The loop of [getLevelForXp]: [rest] is [LEVEL_THRESHOLDS] from index [i]
    on; the [else] branch is the [break]. *)
Fixpoint level_loop (xp : Z) (rest : list Z) (i level : Z) : Z :=
  match rest with
  | [] => level
  | t :: rest' =>
      if xp >=? t then level_loop xp rest' (i + 1) (i + 1) else level
  end.

Definition getLevelForXp (xp : Z) : Z :=
  level_loop xp (drop 1 LEVEL_THRESHOLDS) 1 1.

(** [currentDayXp] may be [null]/[undefined] ([None]): [currentDayXp ?? 0]. *)
Definition capDailyXp (currentDayXp : option Z) (proposedDelta : Z) : Z :=
  if proposedDelta <=? 0 then 0
  else
    let remaining := Z.max 0 (DAILY_XP_CAP - default 0 currentDayXp) in
    Z.min proposedDelta remaining.

(** [getXpForNextLevel]: [null] at the last generated level; indexing the
    array out of range gives [undefined], also [None]. *)
Definition getXpForNextLevel (level : Z) : option Z :=
  if level >=? Z.of_nat (length LEVEL_THRESHOLDS) then None
  else if level <? 0 then None
  else LEVEL_THRESHOLDS !! Z.to_nat level.

End Xp.

(* ===================================================================== *)
(** ** db/index.js: the tables *)
(* ===================================================================== *)

(** The schema [db/index.js] creates: for every table its columns (those of
    the [CREATE TABLE] statement, then those the migrations add) and its
    [PRIMARY KEY] and [UNIQUE] constraints, each as the list of its
    columns. *)
Module Schema.

Record table := mk_table {
  columns : list string;
  unique : list (list string);
}.

Definition TABLES : gmap string table :=
  {[ "users" :=
       mk_table [ "id"; "email"; "password_hash"; "name"; "age"; "gender";
                  "height_cm"; "weight_kg"; "bmi"; "bmi_category";
                  "mascot_id"; "mascot_name"; "xp_total"; "level";
                  "current_streak"; "longest_streak"; "streak_shields";
                  "timezone"; "created_at"; "last_active_at";
                  "email_verified"; "onboarding_step";
                  "team_reminder_at"; "streak_last_evaluated_date" ]
                [ ["id"]; ["email"] ];
     "email_verifications" :=
       mk_table [ "id"; "user_id"; "token"; "expires_at"; "used"; "created_at" ]
                [ ["id"]; ["token"] ];
     "password_resets" :=
       mk_table [ "id"; "user_id"; "token"; "expires_at"; "used"; "created_at" ]
                [ ["id"]; ["token"] ];
     "sessions" :=
       mk_table [ "id"; "user_id"; "token"; "expires_at"; "last_active_at";
                  "created_at" ]
                [ ["id"]; ["token"] ];
     "habits_config" :=
       mk_table [ "id"; "user_id"; "daily_steps"; "hydration_glasses";
                  "sleep_hours_min"; "sleep_hours_max"; "movement_preference";
                  "vegetables_per_day"; "created_at"; "updated_at" ]
                [ ["id"]; ["user_id"] ];
     "teams" :=
       mk_table [ "id"; "name"; "invite_code"; "owner_id"; "created_at" ]
                [ ["id"]; ["invite_code"] ];
     "team_members" :=
       mk_table [ "id"; "team_id"; "user_id"; "role"; "joined_at" ]
                [ ["id"]; ["team_id"; "user_id"] ];
     "mascots" :=
       mk_table [ "id"; "name"; "description"; "bmi_category"; "created_at" ]
                [ ["id"] ];
     "daily_logs" :=
       mk_table [ "id"; "user_id"; "log_date"; "steps"; "hydration_glasses";
                  "sleep_hours"; "movement_done"; "vegetables_count"; "mood";
                  "notes"; "xp_earned"; "created_at"; "updated_at";
                  "steps_manual"; "steps_google_fit"; "steps_goal_xp_awarded";
                  "steps_last_bonus_at"; "movement_xp_awarded";
                  "hydration_xp_glasses"; "hydration_goal_xp_awarded";
                  "sleep_start"; "sleep_end"; "sleep_xp_start_awarded";
                  "sleep_xp_end_awarded"; "sleep_goal_xp_awarded";
                  "food_vegetables"; "food_no_junk"; "food_breakfast";
                  "food_veg_xp_awarded"; "food_nojunk_xp_awarded";
                  "food_breakfast_xp_awarded" ]
                [ ["id"]; ["user_id"; "log_date"] ];
     "team_challenges" :=
       mk_table [ "id"; "team_id"; "title"; "description"; "challenge_type";
                  "target_value"; "start_date"; "end_date"; "created_by";
                  "created_at" ]
                [ ["id"] ];
     "challenge_entries" :=
       mk_table [ "id"; "challenge_id"; "user_id"; "value"; "logged_at";
                  "created_at" ]
                [ ["id"] ];
     "notifications_config" :=
       mk_table [ "id"; "user_id"; "email_enabled"; "push_enabled";
                  "daily_reminder_enabled"; "reminder_time";
                  "team_updates_enabled"; "challenge_updates_enabled";
                  "created_at"; "updated_at" ]
                [ ["id"]; ["user_id"] ] ]}.

(** [db.prepare(sql)] for a statement on the table [name] that names the
    columns [cols]: better-sqlite3 compiles the statement in [prepare], which
    throws [SqliteError] ("no such table", "no such column") when the schema
    lacks the table or one of the columns. *)
Definition prepares (name : string) (cols : list string) : bool :=
  match TABLES !! name with
  | Some t => forallb (λ c, bool_decide (c ∈ columns t)) cols
  | None => false
  end.

End Schema.

(** Table [users] (progression columns only), keyed by [id].  [mascot_stage]
    is the column the statements of [utils/mascot.js] name; [Schema.TABLES]
    has no such column for [users], so no statement that names it is ever
    prepared, and no reachable write changes the field. *)
Module Users.

Record row := mk {
  bmi_category : option string;
  mascot_id : option Z;
  mascot_name : option string;
  mascot_stage : option Z;
  xp_total : Z;
  level : Z;
  current_streak : Z;
  longest_streak : Z;
  streak_shields : Z;
  streak_last_evaluated_date : option Z;
}.

(** [UPDATE users SET xp_total = ?, level = ?] *)
Definition set_xp (newXpTotal newLevel : Z) (u : row) : row :=
  mk (bmi_category u) (mascot_id u) (mascot_name u) (mascot_stage u)
     newXpTotal newLevel
     (current_streak u) (longest_streak u) (streak_shields u)
     (streak_last_evaluated_date u).

(** [UPDATE users SET streak_last_evaluated_date = ?] *)
Definition set_last_evaluated (d : Z) (u : row) : row :=
  mk (bmi_category u) (mascot_id u) (mascot_name u) (mascot_stage u)
     (xp_total u) (level u)
     (current_streak u) (longest_streak u) (streak_shields u) (Some d).

(** [UPDATE users SET current_streak = ?, longest_streak = ?,
    streak_shields = ?, streak_last_evaluated_date = ?] *)
Definition set_streak (cur longest shields d : Z) (u : row) : row :=
  mk (bmi_category u) (mascot_id u) (mascot_name u) (mascot_stage u)
     (xp_total u) (level u) cur longest shields (Some d).

(** What [UPDATE users SET mascot_id = ?, mascot_name = ?, mascot_stage = ?]
    writes once it is prepared. *)
Definition set_mascot (mid : Z) (mname : string) (mstage : Z) (u : row) : row :=
  mk (bmi_category u) (Some mid) (Some mname) (Some mstage)
     (xp_total u) (level u)
     (current_streak u) (longest_streak u) (streak_shields u)
     (streak_last_evaluated_date u).

End Users.

(** Table [habits_config], keyed by its unique [user_id]. *)
Module HabitsConfig.

Record row := mk {
  daily_steps : Z;
  hydration_glasses : Z;
}.

End HabitsConfig.

(** Table [daily_logs], keyed by its unique pair [(user_id, log_date)].
    [sleep_start]/[sleep_end] hold a validated "HH:MM" as [(hours, minutes)];
    [sleep_hours], a number with one decimal, is held in tenths of an hour. *)
Module DailyLogs.

Record row := mk {
  steps : option Z;
  steps_manual : option Z;
  steps_google_fit : option Z;
  steps_goal_xp_awarded : Z;
  steps_last_bonus_at : option Z;
  hydration_glasses : option Z;
  hydration_xp_glasses : Z;
  hydration_goal_xp_awarded : Z;
  sleep_start : option (Z * Z);
  sleep_end : option (Z * Z);
  sleep_hours : option Z;
  sleep_xp_start_awarded : Z;
  sleep_xp_end_awarded : Z;
  sleep_goal_xp_awarded : Z;
  movement_done : Z;
  movement_xp_awarded : Z;
  vegetables_count : option Z;
  food_vegetables : Z;
  food_no_junk : Z;
  food_breakfast : Z;
  food_veg_xp_awarded : Z;
  food_nojunk_xp_awarded : Z;
  food_breakfast_xp_awarded : Z;
  xp_earned : Z;
  created_at : Z;
  updated_at : Z;
}.

(** The row an [INSERT] starts from: the column defaults of the schema. *)
Definition fresh (now : Z) : row :=
  mk None None None 0 None
     None 0 0
     None None None 0 0 0
     0 0
     None 0 0 0 0 0 0
     0 now now.

(** [fields.xp_earned] is only present when the capped delta is positive. *)
Definition xp_field (xp : option Z) (r : row) : Z := default (xp_earned r) xp.

(** The columns written by [handleStepsUpdate]; exactly one of
    [steps_manual] and [steps_google_fit] is among them. *)
Definition write_steps (effectiveSteps goalAwarded : Z) (lastBonusAt : option Z)
    (manual googleFit : option Z) (xp : option Z) (now : Z) (r : row) : row :=
  mk (Some effectiveSteps)
     (match manual with Some m => Some m | None => steps_manual r end)
     (match googleFit with Some g => Some g | None => steps_google_fit r end)
     goalAwarded lastBonusAt
     (hydration_glasses r) (hydration_xp_glasses r) (hydration_goal_xp_awarded r)
     (sleep_start r) (sleep_end r) (sleep_hours r)
     (sleep_xp_start_awarded r) (sleep_xp_end_awarded r) (sleep_goal_xp_awarded r)
     (movement_done r) (movement_xp_awarded r)
     (vegetables_count r)
     (food_vegetables r) (food_no_junk r) (food_breakfast r)
     (food_veg_xp_awarded r) (food_nojunk_xp_awarded r) (food_breakfast_xp_awarded r)
     (xp_field xp r) (created_at r) now.

(** The columns written by [handleHydrationUpdate]. *)
Definition write_hydration (glasses xpGlasses goalAwarded : Z)
    (xp : option Z) (now : Z) (r : row) : row :=
  mk (steps r) (steps_manual r) (steps_google_fit r)
     (steps_goal_xp_awarded r) (steps_last_bonus_at r)
     (Some glasses) xpGlasses goalAwarded
     (sleep_start r) (sleep_end r) (sleep_hours r)
     (sleep_xp_start_awarded r) (sleep_xp_end_awarded r) (sleep_goal_xp_awarded r)
     (movement_done r) (movement_xp_awarded r)
     (vegetables_count r)
     (food_vegetables r) (food_no_junk r) (food_breakfast r)
     (food_veg_xp_awarded r) (food_nojunk_xp_awarded r) (food_breakfast_xp_awarded r)
     (xp_field xp r) (created_at r) now.

(** The columns written by [handleSleepUpdate]; the three value columns are
    written only when the handler has a value for them. *)
Definition write_sleep (startAwarded endAwarded goalAwarded : Z)
    (effectiveStart effectiveEnd : option (Z * Z)) (sleepHours : option Z)
    (xp : option Z) (now : Z) (r : row) : row :=
  mk (steps r) (steps_manual r) (steps_google_fit r)
     (steps_goal_xp_awarded r) (steps_last_bonus_at r)
     (hydration_glasses r) (hydration_xp_glasses r) (hydration_goal_xp_awarded r)
     (match effectiveStart with Some s => Some s | None => sleep_start r end)
     (match effectiveEnd with Some e => Some e | None => sleep_end r end)
     (match sleepHours with Some h => Some h | None => sleep_hours r end)
     startAwarded endAwarded goalAwarded
     (movement_done r) (movement_xp_awarded r)
     (vegetables_count r)
     (food_vegetables r) (food_no_junk r) (food_breakfast r)
     (food_veg_xp_awarded r) (food_nojunk_xp_awarded r) (food_breakfast_xp_awarded r)
     (xp_field xp r) (created_at r) now.

(** The columns written by [handleMovementUpdate]. *)
Definition write_movement (done awarded : Z) (xp : option Z) (now : Z)
    (r : row) : row :=
  mk (steps r) (steps_manual r) (steps_google_fit r)
     (steps_goal_xp_awarded r) (steps_last_bonus_at r)
     (hydration_glasses r) (hydration_xp_glasses r) (hydration_goal_xp_awarded r)
     (sleep_start r) (sleep_end r) (sleep_hours r)
     (sleep_xp_start_awarded r) (sleep_xp_end_awarded r) (sleep_goal_xp_awarded r)
     done awarded
     (vegetables_count r)
     (food_vegetables r) (food_no_junk r) (food_breakfast r)
     (food_veg_xp_awarded r) (food_nojunk_xp_awarded r) (food_breakfast_xp_awarded r)
     (xp_field xp r) (created_at r) now.

(** The three food checkboxes of [FOOD_HABITS]. *)
Inductive food_item := vegetables | no_junk | breakfast.

(** [log[habit.col]] and [log[habit.xpCol]] *)
Definition food_col (item : food_item) (r : row) : Z :=
  match item with
  | vegetables => food_vegetables r
  | no_junk => food_no_junk r
  | breakfast => food_breakfast r
  end.

Definition food_xp_col (item : food_item) (r : row) : Z :=
  match item with
  | vegetables => food_veg_xp_awarded r
  | no_junk => food_nojunk_xp_awarded r
  | breakfast => food_breakfast_xp_awarded r
  end.

(** The columns written by [handleFoodUpdate]: [habit.col], [habit.xpCol]. *)
Definition write_food (item : food_item) (checked awarded : Z)
    (xp : option Z) (now : Z) (r : row) : row :=
  let pick (i : food_item) (new old : Z) : Z :=
    match item, i with
    | vegetables, vegetables | no_junk, no_junk | breakfast, breakfast => new
    | _, _ => old
    end in
  mk (steps r) (steps_manual r) (steps_google_fit r)
     (steps_goal_xp_awarded r) (steps_last_bonus_at r)
     (hydration_glasses r) (hydration_xp_glasses r) (hydration_goal_xp_awarded r)
     (sleep_start r) (sleep_end r) (sleep_hours r)
     (sleep_xp_start_awarded r) (sleep_xp_end_awarded r) (sleep_goal_xp_awarded r)
     (movement_done r) (movement_xp_awarded r)
     (vegetables_count r)
     (pick vegetables checked (food_vegetables r))
     (pick no_junk checked (food_no_junk r))
     (pick breakfast checked (food_breakfast r))
     (pick vegetables awarded (food_veg_xp_awarded r))
     (pick no_junk awarded (food_nojunk_xp_awarded r))
     (pick breakfast awarded (food_breakfast_xp_awarded r))
     (xp_field xp r) (created_at r) now.

(** The column written by the generic branch of the route (category
    "vegetables"): [UPDATE daily_logs SET vegetables_count = ?]. *)
Definition write_vegetables_count (n : Z) (now : Z) (r : row) : row :=
  mk (steps r) (steps_manual r) (steps_google_fit r)
     (steps_goal_xp_awarded r) (steps_last_bonus_at r)
     (hydration_glasses r) (hydration_xp_glasses r) (hydration_goal_xp_awarded r)
     (sleep_start r) (sleep_end r) (sleep_hours r)
     (sleep_xp_start_awarded r) (sleep_xp_end_awarded r) (sleep_goal_xp_awarded r)
     (movement_done r) (movement_xp_awarded r)
     (Some n)
     (food_vegetables r) (food_no_junk r) (food_breakfast r)
     (food_veg_xp_awarded r) (food_nojunk_xp_awarded r) (food_breakfast_xp_awarded r)
     (xp_earned r) (created_at r) now.

End DailyLogs.

(** A call either returns or throws; it is paired with the database it
    leaves behind. *)
Inductive completion (A : Type) : Type :=
  | Returns (a : A)
  | Throws.
Arguments Returns {A} a.
Arguments Throws {A}.

(** The rows the [INSERT] statements of [utils/mascot.js] are about, in
    insertion order.  [Schema.TABLES] has no table [badges]. *)
Module Badges.

Record row := mk {
  id : string;
  user_id : string;
  badge_type : string;
  badge_name : string;
  awarded_at : Z;
}.

(** The columns the [INSERT] statements name. *)
Definition COLUMNS : list string :=
  ["id"; "user_id"; "badge_type"; "badge_name"; "awarded_at"].

(** The value a row has in a column. *)
Definition get (column : string) (r : row) : option (string + Z) :=
  if bool_decide (column = "id") then Some (inl (id r))
  else if bool_decide (column = "user_id") then Some (inl (user_id r))
  else if bool_decide (column = "badge_type") then Some (inl (badge_type r))
  else if bool_decide (column = "badge_name") then Some (inl (badge_name r))
  else if bool_decide (column = "awarded_at") then Some (inr (awarded_at r))
  else None.

(** Two rows agree on every column of one of the declared keys. *)
Definition conflicts (keys : list (list string)) (new old : row) : bool :=
  existsb (λ key, forallb (λ c, bool_decide (get c new = get c old)) key) keys.

(** [db.prepare("INSERT OR IGNORE INTO badges (...) VALUES (...)").run(...)]:
    the statement is prepared against the schema; once prepared, a row that
    violates a [PRIMARY KEY] or [UNIQUE] constraint the schema declares is
    skipped, any other row is added. *)
Definition insert_or_ignore (new : row) (rows : list row)
    : completion (list row) :=
  if negb (Schema.prepares "badges" COLUMNS) then Throws
  else
    let keys := from_option Schema.unique [] (Schema.TABLES !! "badges") in
    Returns (if existsb (conflicts keys new) rows then rows else rows ++ [new]).

End Badges.

(** The database: one finite map per table, keyed by the table's unique key;
    [badges] is where the rows of [Badges] would go. *)
Record database := mkdb {
  users : gmap string Users.row;
  habits_config : gmap string HabitsConfig.row;
  daily_logs : gmap (string * Z) DailyLogs.row;
  badges : list Badges.row;
}.

Definition with_users (f : gmap string Users.row → gmap string Users.row)
    (db : database) : database :=
  mkdb (f (users db)) (habits_config db) (daily_logs db) (badges db).

Definition with_daily_logs
    (f : gmap (string * Z) DailyLogs.row → gmap (string * Z) DailyLogs.row)
    (db : database) : database :=
  mkdb (users db) (habits_config db) (f (daily_logs db)) (badges db).

Definition with_badges (t : list Badges.row) (db : database) : database :=
  mkdb (users db) (habits_config db) (daily_logs db) t.

(* ===================================================================== *)
(** ** routes/habits.js *)
(* ===================================================================== *)

Module Habits.
Import Xp.

(** A value of the JSON request body, as far as the handlers look at it: a
    boolean, a number that is an integer (below 10^21 in size, where
    [parseInt(value, 10)], which reads [String(value)], gives the number
    back), absent, or anything else for which [parseInt(value, 10)] is [NaN]
    and every [===] below is false.  [parseInt] also reads an integer out of
    a numeric string, a fractional number or a number [String] shows with an
    exponent; a handler that looks at the value through [parseInt] only
    treats such a value as the [JNum] of that integer. *)
Inductive js_value :=
  | JUndefined
  | JBool (b : bool)
  | JNum (n : Z)
  | JOther.

(** [parseInt(value, 10)]; [None] is [NaN]. *)
Definition parseInt (value : js_value) : option Z :=
  match value with
  | JNum n => Some n
  | _ => None
  end.

(** [typeof value === "boolean" || value === 0 || value === 1] *)
Definition is_boolean_or_bit (value : js_value) : bool :=
  match value with
  | JBool _ => true
  | JNum n => (n =? 0) || (n =? 1)
  | _ => false
  end.

(** [value === true || value === 1] *)
Definition is_true_or_one (value : js_value) : bool :=
  match value with
  | JBool b => b
  | JNum n => n =? 1
  | _ => false
  end.

Definition MAX_MANUAL_STEPS : Z := 50000.
Definition STEP_BONUS_INCREMENT : Z := 500.
Definition STEP_BONUS_XP : Z := 5.
Definition TWO_HOURS_MS : Z := 2 * 60 * 60 * 1000.
Definition MOVEMENT_XP : Z := 15.
Definition HYDRATION_GLASS_XP : Z := 5.
Definition HYDRATION_GOAL_BONUS_XP : Z := 20.
Definition SLEEP_LOG_XP : Z := 5.
Definition SLEEP_GOAL_BONUS_XP : Z := 15.
Definition SLEEP_GOAL_HOURS : Z := 7.

(** [FOOD_HABITS]: the XP of each item and the pair of columns it owns. *)
Record food_habit := mk_habit { xp : Z; col : DailyLogs.food_item }.

Definition FOOD_HABITS : gmap string food_habit :=
  {[ "vegetables" := mk_habit 10 DailyLogs.vegetables;
     "no_junk" := mk_habit 10 DailyLogs.no_junk;
     "breakfast" := mk_habit 5 DailyLogs.breakfast ]}.

Record level_info := mk_level_info {
  previousLevel : option Z;
  newLevel : option Z;
  leveledUp : bool;
}.

(** The fields of the JSON response the progression engine produces. *)
Record response := mk_response {
  xpAwarded : Z;
  xpTotal : Z;
  level : Z;
  levelUp : option (Z * Z);
}.

(** A handler answers with its JSON body, with the plain body of the generic
    branch (today's values, no XP fields), or with an error status. *)
Inductive reply :=
  | Json (r : response)
  | JsonToday
  | Status (code : Z).

(** [applyXpToUser]; reading a column of a missing user row throws. *)
Definition applyXpToUser (db : database) (userId : string) (xpDelta : Z)
    : database * completion level_info :=
  if xpDelta <=? 0 then (db, Returns (mk_level_info None None false))
  else
    match users db !! userId with
    | None => (db, Throws)
    | Some user =>
        let previousLevel := Users.level user in
        let newXpTotal := Users.xp_total user + xpDelta in
        let newLevel := getLevelForXp newXpTotal in
        (with_users (insert userId (Users.set_xp newXpTotal newLevel user)) db,
         Returns (mk_level_info (Some previousLevel) (Some newLevel)
                                (newLevel >? previousLevel)))
    end.

(** The [db.transaction] every handler runs: write [fields] to today's row
    ([UPDATE] when it exists, [INSERT] over the column defaults otherwise),
    then apply the XP to the user.  A throw inside rolls back to [db]. *)
Definition applyUpdate (db : database) (userId : string) (today now : Z)
    (existing : option DailyLogs.row) (fields : DailyLogs.row → DailyLogs.row)
    (xpDelta : Z) : database * completion level_info :=
  let row := fields (default (DailyLogs.fresh now) existing) in
  let db1 := with_daily_logs (insert (userId, today) row) db in
  if xpDelta >? 0 then
    match applyXpToUser db1 userId xpDelta with
    | (db2, Returns levelInfo) => (db2, Returns levelInfo)
    | (_, Throws) => (db, Throws)
    end
  else (db1, Returns (mk_level_info None None false)).

(** The tail every handler shares: run the transaction, re-read the user and
    answer with the awarded XP and the user's totals. *)
Definition respond (db : database) (userId : string) (today now : Z)
    (existing : option DailyLogs.row) (fields : DailyLogs.row → DailyLogs.row)
    (xpDelta : Z) : database * completion reply :=
  match applyUpdate db userId today now existing fields xpDelta with
  | (db', Throws) => (db', Throws)
  | (db', Returns levelInfo) =>
      match users db' !! userId with
      | None => (db', Throws)
      | Some updatedUser =>
          (db', Returns (Json (mk_response xpDelta
             (Users.xp_total updatedUser) (Users.level updatedUser)
             (if leveledUp levelInfo then
                match previousLevel levelInfo, newLevel levelInfo with
                | Some p, Some n => Some (p, n)
                | _, _ => None
                end
              else None))))
      end
  end.

(** [fields.xp_earned = (existing?.xp_earned ?? 0) + xpDelta], when
    [xpDelta > 0]. *)
Definition xp_earned_field (currentDayXp xpDelta : Z) : option Z :=
  if xpDelta >? 0 then Some (currentDayXp + xpDelta) else None.

(** One-shot flag: [cond && prev === 0 ? 1 : prev] and the XP it pays,
    [new === 1 && prev === 0 ? amount : 0]. *)
Definition award_once (cond : bool) (prev : Z) : Z :=
  if cond && (prev =? 0) then 1 else prev.

Definition award_xp (new prev amount : Z) : Z :=
  if (new =? 1) && (prev =? 0) then amount else 0.

Definition handleMovementUpdate (db : database) (userId : string)
    (value : js_value) (today now : Z) : database * completion reply :=
  if negb (is_boolean_or_bit value) then (db, Returns (Status 400))
  else
    let done := is_true_or_one value in
    let processedValue := if done then 1 else 0 in
    let existing := daily_logs db !! (userId, today) in
    let prevXpAwarded := from_option DailyLogs.movement_xp_awarded 0 existing in
    let newXpAwarded := award_once done prevXpAwarded in
    let rawXpDelta := award_xp newXpAwarded prevXpAwarded MOVEMENT_XP in
    let currentDayXp := from_option DailyLogs.xp_earned 0 existing in
    let xpDelta := capDailyXp (Some currentDayXp) rawXpDelta in
    respond db userId today now existing
      (DailyLogs.write_movement processedValue newXpAwarded
         (xp_earned_field currentDayXp xpDelta) now)
      xpDelta.

(** The hydration high-water mark, [Math.max(prevXpGlasses, glasses)], and
    the per-glass XP, [Math.max(0, newXpGlasses - prevXpGlasses) * 5]. *)
Definition newXpGlasses (prevXpGlasses glasses : Z) : Z :=
  Z.max prevXpGlasses glasses.

Definition glassXpDelta (prevXpGlasses glasses : Z) : Z :=
  Z.max 0 (newXpGlasses prevXpGlasses glasses - prevXpGlasses) * HYDRATION_GLASS_XP.

(** [goalConfig?.hydration_glasses ?? 8] *)
Definition hydrationGoal (db : database) (userId : string) : Z :=
  from_option HabitsConfig.hydration_glasses 8 (habits_config db !! userId).

Definition handleHydrationUpdate (db : database) (userId : string)
    (value : js_value) (today now : Z) : database * completion reply :=
  match parseInt value with
  | None => (db, Returns (Status 400))
  | Some glasses =>
      if glasses <? 0 then (db, Returns (Status 400))
      else
        let goal := hydrationGoal db userId in
        let existing := daily_logs db !! (userId, today) in
        let prevXpGlasses := from_option DailyLogs.hydration_xp_glasses 0 existing in
        let prevGoalAwarded :=
          from_option DailyLogs.hydration_goal_xp_awarded 0 existing in
        let goalMet := glasses >=? goal in
        let newGoalAwarded := award_once goalMet prevGoalAwarded in
        let goalXpDelta :=
          award_xp newGoalAwarded prevGoalAwarded HYDRATION_GOAL_BONUS_XP in
        let rawXpDelta := glassXpDelta prevXpGlasses glasses + goalXpDelta in
        let currentDayXp := from_option DailyLogs.xp_earned 0 existing in
        let xpDelta := capDailyXp (Some currentDayXp) rawXpDelta in
        respond db userId today now existing
          (DailyLogs.write_hydration glasses (newXpGlasses prevXpGlasses glasses)
             newGoalAwarded (xp_earned_field currentDayXp xpDelta) now)
          xpDelta
  end.

(** The regular expression [^([01]\d|2[0-3]):[0-5]\d$] on a time given as
    (hours, minutes). *)
Definition valid_hhmm (t : Z * Z) : bool :=
  (0 <=? t.1) && (t.1 <=? 23) && (0 <=? t.2) && (t.2 <=? 59).

(** Minutes slept, an end before the start being on the next day. *)
Definition diffMin (start_ end_ : Z * Z) : Z :=
  let startMin := start_.1 * 60 + start_.2 in
  let endMin := end_.1 * 60 + end_.2 in
  if endMin >=? startMin then endMin - startMin else 1440 - startMin + endMin.

(** [Math.round((diffMin / 60) * 10) / 10], in tenths of an hour.  For the
    1440 possible values of [diffMin] the double computation rounds exactly
    as the integer quotient below. *)
Definition sleepHours (effectiveStart effectiveEnd : option (Z * Z)) : option Z :=
  match effectiveStart, effectiveEnd with
  | Some s, Some e => Some ((diffMin s e + 3) / 6)
  | _, _ => None
  end.

(** [a || b] on two nullable values *)
Definition or_else {A} (a b : option A) : option A :=
  match a with Some _ => a | None => b end.

Definition handleSleepUpdate (db : database) (userId : string)
    (sleepStart sleepEnd : option (Z * Z)) (today now : Z)
    : database * completion reply :=
  if bool_decide (sleepStart = None) && bool_decide (sleepEnd = None)
  then (db, Returns (Status 400))
  else if negb (from_option valid_hhmm true sleepStart)
  then (db, Returns (Status 400))
  else if negb (from_option valid_hhmm true sleepEnd)
  then (db, Returns (Status 400))
  else
    let existing := daily_logs db !! (userId, today) in
    let effectiveStart := or_else sleepStart (existing ≫= DailyLogs.sleep_start) in
    let effectiveEnd := or_else sleepEnd (existing ≫= DailyLogs.sleep_end) in
    let hours := sleepHours effectiveStart effectiveEnd in
    let prevStartAwarded :=
      from_option DailyLogs.sleep_xp_start_awarded 0 existing in
    let newStartAwarded := award_once (bool_decide (is_Some effectiveStart))
                                      prevStartAwarded in
    let prevEndAwarded := from_option DailyLogs.sleep_xp_end_awarded 0 existing in
    let newEndAwarded := award_once (bool_decide (is_Some effectiveEnd))
                                    prevEndAwarded in
    let prevGoalAwarded := from_option DailyLogs.sleep_goal_xp_awarded 0 existing in
    let goalMet := from_option (λ h, h >=? SLEEP_GOAL_HOURS * 10) false hours in
    let newGoalAwarded := award_once goalMet prevGoalAwarded in
    let rawXpDelta :=
      0 + award_xp newStartAwarded prevStartAwarded SLEEP_LOG_XP
        + award_xp newEndAwarded prevEndAwarded SLEEP_LOG_XP
        + award_xp newGoalAwarded prevGoalAwarded SLEEP_GOAL_BONUS_XP in
    let currentDayXp := from_option DailyLogs.xp_earned 0 existing in
    let xpDelta := capDailyXp (Some currentDayXp) rawXpDelta in
    respond db userId today now existing
      (DailyLogs.write_sleep newStartAwarded newEndAwarded newGoalAwarded
         effectiveStart effectiveEnd hours
         (xp_earned_field currentDayXp xpDelta) now)
      xpDelta.

Definition handleFoodUpdate (db : database) (userId : string)
    (item : option string) (checked : js_value) (today now : Z)
    : database * completion reply :=
  match item ≫= (λ i, FOOD_HABITS !! i) with
  | None => (db, Returns (Status 400))
  | Some habit =>
      if negb (is_boolean_or_bit checked) then (db, Returns (Status 400))
      else
        let done := is_true_or_one checked in
        let processedValue := if done then 1 else 0 in
        let existing := daily_logs db !! (userId, today) in
        let prevXpAwarded :=
          from_option (DailyLogs.food_xp_col (col habit)) 0 existing in
        let newXpAwarded := award_once done prevXpAwarded in
        let rawXpDelta := award_xp newXpAwarded prevXpAwarded (xp habit) in
        let currentDayXp := from_option DailyLogs.xp_earned 0 existing in
        let xpDelta := capDailyXp (Some currentDayXp) rawXpDelta in
        respond db userId today now existing
          (DailyLogs.write_food (col habit) processedValue newXpAwarded
             (xp_earned_field currentDayXp xpDelta) now)
          xpDelta
  end.

(** [goalConfig?.daily_steps ?? 10000] *)
Definition stepGoal (db : database) (userId : string) : Z :=
  from_option HabitsConfig.daily_steps 10000 (habits_config db !! userId).

(** [req.body.source || "manual"] *)
Definition effective_source (source : option string) : string :=
  match source with
  | Some s => if bool_decide (s = "") then "manual" else s
  | None => "manual"
  end.

(** The manual-logging bonus of [handleStepsUpdate]: the increase over the
    stored manual count is at least 500 and the cooldown has passed, a
    missing last-bonus time counting as instant 0. [dateNow] is [Date.now()]. *)
Definition cooldownPassed (lastBonusAt : option Z) (dateNow : Z) : bool :=
  dateNow - default 0 lastBonusAt >=? TWO_HOURS_MS.

Definition stepBonus (steps prevManual : Z) (lastBonusAt : option Z)
    (dateNow : Z) : bool :=
  (steps - prevManual >=? STEP_BONUS_INCREMENT) && cooldownPassed lastBonusAt dateNow.

Definition handleStepsUpdate (db : database) (userId : string)
    (value : js_value) (source : option string) (today now dateNow : Z)
    : database * completion reply :=
  let source := effective_source source in
  let manual := bool_decide (source = "manual") in
  if negb manual && negb (bool_decide (source = "google_fit"))
  then (db, Returns (Status 400))
  else
    match parseInt value with
    | None => (db, Returns (Status 400))
    | Some steps =>
        if steps <? 0 then (db, Returns (Status 400))
        else if manual && (steps >? MAX_MANUAL_STEPS)
        then (db, Returns (Status 400))
        else
          let goal := stepGoal db userId in
          let goalXp := if goal =? 5000 then 20 else 40 in
          let existing := daily_logs db !! (userId, today) in
          let prevManual := default 0 (existing ≫= DailyLogs.steps_manual) in
          let newManual :=
            if manual then Some steps else existing ≫= DailyLogs.steps_manual in
          let newGoogleFit :=
            if manual then existing ≫= DailyLogs.steps_google_fit else Some steps in
          let effectiveSteps := Z.max (default 0 newManual) (default 0 newGoogleFit) in
          let prevGoalXpAwarded :=
            from_option DailyLogs.steps_goal_xp_awarded 0 existing in
          let newGoalXpAwarded :=
            award_once (effectiveSteps >=? goal) prevGoalXpAwarded in
          let lastBonusAt := existing ≫= DailyLogs.steps_last_bonus_at in
          let bonus := manual && stepBonus steps prevManual lastBonusAt dateNow in
          let rawXpDelta :=
            0 + award_xp newGoalXpAwarded prevGoalXpAwarded goalXp
              + (if bonus then STEP_BONUS_XP else 0) in
          let newLastBonusAt := if bonus then Some now else lastBonusAt in
          let currentDayXp := from_option DailyLogs.xp_earned 0 existing in
          let xpDelta := capDailyXp (Some currentDayXp) rawXpDelta in
          respond db userId today now existing
            (DailyLogs.write_steps effectiveSteps newGoalXpAwarded newLastBonusAt
               (if manual then newManual else None)
               (if manual then None else newGoogleFit)
               (xp_earned_field currentDayXp xpDelta) now)
            xpDelta
    end.

(** The generic tail of the route, reached by category "vegetables" only: the
    value is stored by an [UPDATE] or an [INSERT], outside any transaction,
    and no XP is involved. *)
Definition handleVegetablesUpdate (db : database) (userId : string)
    (value : js_value) (today now : Z) : database * completion reply :=
  match parseInt value with
  | None => (db, Returns (Status 400))
  | Some num =>
      if num <? 0 then (db, Returns (Status 400))
      else
        let existing := daily_logs db !! (userId, today) in
        let row :=
          DailyLogs.write_vegetables_count num now
            (default (DailyLogs.fresh now) existing) in
        (with_daily_logs (insert (userId, today) row) db, Returns JsonToday)
  end.

(** A [PATCH /api/habits/today/:category] request: the category with the
    fields of the body its handler reads. *)
Inductive request :=
  | PatchSteps (value : js_value) (source : option string)
  | PatchMovement (value : js_value)
  | PatchHydration (value : js_value)
  | PatchSleep (sleepStart sleepEnd : option (Z * Z))
  | PatchFood (item : option string) (checked : js_value)
  | PatchVegetables (value : js_value).

(** [body("value").exists()], not asked of "sleep" and "food". *)
Definition value_exists (req : request) : bool :=
  match req with
  | PatchSteps JUndefined _ | PatchMovement JUndefined
  | PatchHydration JUndefined | PatchVegetables JUndefined => false
  | _ => true
  end.

(** The route behind [requireAuth] (401 for a session whose user row is
    gone).  [now] is the instant the route takes with [new Date()], [dateNow]
    the later reading [Date.now()] of the steps handler. *)
Definition patchToday (db : database) (userId : string) (req : request)
    (today now dateNow : Z) : database * completion reply :=
  match users db !! userId with
  | None => (db, Returns (Status 401))
  | Some _ =>
      if negb (value_exists req) then (db, Returns (Status 400))
      else
        match req with
        | PatchSteps value source =>
            handleStepsUpdate db userId value source today now dateNow
        | PatchMovement value => handleMovementUpdate db userId value today now
        | PatchHydration value => handleHydrationUpdate db userId value today now
        | PatchSleep sleepStart sleepEnd =>
            handleSleepUpdate db userId sleepStart sleepEnd today now
        | PatchFood item checked => handleFoodUpdate db userId item checked today now
        | PatchVegetables value => handleVegetablesUpdate db userId value today now
        end
  end.

(** A client's requests arriving one after the other, each with the user it
    is authenticated as and the clock readings of its handling. *)
Record arrival := mk_arrival {
  who : string;
  what : request;
  today_ : Z;
  now_ : Z;
  dateNow_ : Z;
}.

Definition serve (db : database) (a : arrival) : database :=
  (patchToday db (who a) (what a) (today_ a) (now_ a) (dateNow_ a)).1.

Definition serveAll (db : database) (arrivals : list arrival) : database :=
  foldl serve db arrivals.

End Habits.

(* ===================================================================== *)
(** ** utils/streak.js *)
(* ===================================================================== *)

Module Streak.

(** Dates are day numbers: adding days is addition. *)
Definition addDays (dateStr days : Z) : Z := dateStr + days.

Definition STREAK_THRESHOLD : Z := 3.
Definition SHIELD_STREAK_INTERVAL : Z := 7.
Definition MAX_SHIELDS : Z := 1.

(** [cond ? count + 1 : count] *)
Definition bump (cond : bool) (count : Z) : Z := if cond then count + 1 else count.

Definition countCompletedCategories (db : database) (userId : string)
    (dateStr : Z) : Z :=
  match daily_logs db !! (userId, dateStr) with
  | None => 0
  | Some log =>
      let goals := habits_config db !! userId in
      let count := 0 in
      (* Steps *)
      let count :=
        bump (from_option
                (λ s, s >=? from_option HabitsConfig.daily_steps 10000 goals)
                false (DailyLogs.steps log)) count in
      (* Hydration *)
      let count :=
        bump (from_option
                (λ g, g >=? from_option HabitsConfig.hydration_glasses 8 goals)
                false (DailyLogs.hydration_glasses log)) count in
      (* Sleep: [sleep_hours >= 7], the column being in tenths *)
      let count :=
        bump (from_option (λ h, h >=? 7 * 10) false (DailyLogs.sleep_hours log))
             count in
      (* Movement *)
      let count := bump (DailyLogs.movement_done log =? 1) count in
      (* Food (any of the 3 checkboxes) *)
      let count :=
        bump ((DailyLogs.food_vegetables log =? 1)
              || (DailyLogs.food_no_junk log =? 1)
              || (DailyLogs.food_breakfast log =? 1)) count in
      count
  end.

(** The three locals the backfill loop carries. *)
Record counters := mk_counters {
  currentStreak : Z;
  longestStreak : Z;
  shields : Z;
}.

(** The body of the [while] loop for one day with [completed] categories.
    [%] is JavaScript's remainder, which truncates; the test it feeds is
    guarded by [currentStreak > 0]. *)
Definition evaluateDay (completed : Z) (c : counters) : counters :=
  let '(cur, sh) :=
    if completed >=? STREAK_THRESHOLD then
      let cur := currentStreak c + 1 in
      if (cur >? 0) && (Z.rem cur SHIELD_STREAK_INTERVAL =? 0)
         && (shields c <? MAX_SHIELDS)
      then (cur, shields c + 1)
      else (cur, shields c)
    else if shields c >? 0 then (currentStreak c, shields c - 1)
    else (0, shields c) in
  mk_counters cur (Z.max (longestStreak c) cur) sh.

(** [while (evalDate <= yesterday) { ...; evalDate = addDays(evalDate, 1) }] *)
Fixpoint backfill (fuel : nat) (db : database) (userId : string)
    (evalDate yesterday : Z) (c : counters) : counters :=
  match fuel with
  | O => c
  | S fuel' =>
      if evalDate <=? yesterday then
        let completed := countCompletedCategories db userId evalDate in
        backfill fuel' db userId (addDays evalDate 1) yesterday
                 (evaluateDay completed c)
      else c
  end.

(** [evaluateStreakIfNeeded], [today] being the date [getTodayForTimezone]
    gives.  The loop runs at most [today - lastEval] times, which is the fuel
    it is given. *)
Definition evaluateStreakIfNeeded (db : database) (userId : string) (today : Z)
    : database * completion unit :=
  match users db !! userId with
  | None => (db, Throws)
  | Some user =>
      match Users.streak_last_evaluated_date user with
      | None =>
          (with_users (insert userId (Users.set_last_evaluated today user)) db,
           Returns ())
      | Some lastEval =>
          if lastEval >=? today then (db, Returns ())
          else
            let yesterday := addDays today (-1) in
            let c0 := mk_counters (Users.current_streak user)
                                  (Users.longest_streak user)
                                  (Users.streak_shields user) in
            let c := backfill (Z.to_nat (today - lastEval)) db userId
                              (addDays lastEval 1) yesterday c0 in
            (with_users
               (insert userId
                  (Users.set_streak (currentStreak c) (longestStreak c)
                                    (shields c) today user)) db,
             Returns ())
      end
  end.

End Streak.

(* ===================================================================== *)
(** ** utils/mascot.js *)
(* ===================================================================== *)

Module Mascot.

Record mascot := mk_mascot { id : Z; name : string; stage : Z }.

Definition MASCOT_EVOLUTION : gmap string (list mascot) :=
  {[ "underweight" := [ mk_mascot 1 "Baby Flamingo" 1;
                        mk_mascot 11 "Flamingo" 2;
                        mk_mascot 12 "Dancing Flamingo" 3 ];
     "normal" := [ mk_mascot 2 "Energetic Fox" 1;
                   mk_mascot 21 "Swift Fox" 2;
                   mk_mascot 22 "Champion Fox" 3 ];
     "overweight" := [ mk_mascot 3 "Chunky Bear" 1;
                       mk_mascot 31 "Strong Bear" 2;
                       mk_mascot 32 "Mighty Bear" 3 ];
     "obese_1" := [ mk_mascot 4 "Sleepy Panda" 1;
                    mk_mascot 41 "Active Panda" 2;
                    mk_mascot 42 "Warrior Panda" 3 ];
     "obese_2" := [ mk_mascot 5 "Cozy Sloth" 1;
                    mk_mascot 51 "Speedy Sloth" 2;
                    mk_mascot 52 "Turbo Sloth" 3 ] ]}.

Definition EVOLUTION_LEVEL_5 : Z := 5.
Definition EVOLUTION_LEVEL_10 : Z := 10.

Definition getMascotStageForLevel (level : Z) : nat :=
  if level >=? EVOLUTION_LEVEL_10 then 2%nat
  else if level >=? EVOLUTION_LEVEL_5 then 1%nat
  else 0%nat.

Definition getMascotForLevel (bmiCategory : string) (level : Z) : option mascot :=
  match MASCOT_EVOLUTION !! bmiCategory with
  | None => None
  | Some stages => stages !! getMascotStageForLevel level
  end.

(** What [checkAndApplyEvolution] returns when an evolution occurred. *)
Record evolution := mk_evolution {
  previousMascot : option Z * option string;
  newMascot : mascot;
  badgeType : string;
  badgeName : string;
  evolutionLevel : Z;
}.

(** [checkAndApplyEvolution], statement by statement.  [now] is the instant
    of the call; [uuid5] and [uuid] are the results of the two [uuidv4()]
    calls, in source order: the one for the extra "evolution_5" row of a
    double crossing, and the one for the last insert.  Every [db.prepare] is
    checked against [Schema] and throws where the schema lacks what the
    statement names.  The statements run outside any transaction, so a throw
    leaves what was already written. *)
Definition checkAndApplyEvolution (db : database) (userId : string)
    (previousLevel newLevel : Z) (now : Z) (uuid5 uuid : string)
    : database * completion (option evolution) :=
  if newLevel <=? previousLevel then (db, Returns None)
  else
    let crossedLevel5 :=
      (previousLevel <? EVOLUTION_LEVEL_5) && (newLevel >=? EVOLUTION_LEVEL_5) in
    let crossedLevel10 :=
      (previousLevel <? EVOLUTION_LEVEL_10) && (newLevel >=? EVOLUTION_LEVEL_10) in
    if negb crossedLevel5 && negb crossedLevel10 then (db, Returns None)
    else
      (* SELECT bmi_category, mascot_id, mascot_name, mascot_stage
         FROM users WHERE id = ? *)
      if negb (Schema.prepares "users"
                 ["bmi_category"; "mascot_id"; "mascot_name"; "mascot_stage";
                  "id"])
      then (db, Throws)
      else
        match users db !! userId with
        | None => (db, Returns None)
        | Some user =>
            match Users.bmi_category user with
            | None => (db, Returns None)
            | Some bmi =>
                if bool_decide (bmi = "") then (db, Returns None)
                else
                  match getMascotForLevel bmi newLevel with
                  | None => (db, Returns None)
                  | Some new =>
                      if bool_decide (Users.mascot_id user = Some (id new))
                      then (db, Returns None)
                      else
                        let previous :=
                          (Users.mascot_id user, Users.mascot_name user) in
                        (* UPDATE users SET mascot_id = ?, mascot_name = ?,
                           mascot_stage = ? WHERE id = ? *)
                        if negb (Schema.prepares "users"
                                   ["mascot_id"; "mascot_name"; "mascot_stage";
                                    "id"])
                        then (db, Throws)
                        else
                          let db1 :=
                            with_users
                              (insert userId
                                 (Users.set_mascot (id new) (name new)
                                                   (stage new) user))
                              db in
                          let '(type, bname) :=
                            if crossedLevel10 then ("champion", "Champion")
                            else ("evolution_5", "Mascot Evolution") in
                          let first :=
                            if crossedLevel5 && crossedLevel10 then
                              Badges.insert_or_ignore
                                (Badges.mk uuid5 userId "evolution_5"
                                           "Mascot Evolution" now)
                                (badges db1)
                            else Returns (badges db1) in
                          match first with
                          | Throws => (db1, Throws)
                          | Returns t1 =>
                              match Badges.insert_or_ignore
                                      (Badges.mk uuid userId type bname now) t1
                              with
                              | Throws => (with_badges t1 db1, Throws)
                              | Returns t2 =>
                                  (with_badges t2 db1,
                                   Returns (Some (mk_evolution previous new type
                                      bname (if crossedLevel10 then 10 else 5))))
                              end
                          end
                  end
            end
        end.

End Mascot.

(* ===================================================================== *)
(** ** The read routes: routes/habits.js (GET), routes/dashboard.js,
       routes/users.js (stats) *)
(* ===================================================================== *)

Module Views.
Import Habits.

(** The keys of [FOOD_HABITS] in the order of the object literal, with their
    labels. *)
Definition FOOD_HABIT_LABELS : list (string * string) :=
  [ ("vegetables", "Ate 2 servings of vegetables");
    ("no_junk", "Skipped junk food today");
    ("breakfast", "Ate breakfast") ].

Record food_entry := mk_food_entry {
  entry_id : string;
  entry_label : string;
  entry_xp : Z;
  entry_checked : bool;
}.

(** [buildFoodHabitsResponse]: one entry per habit,
    [checked: (log?.[habit.col] ?? 0) === 1]. *)
Definition buildFoodHabitsResponse (log : option DailyLogs.row) : list food_entry :=
  omap (λ kl : string * string,
          habit ← FOOD_HABITS !! kl.1;
          Some (mk_food_entry kl.1 kl.2 (xp habit)
                  (bool_decide
                     (from_option (DailyLogs.food_col (col habit)) 0 log = 1))))
       FOOD_HABIT_LABELS.

(** The [today] object of [GET /api/habits/today] (without the mood and notes
    columns, which no handler here writes). *)
Record today_values := mk_today_values {
  tv_steps : option Z;
  tv_stepsManual : option Z;
  tv_stepsGoogleFit : option Z;
  tv_hydration : option Z;
  tv_sleep : option Z;
  tv_sleepStart : option (Z * Z);
  tv_sleepEnd : option (Z * Z);
  tv_movement : bool;
  tv_vegetables : option Z;
  tv_xpEarned : Z;
}.

Record today_response := mk_today_response {
  tr_date : Z;
  tr_goals : option HabitsConfig.row;
  tr_foodHabits : list food_entry;
  tr_today : option today_values;
}.

(** [GET /api/habits/today] behind [requireAuth] (401, here [None], for a
    session whose user row is gone): the streak is evaluated for the date
    [evalToday] that [evaluateStreakIfNeeded] reads from the clock, then
    today's row is read for the date [today] the route reads itself. *)
Definition getToday (db : database) (userId : string) (evalToday today : Z)
    : database * completion (option today_response) :=
  match users db !! userId with
  | None => (db, Returns None)
  | Some _ =>
      match Streak.evaluateStreakIfNeeded db userId evalToday with
      | (db1, Throws) => (db1, Throws)
      | (db1, Returns _) =>
          let log := daily_logs db1 !! (userId, today) in
          (db1,
           Returns (Some (mk_today_response today (habits_config db1 !! userId)
             (buildFoodHabitsResponse log)
             (log ≫= λ l, Some (mk_today_values
                (DailyLogs.steps l) (DailyLogs.steps_manual l)
                (DailyLogs.steps_google_fit l) (DailyLogs.hydration_glasses l)
                (DailyLogs.sleep_hours l) (DailyLogs.sleep_start l)
                (DailyLogs.sleep_end l)
                (bool_decide (DailyLogs.movement_done l = 1))
                (DailyLogs.vegetables_count l) (DailyLogs.xp_earned l))))))
      end
  end.

(** The progression part of the answer of [GET /api/dashboard]. *)
Record dashboard := mk_dashboard {
  d_mascot : option (Z * option string * string);
  d_current : Z;
  d_longest : Z;
  d_shields : Z;
  d_mood : string;
  d_categoriesCompletedToday : Z;
  d_categoriesRequired : Z;
  d_onTrack : bool;
  d_xpTotal : Z;
  d_level : Z;
  d_xpForNextLevel : option Z;
  d_dailyXpEarned : Z;
  d_dailyXpCap : Z;
  d_hydrationCurrent : Z;
  d_hydrationTarget : Z;
  d_hydrationGoalMet : bool;
  d_sleepGoalMet : bool;
  d_foodHabits : list food_entry;
}.

(** The handler of [GET /api/dashboard], behind the middlewares that load the
    user: evaluate the streak (for [evalToday]), read the user, then read the
    ledger of [today]. *)
Definition getDashboard (db : database) (userId : string) (evalToday today : Z)
    : database * completion dashboard :=
  match Streak.evaluateStreakIfNeeded db userId evalToday with
  | (db1, Throws) => (db1, Throws)
  | (db1, Returns _) =>
      match users db1 !! userId with
      | None => (db1, Throws)
      | Some user =>
          let habitLog := daily_logs db1 !! (userId, today) in
          let habitGoals := habits_config db1 !! userId in
          let categoriesCompleted :=
            Streak.countCompletedCategories db1 userId today in
          let mascotMood :=
            if Users.current_streak user >? 0 then "happy" else "sad" in
          let hydration :=
            default 0 (habitLog ≫= DailyLogs.hydration_glasses) in
          let target := from_option HabitsConfig.hydration_glasses 8 habitGoals in
          (db1,
           Returns (mk_dashboard
             (match Users.mascot_id user with
              | Some mid =>
                  if mid =? 0 then None
                  else Some (mid, Users.mascot_name user, mascotMood)
              | None => None
              end)
             (Users.current_streak user) (Users.longest_streak user)
             (Users.streak_shields user) mascotMood
             categoriesCompleted 3 (categoriesCompleted >=? 3)
             (Users.xp_total user) (Users.level user)
             (Xp.getXpForNextLevel (Users.level user))
             (from_option DailyLogs.xp_earned 0 habitLog) Xp.DAILY_XP_CAP
             hydration target (hydration >=? target)
             (from_option (λ h, h >=? 7 * 10) false
                          (habitLog ≫= DailyLogs.sleep_hours))
             (buildFoodHabitsResponse habitLog)))
      end
  end.

(** [SELECT COALESCE(SUM(xp_earned), 0) FROM daily_logs WHERE user_id = ?] *)
Definition xp_from_logs (db : database) (userId : string) : Z :=
  map_fold (λ (key : string * Z) (row : DailyLogs.row) (acc : Z),
              if bool_decide (key.1 = userId)
              then acc + DailyLogs.xp_earned row else acc)
           0 (daily_logs db).

(** [SELECT COUNT( * ) FROM daily_logs WHERE user_id = ?] *)
Definition total_days (db : database) (userId : string) : Z :=
  map_fold (λ (key : string * Z) (_ : DailyLogs.row) (acc : Z),
              if bool_decide (key.1 = userId) then acc + 1 else acc)
           0 (daily_logs db).

Record stats := mk_stats {
  s_xpTotal : Z;
  s_level : Z;
  s_xpForNextLevel : option Z;
  s_currentStreak : Z;
  s_longestStreak : Z;
  s_streakShields : Z;
  s_totalDaysLogged : Z;
  s_xpFromLogs : Z;
}.

(** [GET /api/users/me/stats]; a missing user row makes [user.xp_total]
    throw. *)
Definition getStats (db : database) (userId : string) : completion stats :=
  match users db !! userId with
  | None => Throws
  | Some user =>
      Returns (mk_stats (Users.xp_total user) (Users.level user)
                 (Xp.getXpForNextLevel (Users.level user))
                 (Users.current_streak user) (Users.longest_streak user)
                 (Users.streak_shields user)
                 (total_days db userId) (xp_from_logs db userId))
  end.

End Views.

(* ===================================================================== *)
(** ** routes/onboarding.js: the starter mascot *)
(* ===================================================================== *)

Module Onboarding.

(** [getBmiInfo] on a BMI with one decimal, held in tenths (the handler
    rounds it with [Math.round(x * 10) / 10]): the category and the label. *)
Definition getBmiInfo (bmi : Z) : string * string :=
  if bmi <? 185 then ("underweight", "Let's build strength")
  else if bmi <? 250 then ("normal", "Keep it up!")
  else if bmi <? 300 then ("overweight", "Let's get moving")
  else if bmi <? 350 then ("obese_1", "Every step counts")
  else ("obese_2", "You've got this").

Definition MASCOT_MAP : gmap string (Z * string) :=
  {[ "underweight" := (1, "Baby Flamingo");
     "normal" := (2, "Energetic Fox");
     "overweight" := (3, "Chunky Bear");
     "obese_1" := (4, "Sleepy Panda");
     "obese_2" := (5, "Cozy Sloth") ]}.

(** The [UPDATE users SET ... bmi_category = ?, mascot_id = ?, mascot_name = ?]
    of [POST /api/onboarding/step2], on the progression columns, for the BMI
    (in tenths) the handler has computed, with the status it answers.
    [MASCOT_MAP[category]] of a missing key is [undefined]; reading [.id] of
    it throws inside the [try], which answers 500. *)
Definition step2 (db : database) (userId : string) (bmi : Z) : database * Z :=
  let category := (getBmiInfo bmi).1 in
  match MASCOT_MAP !! category with
  | None => (db, 500)
  | Some mascot =>
      (with_users
         (λ us, match us !! userId with
                | Some u =>
                    <[userId :=
                        Users.mk (Some category) (Some mascot.1) (Some mascot.2)
                                 (Users.mascot_stage u) (Users.xp_total u)
                                 (Users.level u) (Users.current_streak u)
                                 (Users.longest_streak u) (Users.streak_shields u)
                                 (Users.streak_last_evaluated_date u)]> us
                | None => us
                end) db,
       200)
  end.

End Onboarding.

(* ===================================================================== *)
(** ** Notions the statements below use *)
(* ===================================================================== *)

(** [threshold L]: the entry of the table for level [L] (index [L - 1]). *)
Definition threshold (L : Z) : option Z :=
  Xp.LEVEL_THRESHOLDS !! Z.to_nat (L - 1).

(** Every ledger row is within the daily cap. *)
Definition ledger_capped (db : database) : Prop :=
  map_Forall (λ _ row, DailyLogs.xp_earned row ≤ Xp.DAILY_XP_CAP)
             (daily_logs db).

(** Today's total of a user, 0 while the day has no row. *)
Definition xpEarnedToday (db : database) (userId : string) (today : Z) : Z :=
  from_option DailyLogs.xp_earned 0 (daily_logs db !! (userId, today)).

(** The award state of a ledger row: the one-shot flags, the hydration
    high-water mark and the instant of the last steps bonus. *)
Definition award_flags (r : DailyLogs.row) : list Z * option Z :=
  ([ DailyLogs.steps_goal_xp_awarded r;
     DailyLogs.hydration_xp_glasses r;
     DailyLogs.hydration_goal_xp_awarded r;
     DailyLogs.sleep_xp_start_awarded r;
     DailyLogs.sleep_xp_end_awarded r;
     DailyLogs.sleep_goal_xp_awarded r;
     DailyLogs.movement_xp_awarded r;
     DailyLogs.food_veg_xp_awarded r;
     DailyLogs.food_nojunk_xp_awarded r;
     DailyLogs.food_breakfast_xp_awarded r ],
   DailyLogs.steps_last_bonus_at r).

(** The XP a handler's answer reports, when it answers with the JSON body. *)
Definition awarded (c : completion Habits.reply) : option Z :=
  match c with
  | Returns (Habits.Json r) => Some (Habits.xpAwarded r)
  | _ => None
  end.

(** A repeated request is absorbed: it is answered with the JSON body, awards
    0 XP, and leaves every user row, today's total and today's award state as
    the first one left them. *)
Definition absorbed (db1 : database) (userId : string) (today : Z)
    (second : database * completion Habits.reply) : Prop :=
  ∃ r2 row1 row2,
    second.2 = Returns (Habits.Json r2)
    ∧ Habits.xpAwarded r2 = 0
    ∧ users second.1 = users db1
    ∧ daily_logs db1 !! (userId, today) = Some row1
    ∧ daily_logs second.1 !! (userId, today) = Some row2
    ∧ DailyLogs.xp_earned row2 = DailyLogs.xp_earned row1
    ∧ award_flags row2 = award_flags row1.

(** The stored hydration high-water mark of the day, 0 while it has no row. *)
Definition hydrationMark (db : database) (userId : string) (today : Z) : Z :=
  from_option DailyLogs.hydration_xp_glasses 0 (daily_logs db !! (userId, today)).

(** The days a backfill judges, from [first] to [last], oldest first. *)
Definition days_between (first last : Z) : list Z := seqZ first (last - first + 1).

(** The counters after judging a list of days in the order given. *)
Definition judge (db : database) (userId : string) (days : list Z)
    (c : Streak.counters) : Streak.counters :=
  foldl (λ c d, Streak.evaluateDay (Streak.countCompletedCategories db userId d) c)
        c days.

(** The nine one-shot award flags of a ledger row. *)
Definition one_shot_flags (r : DailyLogs.row) : list Z :=
  [ DailyLogs.steps_goal_xp_awarded r;
    DailyLogs.hydration_goal_xp_awarded r;
    DailyLogs.sleep_xp_start_awarded r;
    DailyLogs.sleep_xp_end_awarded r;
    DailyLogs.sleep_goal_xp_awarded r;
    DailyLogs.movement_xp_awarded r;
    DailyLogs.food_veg_xp_awarded r;
    DailyLogs.food_nojunk_xp_awarded r;
    DailyLogs.food_breakfast_xp_awarded r ].

(** A flag keeps its value or goes from 0 (not awarded) to 1 (awarded). *)
Definition flag_step (old new : Z) : Prop := new = old ∨ (old = 0 ∧ new = 1).

(** The stored effective steps are the larger of the two sources, an absent
    source counting as 0 (or nothing has been stored at all). *)
Definition steps_ok (r : DailyLogs.row) : Prop :=
  (DailyLogs.steps r = None ∧ DailyLogs.steps_manual r = None
   ∧ DailyLogs.steps_google_fit r = None)
  ∨ DailyLogs.steps r
    = Some (Z.max (default 0 (DailyLogs.steps_manual r))
                  (default 0 (DailyLogs.steps_google_fit r))).

(** How a handler may change today's row. *)
Definition row_progress (old new : DailyLogs.row) : Prop :=
  Forall2 flag_step (one_shot_flags old) (one_shot_flags new)
  ∧ DailyLogs.hydration_xp_glasses old ≤ DailyLogs.hydration_xp_glasses new
  ∧ (steps_ok old → steps_ok new)
  ∧ DailyLogs.created_at new = DailyLogs.created_at old.

(** The user row after [xpDelta] more XP. *)
Definition credited (xpDelta : Z) (u : Users.row) : Users.row :=
  if xpDelta >? 0 then
    Users.set_xp (Users.xp_total u + xpDelta)
                 (Xp.getLevelForXp (Users.xp_total u + xpDelta)) u
  else u.

(** Every user's stored level is the level of the stored XP total. *)
Definition level_cached (db : database) : Prop :=
  map_Forall (λ _ u, Users.level u = Xp.getLevelForXp (Users.xp_total u))
             (users db).

(** Every ledger row stores consistent step counts. *)
Definition ledger_steps_ok (db : database) : Prop :=
  map_Forall (λ _ row, steps_ok row) (daily_logs db).

(** The columns of a user row that the habit route has no business with. *)
Definition profile (u : Users.row) :=
  (Users.bmi_category u, Users.mascot_id u, Users.mascot_name u,
   Users.mascot_stage u, Users.current_streak u, Users.longest_streak u,
   Users.streak_shields u, Users.streak_last_evaluated_date u).

(** What a ledger row never loses: no flag is reset, the hydration mark and
    the day's XP do not go down. *)
Definition keeps_awards (old new : DailyLogs.row) : Prop :=
  Forall2 flag_step (one_shot_flags old) (one_shot_flags new)
  ∧ DailyLogs.hydration_xp_glasses old ≤ DailyLogs.hydration_xp_glasses new
  ∧ DailyLogs.xp_earned old ≤ DailyLogs.xp_earned new.

(** The answer to a food item the client has just set. *)
Definition set_checked (item : string) (checked : bool) (e : Views.food_entry)
    : Views.food_entry :=
  if bool_decide (Views.entry_id e = item)
  then Views.mk_food_entry (Views.entry_id e) (Views.entry_label e)
                           (Views.entry_xp e) checked
  else e.

(** The three streak counters of a user row. *)
Definition streak_counters (u : Users.row) : Streak.counters :=
  Streak.mk_counters (Users.current_streak u) (Users.longest_streak u)
                     (Users.streak_shields u).

(** The columns of a user row that the streak evaluation leaves alone. *)
Definition account (u : Users.row) :=
  (Users.bmi_category u, Users.mascot_id u, Users.mascot_name u,
   Users.mascot_stage u, Users.xp_total u, Users.level u).

(** The counters are in their ranges. *)
Definition counters_ok (c : Streak.counters) : Prop :=
  0 ≤ Streak.currentStreak c ≤ Streak.longestStreak c
  ∧ 0 ≤ Streak.shields c ≤ Streak.MAX_SHIELDS.

(** The stage number that goes with a level: 1 below level 5, 2 from level 5,
    3 from level 10. *)
Definition stage_of_level (level : Z) : Z :=
  if level >=? 10 then 3 else if level >=? 5 then 2 else 1.

(* ===================================================================== *)
(** ** Sample data *)
(* ===================================================================== *)

Module Sample.
Import Habits.

(** A new account: starter mascot, nothing earned, streak judged up to
    day 100. *)
Definition alice : Users.row :=
  Users.mk (Some "normal") (Some 2) (Some "Energetic Fox") (Some 1)
           0 1 0 0 0 (Some 100).

Definition db0 : database := mkdb {[ "alice" := alice ]} ∅ ∅ [].

(** Noon of a day, in milliseconds. *)
Definition noon (day : Z) : Z := day * 86400000 + 43200000.

Definition patch (day : Z) (req : request) : arrival :=
  mk_arrival "alice" req day (noon day) (noon day + 2).

(** A day whose raw awards add up to far more than the cap. *)
Definition busy_day : list arrival :=
  [ patch 101 (PatchHydration (JNum 30));
    patch 101 (PatchMovement (JBool true));
    patch 101 (PatchSteps (JNum 12000) None);
    patch 101 (PatchSleep (Some (23, 0)) (Some (7, 30)));
    patch 101 (PatchFood (Some "breakfast") (JBool true)) ].

(** Three days with 4, 1 and 5 of the 5 categories complete. *)
Definition three_days : list arrival :=
  [ patch 101 (PatchSteps (JNum 12000) None);
    patch 101 (PatchHydration (JNum 8));
    patch 101 (PatchSleep (Some (23, 0)) (Some (6, 30)));
    patch 101 (PatchMovement (JBool true));
    patch 102 (PatchMovement (JBool true));
    patch 103 (PatchSteps (JNum 10000) (Some "google_fit"));
    patch 103 (PatchHydration (JNum 9));
    patch 103 (PatchSleep (Some (22, 15)) (Some (6, 0)));
    patch 103 (PatchMovement (JNum 1));
    patch 103 (PatchFood (Some "vegetables") (JBool true)) ].

Definition db_three_days : database := serveAll db0 three_days.

End Sample.

(* ===================================================================== *)
(** ** The daily cap and the level table *)
(* ===================================================================== *)

(** The table is only ever evaluated by [vm_compute]. *)
Opaque Xp.LEVEL_THRESHOLDS.

Section XpFacts.
Import Xp.

Lemma capDailyXp_range (currentDayXp proposedDelta : Z) :
  0 ≤ capDailyXp (Some currentDayXp) proposedDelta
    ≤ Z.max 0 (DAILY_XP_CAP - currentDayXp).
Proof.
  unfold capDailyXp; simpl.
  destruct (Z.leb_spec proposedDelta 0); lia.
Qed.

Lemma capDailyXp_zero (currentDayXp : Z) :
  capDailyXp (Some currentDayXp) 0 = 0.
Proof. reflexivity. Qed.

(** Adding a capped delta to a total within the cap stays within the cap. *)
Lemma capDailyXp_keeps_cap (currentDayXp proposedDelta : Z) :
  currentDayXp ≤ DAILY_XP_CAP →
  currentDayXp + capDailyXp (Some currentDayXp) proposedDelta ≤ DAILY_XP_CAP.
Proof.
  intros Hle. pose proof (capDailyXp_range currentDayXp proposedDelta). lia.
Qed.

Lemma level_loop_lower (xp : Z) (rest : list Z) (i : Z) :
  i ≤ level_loop xp rest i i.
Proof.
  revert i; induction rest as [|t rest IH]; intros i; simpl; [lia|].
  destruct (xp >=? t); [|lia].
  specialize (IH (i + 1)). lia.
Qed.

Lemma level_loop_mono (xp xp' : Z) (rest : list Z) (i : Z) :
  xp ≤ xp' → level_loop xp rest i i ≤ level_loop xp' rest i i.
Proof.
  intros Hle. revert i; induction rest as [|t rest IH]; intros i; simpl; [lia|].
  destruct (Z.geb_spec xp t) as [Hge|Hlt].
  - destruct (Z.geb_spec xp' t); [apply IH | lia].
  - destruct (xp' >=? t); [|lia].
    pose proof (level_loop_lower xp' rest (i + 1)). lia.
Qed.

(** On an ascending list the loop stops exactly after the entries that are
    at most [xp]. *)
Lemma level_loop_sorted (xp : Z) (rest : list Z) (i : Z) :
  StronglySorted Z.le rest →
  let r := level_loop xp rest i i in
  r ≤ i + Z.of_nat (length rest)
  ∧ ∀ (j : nat) (t : Z), rest !! j = Some t → (t ≤ xp ↔ Z.of_nat j < r - i).
Proof.
  intros Hs. revert i; induction Hs as [|t rest Hs IH Hall]; intros i; simpl.
  - split; [lia|]. intros j t Hj. by rewrite lookup_nil in Hj.
  - destruct (Z.geb_spec xp t) as [Hge|Hlt].
    + destruct (IH (i + 1)) as [Hlen Hchar].
      pose proof (level_loop_lower xp rest (i + 1)).
      split; [lia|]. intros [|j] u Hj; simpl in Hj.
      * injection Hj as <-. lia.
      * rewrite (Hchar j u Hj). lia.
    + split; [lia|]. intros [|j] u Hj; simpl in Hj.
      * injection Hj as <-. lia.
      * assert (t ≤ u).
        { rewrite Forall_forall in Hall. apply Hall.
          by eapply list_elem_of_lookup_2. }
        lia.
Qed.

Lemma thresholds_sorted : StronglySorted Z.le (drop 1 LEVEL_THRESHOLDS).
Proof. apply (bool_decide_unpack _). by vm_compute. Qed.

End XpFacts.

(** C3. [capDailyXp(currentDayXp, proposedDelta)] is 0 whenever
    [proposedDelta ≤ 0], and otherwise
    [min(proposedDelta, max(0, 150 − currentDayXp))]; in particular
    [capDailyXp(145, 10) = 5], [capDailyXp(150, 10) = 0],
    [capDailyXp(100, −5) = 0]; and the result always lies within
    [[0, max(0, 150 − currentDayXp)]]. *)
Theorem capDailyXp_spec (currentDayXp proposedDelta : Z) :
  (proposedDelta ≤ 0 → Xp.capDailyXp (Some currentDayXp) proposedDelta = 0)
  ∧ (0 < proposedDelta →
     Xp.capDailyXp (Some currentDayXp) proposedDelta
     = Z.min proposedDelta (Z.max 0 (150 - currentDayXp)))
  ∧ 0 ≤ Xp.capDailyXp (Some currentDayXp) proposedDelta
      ≤ Z.max 0 (150 - currentDayXp)
  ∧ Xp.capDailyXp (Some 145) 10 = 5
  ∧ Xp.capDailyXp (Some 150) 10 = 0
  ∧ Xp.capDailyXp (Some 100) (-5) = 0.
Proof.
  split_and!; try reflexivity.
  - intros Hle. unfold Xp.capDailyXp.
    by destruct (Z.leb_spec proposedDelta 0); [|lia].
  - intros Hpos. unfold Xp.capDailyXp, Xp.DAILY_XP_CAP; simpl.
    by destruct (Z.leb_spec proposedDelta 0); [lia|].
  - apply capDailyXp_range.
  - apply capDailyXp_range.
Qed.

Lemma capDailyXp_spec_witness :
  Xp.capDailyXp (Some 120) (-3) = 0
  ∧ Xp.capDailyXp (Some 120) 40 = Z.min 40 (Z.max 0 (150 - 120)).
Proof.
  split.
  - destruct (capDailyXp_spec 120 (-3)) as (Hneg & _). apply Hneg. lia.
  - destruct (capDailyXp_spec 120 40) as (_ & Hpos & _). apply Hpos. lia.
Defined.

Lemma thresholds_length : length Xp.LEVEL_THRESHOLDS = 100%nat.
Proof. vm_compute. reflexivity. Qed.

(** C9. The table has a threshold for each of the levels 1 to 100 and for no
    other; it starts 0, 500, 1200 and every later increment is the previous
    increment times 1.2 rounded to the nearest integer, which determines all
    100 entries; for every non-negative [xp], [getLevelForXp xp] is the
    highest level whose threshold is at most [xp]; [getLevelForXp] is
    monotonically non-decreasing; and it maps 0, 500, 1199, 1200 to
    1, 2, 2, 3. *)
Theorem getLevelForXp_spec :
  (threshold 1 = Some 0 ∧ threshold 2 = Some 500 ∧ threshold 3 = Some 1200
   ∧ (∀ L a b c, 3 < L →
        threshold (L - 2) = Some a → threshold (L - 1) = Some b →
        threshold L = Some c →
        Z.abs (10 * (c - b) - 12 * (b - a)) < 5)
   ∧ length Xp.LEVEL_THRESHOLDS = 100%nat
   ∧ (∀ L, 1 ≤ L ≤ 100 → is_Some (threshold L))
   ∧ (∀ L, 3 < L ≤ 100 →
        ∃ a b c, threshold (L - 2) = Some a ∧ threshold (L - 1) = Some b
                 ∧ threshold L = Some c
                 ∧ Z.abs (10 * (c - b) - 12 * (b - a)) < 5))
  ∧ (∀ xp, 0 ≤ xp →
       (∃ t, threshold (Xp.getLevelForXp xp) = Some t ∧ t ≤ xp)
       ∧ ∀ L t, 1 ≤ L → threshold L = Some t → t ≤ xp → L ≤ Xp.getLevelForXp xp)
  ∧ (∀ xp xp', xp ≤ xp' → Xp.getLevelForXp xp ≤ Xp.getLevelForXp xp')
  ∧ Xp.getLevelForXp 0 = 1
  ∧ Xp.getLevelForXp 500 = 2
  ∧ Xp.getLevelForXp 1199 = 2
  ∧ Xp.getLevelForXp 1200 = 3.
Proof.
  assert (Hrec : ∀ L a b c, 3 < L →
            threshold (L - 2) = Some a → threshold (L - 1) = Some b →
            threshold L = Some c →
            Z.abs (10 * (c - b) - 12 * (b - a)) < 5).
  { (* the recurrence, checked on the 97 generated entries *)
    intros L a b c HL Ha Hb Hc.
    assert (HL' : L ≤ 100).
    { unfold threshold in Hc. apply lookup_lt_Some in Hc.
      rewrite thresholds_length in Hc. lia. }
    assert (Hall : forallb (λ n : nat,
              match Xp.LEVEL_THRESHOLDS !! n, Xp.LEVEL_THRESHOLDS !! S n,
                    Xp.LEVEL_THRESHOLDS !! S (S n) with
              | Some a, Some b, Some c => Z.abs (10 * (c - b) - 12 * (b - a)) <? 5
              | _, _, _ => false
              end) (seq 1 97) = true).
    { vm_compute. reflexivity. }
    rewrite forallb_forall in Hall.
    specialize (Hall (Z.to_nat (L - 3))).
    unfold threshold in Ha, Hb, Hc.
    replace (Z.to_nat (L - 2 - 1)) with (Z.to_nat (L - 3)) in Ha by lia.
    replace (Z.to_nat (L - 1 - 1)) with (S (Z.to_nat (L - 3))) in Hb by lia.
    replace (Z.to_nat (L - 1)) with (S (S (Z.to_nat (L - 3)))) in Hc by lia.
    rewrite Ha, Hb, Hc in Hall. apply Z.ltb_lt, Hall.
    apply in_seq. lia. }
  assert (Hsome : ∀ L, 1 ≤ L ≤ 100 → is_Some (threshold L)).
  { clear. intros L HL. unfold threshold. apply lookup_lt_is_Some_2.
    rewrite thresholds_length. lia. }
  split; [|split; [|split]].
  - (* the table *)
    split; [clear; by vm_compute|]. split; [clear; by vm_compute|].
    split; [clear; by vm_compute|].
    split; [exact Hrec|]. split; [exact thresholds_length|].
    split; [exact Hsome|].
    intros L HL.
    destruct (Hsome (L - 2)) as [a Ha]; [clear -HL; lia|].
    destruct (Hsome (L - 1)) as [b Hb]; [clear -HL; lia|].
    destruct (Hsome L) as [c Hc]; [clear -HL; lia|].
    exists a, b, c.
    split; [exact Ha|]. split; [exact Hb|]. split; [exact Hc|].
    apply (Hrec L a b c); [clear -HL; lia|exact Ha|exact Hb|exact Hc].
  - (* highest level whose threshold is at most xp *)
    clear Hsome Hrec. intros xp Hxp.
    destruct (level_loop_sorted xp (drop 1 Xp.LEVEL_THRESHOLDS) 1 thresholds_sorted)
      as [Hlen Hchar].
    fold (Xp.getLevelForXp xp) in Hlen, Hchar.
    pose proof (level_loop_lower xp (drop 1 Xp.LEVEL_THRESHOLDS) 1) as Hlow.
    fold (Xp.getLevelForXp xp) in Hlow.
    rewrite length_drop, thresholds_length in Hlen.
    assert (Hshift : ∀ L, 2 ≤ L →
              threshold L = drop 1 Xp.LEVEL_THRESHOLDS !! Z.to_nat (L - 2)).
    { intros L HL. unfold threshold. rewrite lookup_drop. f_equal. lia. }
    split.
    + destruct (decide (Xp.getLevelForXp xp = 1)) as [->|Hne].
      * exists 0. split; [by vm_compute | lia].
      * destruct (lookup_lt_is_Some_2 (drop 1 Xp.LEVEL_THRESHOLDS)
                    (Z.to_nat (Xp.getLevelForXp xp - 2))) as [t Ht].
        { rewrite length_drop, thresholds_length. lia. }
        exists t. rewrite Hshift by lia. split; [done|].
        apply (Hchar _ _ Ht). clear -Hne Hlow. lia.
    + intros L t HL Ht Hle.
      destruct (decide (L = 1)) as [->|Hne]; [clear -Hlow; lia|].
      rewrite Hshift in Ht by lia.
      apply (Hchar _ _ Ht) in Hle. clear -Hle Hne HL. lia.
  - intros xp xp' Hle. unfold Xp.getLevelForXp.
    apply level_loop_mono. exact Hle.
  - clear. by vm_compute.
Qed.

Lemma getLevelForXp_spec_witness :
  (∃ t, threshold (Xp.getLevelForXp 1300) = Some t ∧ t ≤ 1300)
  ∧ Xp.getLevelForXp 1199 ≤ Xp.getLevelForXp 1200.
Proof.
  destruct getLevelForXp_spec as (_ & Hchar & Hmono & _).
  split.
  - apply (Hchar 1300). lia.
  - apply (Hmono 1199 1200). lia.
Defined.

(* ===================================================================== *)
(** ** The category handlers *)
(* ===================================================================== *)

Section HabitsFacts.
Import Habits.

Lemma applyXpToUser_tables (db : database) (userId : string) (xpDelta : Z) :
  daily_logs (applyXpToUser db userId xpDelta).1 = daily_logs db
  ∧ habits_config (applyXpToUser db userId xpDelta).1 = habits_config db
  ∧ badges (applyXpToUser db userId xpDelta).1 = badges db.
Proof.
  unfold applyXpToUser.
  destruct (xpDelta <=? 0); [done|].
  by destruct (users db !! userId).
Qed.

(** What the shared tail of a handler does to the database: nothing when the
    transaction throws; otherwise today's row becomes [fields] of the old row
    (or of the column defaults), no other row changes, and the user row only
    changes for a positive XP delta. *)
Lemma respond_effect (db : database) (userId : string) (today now : Z)
    (existing : option DailyLogs.row) (fields : DailyLogs.row → DailyLogs.row)
    (xpDelta : Z) :
  let res := respond db userId today now existing fields xpDelta in
  (users db !! userId = None ∧ res = (db, Throws))
  ∨ (daily_logs res.1
       = <[(userId, today) := fields (default (DailyLogs.fresh now) existing)]>
           (daily_logs db)
     ∧ habits_config res.1 = habits_config db
     ∧ badges res.1 = badges db
     ∧ (xpDelta ≤ 0 → users res.1 = users db)
     ∧ (is_Some (users db !! userId) →
        is_Some (users res.1 !! userId)
        ∧ ∃ r, res.2 = Returns (Json r) ∧ xpAwarded r = xpDelta)).
Proof.
  unfold respond, applyUpdate.
  destruct (Z.gtb_spec xpDelta 0) as [Hpos|Hle]; simpl.
  - unfold applyXpToUser.
    destruct (Z.leb_spec xpDelta 0) as [|_]; [lia|]. simpl.
    destruct (users db !! userId) as [user|] eqn:Hu; simpl; [|by left].
    rewrite lookup_insert_eq. simpl. right.
    split_and!; try done; try lia.
    intros _. split; [by rewrite lookup_insert_eq | by eexists].
  - destruct (users db !! userId) as [user|] eqn:Hu; simpl.
    + right. split_and!; try done.
      intros _. split; [by rewrite Hu | by eexists].
    + right. by split_and!.
Qed.

Lemma respond_keeps_cap (db : database) (userId : string) (today now : Z)
    (existing : option DailyLogs.row) (fields : DailyLogs.row → DailyLogs.row)
    (xpDelta : Z) :
  ledger_capped db →
  DailyLogs.xp_earned (fields (default (DailyLogs.fresh now) existing))
    ≤ Xp.DAILY_XP_CAP →
  ledger_capped (respond db userId today now existing fields xpDelta).1.
Proof.
  intros Hcap Hrow.
  destruct (respond_effect db userId today now existing fields xpDelta)
    as [[_ ->] | (Hlogs & _)]; [done|].
  intros key row. rewrite Hlogs.
  destruct (decide (key = (userId, today))) as [->|Hne].
  - rewrite lookup_insert_eq. by intros [= <-].
  - rewrite lookup_insert_ne by done. apply Hcap.
Qed.

(** The [xp_earned] a handler writes: the day's total plus the delta clamped
    against that same total. *)
Lemma xp_earned_written (existing : option DailyLogs.row) (now rawXpDelta : Z) :
  let currentDayXp := from_option DailyLogs.xp_earned 0 existing in
  DailyLogs.xp_field
    (xp_earned_field currentDayXp (Xp.capDailyXp (Some currentDayXp) rawXpDelta))
    (default (DailyLogs.fresh now) existing)
  = currentDayXp + Xp.capDailyXp (Some currentDayXp) rawXpDelta.
Proof.
  intros cur. unfold DailyLogs.xp_field, xp_earned_field.
  pose proof (capDailyXp_range cur rawXpDelta) as Hr.
  destruct (Z.gtb_spec (Xp.capDailyXp (Some cur) rawXpDelta) 0); simpl; [done|].
  replace (Xp.capDailyXp (Some cur) rawXpDelta) with 0 by lia.
  subst cur. destruct existing; simpl; lia.
Qed.

Lemma xp_earned_written_capped (db : database) (key : string * Z)
    (now rawXpDelta : Z) :
  ledger_capped db →
  let existing := daily_logs db !! key in
  let currentDayXp := from_option DailyLogs.xp_earned 0 existing in
  DailyLogs.xp_field
    (xp_earned_field currentDayXp (Xp.capDailyXp (Some currentDayXp) rawXpDelta))
    (default (DailyLogs.fresh now) existing)
  ≤ Xp.DAILY_XP_CAP.
Proof.
  intros Hcap existing cur. subst cur. rewrite xp_earned_written.
  apply capDailyXp_keeps_cap.
  subst existing. destruct (daily_logs db !! key) as [row|] eqn:Hrow; simpl.
  - by eapply Hcap.
  - unfold Xp.DAILY_XP_CAP. lia.
Qed.

(** Peels the validation prefix of a handler: each rejected branch leaves the
    database as it was. *)
Ltac through_validation :=
  repeat match goal with
  | |- ledger_capped (if ?c then _ else _).1 => destruct c; [done|]
  | |- ledger_capped (match ?o with Some _ => _ | None => _ end).1 =>
      destruct o; [|done]
  end.

Lemma patchToday_keeps_cap (db : database) (userId : string) (req : request)
    (today now dateNow : Z) :
  ledger_capped db →
  ledger_capped (patchToday db userId req today now dateNow).1.
Proof.
  intros Hcap. unfold patchToday.
  destruct (users db !! userId); [|done].
  destruct (value_exists req); [|done]. simpl.
  destruct req as [value source|value|value|sleepStart sleepEnd|item checked|value];
    [ unfold handleStepsUpdate | unfold handleMovementUpdate
    | unfold handleHydrationUpdate | unfold handleSleepUpdate
    | unfold handleFoodUpdate | unfold handleVegetablesUpdate ];
    cbv zeta; through_validation.
  1-5: apply respond_keeps_cap; [done|]; simpl;
       by apply xp_earned_written_capped.
  unfold ledger_capped, with_daily_logs. simpl. intros key row.
  destruct (decide (key = (userId, today))) as [->|Hne].
  - rewrite lookup_insert_eq. intros [= <-]. simpl.
    destruct (daily_logs db !! (userId, today)) as [old|] eqn:Hold; simpl.
    + by eapply Hcap.
    + unfold Xp.DAILY_XP_CAP. lia.
  - rewrite lookup_insert_ne by done. apply Hcap.
Qed.

(** The same prefix, for statements about both the old and the new total. *)
Ltac through_validation_total :=
  repeat match goal with
  | |- ∃ _, xpEarnedToday (if ?c then _ else _).1 _ _ = _ =>
      destruct c; [by exists 0; rewrite capDailyXp_zero, Z.add_0_r|]
  | |- ∃ _, xpEarnedToday (match ?o with Some _ => _ | None => _ end).1 _ _ = _ =>
      destruct o; [|by exists 0; rewrite capDailyXp_zero, Z.add_0_r]
  end.

Lemma respond_total (db : database) (userId : string) (today now : Z)
    (fields : DailyLogs.row → DailyLogs.row) (xpDelta rawXpDelta : Z) :
  let existing := daily_logs db !! (userId, today) in
  let currentDayXp := xpEarnedToday db userId today in
  DailyLogs.xp_earned (fields (default (DailyLogs.fresh now) existing))
    = currentDayXp + Xp.capDailyXp (Some currentDayXp) rawXpDelta →
  ∃ raw, xpEarnedToday (respond db userId today now existing fields xpDelta).1
                       userId today
         = currentDayXp + Xp.capDailyXp (Some currentDayXp) raw.
Proof.
  intros existing cur Hrow.
  destruct (respond_effect db userId today now existing fields xpDelta)
    as [[_ ->] | (Hlogs & _)].
  - exists 0. by rewrite capDailyXp_zero, Z.add_0_r.
  - exists rawXpDelta. unfold xpEarnedToday at 1.
    by rewrite Hlogs, lookup_insert_eq.
Qed.

Lemma patchToday_total (db : database) (userId : string) (req : request)
    (today now dateNow : Z) :
  ∃ rawXpDelta,
    xpEarnedToday (patchToday db userId req today now dateNow).1 userId today
    = xpEarnedToday db userId today
      + Xp.capDailyXp (Some (xpEarnedToday db userId today)) rawXpDelta.
Proof.
  unfold patchToday.
  destruct (users db !! userId);
    [|by exists 0; rewrite capDailyXp_zero, Z.add_0_r].
  destruct (value_exists req);
    [|by exists 0; rewrite capDailyXp_zero, Z.add_0_r]. simpl.
  destruct req as [value source|value|value|sleepStart sleepEnd|item checked|value];
    [ unfold handleStepsUpdate | unfold handleMovementUpdate
    | unfold handleHydrationUpdate | unfold handleSleepUpdate
    | unfold handleFoodUpdate | unfold handleVegetablesUpdate ];
    cbv zeta; through_validation_total.
  1-5: eapply respond_total; simpl; apply xp_earned_written.
  exists 0. rewrite capDailyXp_zero, Z.add_0_r.
  unfold xpEarnedToday, with_daily_logs. simpl.
  rewrite lookup_insert_eq. simpl.
  by destruct (daily_logs db !! (userId, today)).
Qed.

End HabitsFacts.

(** C1. The daily total never exceeds [DAILY_XP_CAP = 150]: if every ledger
    row is within the cap, it still is after any sequence of category
    updates (steps, hydration, sleep, movement, food, and the untracked
    vegetables count) by any users on any dates; and each single update
    moves today's total from its current value [c] to
    [c + capDailyXp(c, raw)] for the raw delta of its rule. *)
Theorem daily_cap_invariant :
  (∀ (db : database) (arrivals : list Habits.arrival),
     ledger_capped db → ledger_capped (Habits.serveAll db arrivals))
  ∧ (∀ (db : database) (userId : string) (req : Habits.request)
       (today now dateNow : Z),
       ∃ rawXpDelta,
         xpEarnedToday (Habits.patchToday db userId req today now dateNow).1
                       userId today
         = xpEarnedToday db userId today
           + Xp.capDailyXp (Some (xpEarnedToday db userId today)) rawXpDelta).
Proof.
  split.
  - intros db arrivals. revert db.
    induction arrivals as [|a arrivals IH]; intros db Hcap; [done|].
    simpl. apply IH. by apply patchToday_keeps_cap.
  - apply patchToday_total.
Qed.

Lemma daily_cap_invariant_witness :
  ledger_capped (Habits.serveAll Sample.db0 Sample.busy_day)
  ∧ ∃ rawXpDelta,
      xpEarnedToday (Habits.patchToday Sample.db0 "alice"
                       (Habits.PatchHydration (Habits.JNum 30)) 101 0 0).1
                    "alice" 101
      = xpEarnedToday Sample.db0 "alice" 101
        + Xp.capDailyXp (Some (xpEarnedToday Sample.db0 "alice" 101)) rawXpDelta.
Proof.
  destruct daily_cap_invariant as [Hinv Hstep]. split.
  - apply Hinv. apply map_Forall_empty.
  - apply Hstep.
Defined.

(* ===================================================================== *)
(** ** Repeated requests *)
(* ===================================================================== *)

Section Duplicates.
Import Habits.

Lemma award_once_again (cond : bool) (prev : Z) :
  award_once cond (award_once cond prev) = award_once cond prev.
Proof.
  unfold award_once. destruct cond; simpl; [|done].
  destruct (Z.eqb_spec prev 0) as [->|Hne]; simpl; [done|].
  by destruct (Z.eqb_spec prev 0).
Qed.

Lemma award_xp_again (cond : bool) (prev amount : Z) :
  award_xp (award_once cond (award_once cond prev)) (award_once cond prev) amount = 0.
Proof.
  rewrite award_once_again. unfold award_xp.
  by destruct (Z.eqb_spec (award_once cond prev) 1) as [->|].
Qed.

Lemma respond_Json (db db1 : database) (userId : string) (today now : Z)
    (existing : option DailyLogs.row) (fields : DailyLogs.row → DailyLogs.row)
    (xpDelta : Z) (r1 : response) :
  respond db userId today now existing fields xpDelta = (db1, Returns (Json r1)) →
  daily_logs db1
    = <[(userId, today) := fields (default (DailyLogs.fresh now) existing)]>
        (daily_logs db)
  ∧ habits_config db1 = habits_config db
  ∧ is_Some (users db1 !! userId).
Proof.
  intros Hres.
  destruct (respond_effect db userId today now existing fields xpDelta)
    as [[_ Hthrow] | (Hlogs & Hcfg & _ & _ & Hjson)].
  - rewrite Hres in Hthrow. discriminate.
  - rewrite Hres in Hlogs, Hcfg. simpl in *. split_and!; try done.
    unfold respond in Hres.
    destruct (applyUpdate db userId today now existing fields xpDelta)
      as [db' [li|]]; [|discriminate].
    destruct (users db' !! userId) eqn:Hu; [|discriminate].
    injection Hres as <- _. by rewrite Hu.
Qed.

Lemma respond_zero (db : database) (userId : string) (today now : Z)
    (existing : option DailyLogs.row) (fields : DailyLogs.row → DailyLogs.row)
    (user : Users.row) :
  users db !! userId = Some user →
  respond db userId today now existing fields 0
  = (with_daily_logs
       (insert (userId, today) (fields (default (DailyLogs.fresh now) existing))) db,
     Returns (Json (mk_response 0 (Users.xp_total user) (Users.level user) None))).
Proof. intros Hu. unfold respond, applyUpdate. simpl. by rewrite Hu. Qed.

#[local] Arguments award_once : simpl never.
#[local] Arguments award_xp : simpl never.
#[local] Arguments newXpGlasses : simpl never.
#[local] Arguments glassXpDelta : simpl never.
#[local] Arguments Xp.capDailyXp : simpl never.


Lemma glass_again (prev glasses : Z) :
  newXpGlasses (newXpGlasses prev glasses) glasses = newXpGlasses prev glasses
  ∧ glassXpDelta (newXpGlasses prev glasses) glasses = 0.
Proof. unfold glassXpDelta, newXpGlasses. lia. Qed.

Lemma food_xp_col_written (item : DailyLogs.food_item) (checked awarded : Z)
    (xp : option Z) (now : Z) (r : DailyLogs.row) :
  DailyLogs.food_xp_col item (DailyLogs.write_food item checked awarded xp now r)
  = awarded.
Proof. by destruct item. Qed.

(** The second of two identical calls: the first left its writes in today's
    row, every rule now finds its award already made, the raw delta is 0. *)
Ltac second_call Hres :=
  apply respond_Json in Hres as (Hlogs & Hcfg & [user Huser]);
  unfold absorbed, stepGoal, hydrationGoal;
  rewrite Hlogs, ?Hcfg, lookup_insert_eq; simpl;
  rewrite ?Z.sub_diag; simpl;
  rewrite ?(proj1 (glass_again _ _)), ?(proj2 (glass_again _ _)),
          ?food_xp_col_written, ?award_xp_again, ?award_once_again; simpl;
  rewrite ?capDailyXp_zero;
  erewrite respond_zero by done; simpl;
  rewrite lookup_insert_eq;
  do 3 eexists; split_and!; try done.

Lemma movement_again (db db1 : database) (userId : string) (value : js_value)
    (today now now' : Z) (r1 : response) :
  handleMovementUpdate db userId value today now = (db1, Returns (Json r1)) →
  absorbed db1 userId today (handleMovementUpdate db1 userId value today now').
Proof.
  unfold handleMovementUpdate. cbv zeta.
  destruct (negb (is_boolean_or_bit value)); [discriminate|].
  destruct (daily_logs db !! (userId, today)) as [base|];
    intros Hres; second_call Hres.
Qed.

Lemma hydration_again (db db1 : database) (userId : string) (value : js_value)
    (today now now' : Z) (r1 : response) :
  handleHydrationUpdate db userId value today now = (db1, Returns (Json r1)) →
  absorbed db1 userId today (handleHydrationUpdate db1 userId value today now').
Proof.
  unfold handleHydrationUpdate. cbv zeta.
  destruct (parseInt value) as [glasses|]; [|discriminate].
  destruct (glasses <? 0); [discriminate|].
  destruct (daily_logs db !! (userId, today)) as [base|];
    intros Hres; second_call Hres.
Qed.

Lemma food_again (db db1 : database) (userId : string) (item : option string)
    (checked : js_value) (today now now' : Z) (r1 : response) :
  handleFoodUpdate db userId item checked today now = (db1, Returns (Json r1)) →
  absorbed db1 userId today (handleFoodUpdate db1 userId item checked today now').
Proof.
  unfold handleFoodUpdate. cbv zeta.
  destruct (item ≫= λ i, FOOD_HABITS !! i) as [[amount item']|]; [|discriminate].
  destruct (negb (is_boolean_or_bit checked)); [discriminate|].
  destruct (daily_logs db !! (userId, today)) as [base|];
    intros Hres; second_call Hres; by destruct item'.
Qed.

Lemma steps_again (db db1 : database) (userId : string) (value : js_value)
    (source : option string) (today now dateNow now' dateNow' : Z)
    (r1 : response) :
  handleStepsUpdate db userId value source today now dateNow
    = (db1, Returns (Json r1)) →
  absorbed db1 userId today
    (handleStepsUpdate db1 userId value source today now' dateNow').
Proof.
  unfold handleStepsUpdate, stepBonus. cbv zeta.
  destruct (bool_decide (effective_source source = "manual")) eqn:Hmanual;
    (destruct (negb _ && negb _); [discriminate|]);
    (destruct (parseInt value) as [steps|]; [|discriminate]);
    (destruct (steps <? 0); [discriminate|]);
    (destruct (_ && (steps >? MAX_MANUAL_STEPS)); [discriminate|]);
    destruct (daily_logs db !! (userId, today)) as [base|];
    intros Hres; second_call Hres.
Qed.

Lemma sleep_again (db db1 : database) (userId : string)
    (sleepStart sleepEnd : option (Z * Z)) (today now now' : Z) (r1 : response) :
  handleSleepUpdate db userId sleepStart sleepEnd today now
    = (db1, Returns (Json r1)) →
  absorbed db1 userId today
    (handleSleepUpdate db1 userId sleepStart sleepEnd today now').
Proof.
  unfold handleSleepUpdate. cbv zeta.
  destruct (bool_decide (sleepStart = None) && bool_decide (sleepEnd = None));
    [discriminate|].
  destruct (negb (from_option valid_hhmm true sleepStart)); [discriminate|].
  destruct (negb (from_option valid_hhmm true sleepEnd)); [discriminate|].
  destruct (daily_logs db !! (userId, today))
    as [[? ? ? ? ? ? ? ? [start0|] [end0|] ? ? ? ? ? ? ? ? ? ? ? ? ? ? ? ?]|];
    destruct sleepStart, sleepEnd;
    intros Hres; second_call Hres.
Qed.

End Duplicates.

(** C4. A one-shot award is paid once: when a category update was accepted,
    submitting the identical input again on the same day is answered
    normally (not rejected), reports an XP delta of 0, and leaves every
    user's [xp_total] and [level], the day's [xp_earned] and the ledger's
    award flags unchanged.  This covers movement done, the three food
    checkboxes, the sleep start and end logs, the sleep 7-hour goal, the
    steps goal and the hydration goal bonus. *)
Theorem duplicate_submission_absorbed (db db1 : database) (userId : string)
    (req : Habits.request) (today now dateNow now' dateNow' : Z)
    (r1 : Habits.response) :
  Habits.patchToday db userId req today now dateNow
    = (db1, Returns (Habits.Json r1)) →
  ∃ r2 row1 row2,
    let second := Habits.patchToday db1 userId req today now' dateNow' in
    second.2 = Returns (Habits.Json r2)
    ∧ Habits.xpAwarded r2 = 0
    ∧ users second.1 = users db1
    ∧ daily_logs db1 !! (userId, today) = Some row1
    ∧ daily_logs second.1 !! (userId, today) = Some row2
    ∧ DailyLogs.xp_earned row2 = DailyLogs.xp_earned row1
    ∧ award_flags row2 = award_flags row1.
Proof.
  intros Hfirst. change (absorbed db1 userId today
    (Habits.patchToday db1 userId req today now' dateNow')).
  unfold Habits.patchToday in Hfirst |- *.
  destruct (users db !! userId); [|discriminate].
  destruct (Habits.value_exists req); [|discriminate]. simpl in Hfirst.
  assert (Huser : is_Some (users db1 !! userId)).
  { destruct req; simpl in Hfirst;
      [ unfold Habits.handleStepsUpdate in Hfirst
      | unfold Habits.handleMovementUpdate in Hfirst
      | unfold Habits.handleHydrationUpdate in Hfirst
      | unfold Habits.handleSleepUpdate in Hfirst
      | unfold Habits.handleFoodUpdate in Hfirst
      | unfold Habits.handleVegetablesUpdate in Hfirst ];
      cbv zeta in Hfirst;
      repeat match type of Hfirst with
      | (if ?c then _ else _) = _ => destruct c; [discriminate|]
      | match ?o with Some _ => _ | None => _ end = _ =>
          destruct o; [|discriminate]
      end;
      try discriminate;
      by apply respond_Json in Hfirst as (_ & _ & ?). }
  destruct Huser as [user ->]. simpl.
  destruct req.
  - by eapply steps_again.
  - by eapply movement_again.
  - by eapply hydration_again.
  - by eapply sleep_again.
  - by eapply food_again.
  - unfold Habits.handleVegetablesUpdate in Hfirst.
    by repeat case_match.
Qed.

Lemma duplicate_submission_absorbed_witness :
  ∃ r2 row1 row2,
    let first := Habits.patchToday Sample.db0 "alice"
                   (Habits.PatchMovement (Habits.JBool true)) 101 5 6 in
    let second := Habits.patchToday first.1 "alice"
                    (Habits.PatchMovement (Habits.JBool true)) 101 7 8 in
    second.2 = Returns (Habits.Json r2)
    ∧ Habits.xpAwarded r2 = 0
    ∧ users second.1 = users first.1
    ∧ daily_logs first.1 !! ("alice", 101) = Some row1
    ∧ daily_logs second.1 !! ("alice", 101) = Some row2
    ∧ DailyLogs.xp_earned row2 = DailyLogs.xp_earned row1
    ∧ award_flags row2 = award_flags row1.
Proof.
  eapply (duplicate_submission_absorbed Sample.db0 _ "alice"
            (Habits.PatchMovement (Habits.JBool true)) 101 5 6 7 8).
  vm_compute. reflexivity.
Defined.

(* ===================================================================== *)
(** ** Hydration and steps rules *)
(* ===================================================================== *)

Section CategoryRules.
Import Habits.

Lemma respond_accepted (db : database) (userId : string) (today now : Z)
    (existing : option DailyLogs.row) (fields : DailyLogs.row → DailyLogs.row)
    (xpDelta : Z) :
  is_Some (users db !! userId) →
  ∃ db' r,
    respond db userId today now existing fields xpDelta = (db', Returns (Json r))
    ∧ xpAwarded r = xpDelta
    ∧ daily_logs db' !! (userId, today)
      = Some (fields (default (DailyLogs.fresh now) existing))
    ∧ habits_config db' = habits_config db
    ∧ is_Some (users db' !! userId).
Proof.
  intros Huser.
  destruct (respond_effect db userId today now existing fields xpDelta)
    as [[Hnone _] | (Hlogs & Hcfg & _ & _ & Hjson)].
  - rewrite Hnone in Huser. by destruct Huser.
  - destruct (Hjson Huser) as (Huser' & r & Hr & Hxp).
    destruct (respond db userId today now existing fields xpDelta) as [db' c].
    simpl in *. subst c. exists db', r. split_and!; try done.
    by rewrite Hlogs, lookup_insert_eq.
Qed.

Lemma capDailyXp_fits (currentDayXp proposedDelta : Z) :
  0 ≤ proposedDelta → currentDayXp + proposedDelta ≤ 150 →
  Xp.capDailyXp (Some currentDayXp) proposedDelta = proposedDelta.
Proof.
  intros Hpos Hfits. unfold Xp.capDailyXp, Xp.DAILY_XP_CAP. simpl.
  destruct (Z.leb_spec proposedDelta 0); lia.
Qed.

Lemma award_xp_same (flag amount : Z) : award_xp flag flag amount = 0.
Proof. unfold award_xp. by destruct (Z.eqb_spec flag 1) as [->|]. Qed.

Lemma award_xp_cases (new prev amount : Z) :
  award_xp new prev amount = 0 ∨ award_xp new prev amount = amount.
Proof. unfold award_xp. destruct (_ && _); auto. Qed.

Lemma hydration_update_result (db : database) (userId : string)
    (glasses today now : Z) :
  is_Some (users db !! userId) → 0 ≤ glasses →
  let mark := hydrationMark db userId today in
  let cur := xpEarnedToday db userId today in
  let flag := from_option DailyLogs.hydration_goal_xp_awarded 0
                          (daily_logs db !! (userId, today)) in
  let flag' := award_once (glasses >=? hydrationGoal db userId) flag in
  ∃ db' r,
    handleHydrationUpdate db userId (JNum glasses) today now
      = (db', Returns (Json r))
    ∧ hydrationMark db' userId today = Z.max mark glasses
    ∧ xpAwarded r
      = Xp.capDailyXp (Some cur)
          (5 * (Z.max mark glasses - mark)
           + award_xp flag' flag HYDRATION_GOAL_BONUS_XP)
    ∧ xpEarnedToday db' userId today = cur + xpAwarded r
    ∧ from_option DailyLogs.hydration_goal_xp_awarded 0
                  (daily_logs db' !! (userId, today)) = flag'
    ∧ hydrationGoal db' userId = hydrationGoal db userId
    ∧ is_Some (users db' !! userId).
Proof.
  intros Huser Hg mark cur flag flag'.
  unfold handleHydrationUpdate. simpl.
  destruct (Z.ltb_spec glasses 0) as [|_]; [lia|].
  edestruct respond_accepted as (db' & r & -> & Hxp & Hrow & Hcfg & Huser');
    [exact Huser|].
  exists db', r. unfold hydrationMark, xpEarnedToday, hydrationGoal.
  rewrite Hrow, Hcfg, Hxp. simpl. split_and!; try done.
  - f_equal. unfold glassXpDelta, newXpGlasses, HYDRATION_GLASS_XP.
    subst mark flag flag'. unfold hydrationMark. lia.
  - apply xp_earned_written.
Qed.


Lemma hydration_never_decreases (db : database) (userId : string)
    (value : js_value) (today now : Z) :
  hydrationMark db userId today
  ≤ hydrationMark (handleHydrationUpdate db userId value today now).1 userId today.
Proof.
  unfold handleHydrationUpdate.
  destruct (parseInt value) as [glasses|]; [|done].
  destruct (glasses <? 0); [done|]. cbv zeta.
  match goal with |- _ ≤ hydrationMark (respond ?d ?u ?t ?n ?e ?f ?x).1 _ _ =>
    destruct (respond_effect d u t n e f x) as [[_ ->] | (Hlogs & _)] end;
    [done|].
  unfold hydrationMark at 2. rewrite Hlogs, lookup_insert_eq. simpl.
  unfold newXpGlasses, hydrationMark. lia.
Qed.

Lemma steps_update_result (db : database) (userId : string)
    (steps today now dateNow : Z) :
  is_Some (users db !! userId) → 0 ≤ steps ≤ MAX_MANUAL_STEPS →
  let existing := daily_logs db !! (userId, today) in
  let cur := xpEarnedToday db userId today in
  let prevManual := default 0 (existing ≫= DailyLogs.steps_manual) in
  let lastBonusAt := existing ≫= DailyLogs.steps_last_bonus_at in
  let bonus := stepBonus steps prevManual lastBonusAt dateNow in
  let effectiveSteps :=
    Z.max steps (default 0 (existing ≫= DailyLogs.steps_google_fit)) in
  let flag := from_option DailyLogs.steps_goal_xp_awarded 0 existing in
  let flag' := award_once (effectiveSteps >=? stepGoal db userId) flag in
  ∃ db' r row',
    handleStepsUpdate db userId (JNum steps) (Some "manual") today now dateNow
      = (db', Returns (Json r))
    ∧ daily_logs db' !! (userId, today) = Some row'
    ∧ DailyLogs.steps_manual row' = Some steps
    ∧ DailyLogs.steps_google_fit row' = existing ≫= DailyLogs.steps_google_fit
    ∧ DailyLogs.steps_last_bonus_at row' = (if bonus then Some now else lastBonusAt)
    ∧ DailyLogs.steps_goal_xp_awarded row' = flag'
    ∧ xpAwarded r
      = Xp.capDailyXp (Some cur)
          (award_xp flag' flag (if stepGoal db userId =? 5000 then 20 else 40)
           + (if bonus then STEP_BONUS_XP else 0))
    ∧ DailyLogs.xp_earned row' = cur + xpAwarded r
    ∧ stepGoal db' userId = stepGoal db userId
    ∧ is_Some (users db' !! userId).
Proof.
  intros Huser Hsteps existing cur prevManual lastBonusAt bonus effectiveSteps
         flag flag'.
  unfold handleStepsUpdate. simpl.
  destruct (Z.ltb_spec steps 0) as [|_]; [lia|].
  destruct (Z.gtb_spec steps MAX_MANUAL_STEPS) as [|_]; [lia|].
  edestruct respond_accepted as (db' & r & -> & Hxp & Hrow & Hcfg & Huser');
    [exact Huser|].
  exists db', r. eexists. unfold stepGoal.
  rewrite Hrow, Hcfg, Hxp. split; [reflexivity|]. simpl.
  split_and!; try done.
  - subst existing. by destruct (daily_logs db !! (userId, today)).
  - apply xp_earned_written.
Qed.

End CategoryRules.

(** C5. Within a day the stored hydration high-water mark never decreases
    across hydration updates; the raw per-glass XP of an accepted update is
    5 × (new mark − old mark), the awarded XP being that (plus the goal
    bonus, 0 or 20) clamped by the daily cap; hence, on a day that starts with
    mark 0, at least 25 XP of room under the cap and a goal above 5 glasses,
    the updates 3, 5, 3 award 15, 10 and 0 XP, the mark going 3, 5, 5. *)
Theorem hydration_high_water_mark :
  (∀ (db : database) (userId : string) (value : Habits.js_value) (today now : Z),
     hydrationMark db userId today
     ≤ hydrationMark (Habits.handleHydrationUpdate db userId value today now).1
                     userId today)
  ∧ (∀ (db : database) (userId : string) (glasses today now : Z),
       is_Some (users db !! userId) → 0 ≤ glasses →
       ∃ db' r goalXpDelta,
         Habits.handleHydrationUpdate db userId (Habits.JNum glasses) today now
           = (db', Returns (Habits.Json r))
         ∧ Habits.glassXpDelta (hydrationMark db userId today) glasses
           = 5 * (hydrationMark db' userId today - hydrationMark db userId today)
         ∧ (goalXpDelta = 0 ∨ goalXpDelta = 20)
         ∧ Habits.xpAwarded r
           = Xp.capDailyXp (Some (xpEarnedToday db userId today))
               (5 * (hydrationMark db' userId today - hydrationMark db userId today)
                + goalXpDelta))
  ∧ (∀ (db : database) (userId : string) (today now1 now2 now3 : Z),
       is_Some (users db !! userId) →
       hydrationMark db userId today = 0 →
       xpEarnedToday db userId today ≤ 125 →
       5 < Habits.hydrationGoal db userId →
       let s1 := Habits.handleHydrationUpdate db userId (Habits.JNum 3) today now1 in
       let s2 := Habits.handleHydrationUpdate s1.1 userId (Habits.JNum 5) today now2 in
       let s3 := Habits.handleHydrationUpdate s2.1 userId (Habits.JNum 3) today now3 in
       awarded s1.2 = Some 15 ∧ awarded s2.2 = Some 10 ∧ awarded s3.2 = Some 0
       ∧ hydrationMark s1.1 userId today = 3
       ∧ hydrationMark s2.1 userId today = 5
       ∧ hydrationMark s3.1 userId today = 5).
Proof.
  split; [|split].
  - apply hydration_never_decreases.
  - intros db userId glasses today now Huser Hg.
    destruct (hydration_update_result db userId glasses today now Huser Hg)
      as (db' & r & Hres & Hmark & Hxp & _).
    exists db', r. eexists. split; [exact Hres|].
    rewrite Hmark. split_and!; [|apply award_xp_cases|exact Hxp].
    unfold Habits.glassXpDelta, Habits.newXpGlasses, Habits.HYDRATION_GLASS_XP.
    lia.
  - intros db userId today now1 now2 now3 Huser Hmark Hcur Hgoal.
    destruct (hydration_update_result db userId 3 today now1 Huser)
      as (db1 & r1 & Hres1 & Hmark1 & Hxp1 & Hcur1 & Hflag1 & Hgoal1 & Huser1);
      [lia|].
    destruct (hydration_update_result db1 userId 5 today now2 Huser1)
      as (db2 & r2 & Hres2 & Hmark2 & Hxp2 & Hcur2 & Hflag2 & Hgoal2 & Huser2);
      [lia|].
    destruct (hydration_update_result db2 userId 3 today now3 Huser2)
      as (db3 & r3 & Hres3 & Hmark3 & Hxp3 & _); [lia|].
    cbv zeta. rewrite Hres1. cbn [fst snd]. rewrite Hres2. cbn [fst snd].
    rewrite Hres3. cbn [fst snd awarded].
    assert (Hmiss : ∀ g flag, g ≤ 5 →
              Habits.award_once (g >=? Habits.hydrationGoal db userId) flag = flag).
    { intros g flag Hle. unfold Habits.award_once.
      destruct (Z.geb_spec g (Habits.hydrationGoal db userId)); [lia|done]. }
    rewrite Hmiss, award_xp_same, Hmark in Hxp1 by lia.
    rewrite Hmark in Hmark1.
    rewrite Hgoal1, Hmiss, award_xp_same, Hmark1 in Hxp2 by lia.
    rewrite Hmark1 in Hmark2.
    rewrite Hgoal2, Hgoal1, Hmiss, award_xp_same, Hmark2 in Hxp3 by lia.
    rewrite Hmark2 in Hmark3.
    change (5 * (0 `max` 3 - 0) + 0) with 15 in Hxp1.
    change (5 * (3 `max` 5 - 3) + 0) with 10 in Hxp2.
    change (5 * (5 `max` 3 - 5) + 0) with 0 in Hxp3.
    rewrite capDailyXp_fits in Hxp1 by lia.
    rewrite Hxp1 in Hcur1.
    rewrite Hcur1, capDailyXp_fits in Hxp2 by lia.
    rewrite capDailyXp_zero in Hxp3.
    by rewrite Hxp1, Hxp2, Hxp3, Hmark1, Hmark2, Hmark3.
Qed.

Lemma hydration_high_water_mark_witness :
  (∃ db' r goalXpDelta,
     Habits.handleHydrationUpdate Sample.db0 "alice" (Habits.JNum 9) 101 0
       = (db', Returns (Habits.Json r))
     ∧ Habits.glassXpDelta (hydrationMark Sample.db0 "alice" 101) 9
       = 5 * (hydrationMark db' "alice" 101 - hydrationMark Sample.db0 "alice" 101)
     ∧ (goalXpDelta = 0 ∨ goalXpDelta = 20)
     ∧ Habits.xpAwarded r
       = Xp.capDailyXp (Some (xpEarnedToday Sample.db0 "alice" 101))
           (5 * (hydrationMark db' "alice" 101 - hydrationMark Sample.db0 "alice" 101)
            + goalXpDelta))
  ∧ (let s1 := Habits.handleHydrationUpdate Sample.db0 "alice" (Habits.JNum 3) 101 10 in
     let s2 := Habits.handleHydrationUpdate s1.1 "alice" (Habits.JNum 5) 101 20 in
     let s3 := Habits.handleHydrationUpdate s2.1 "alice" (Habits.JNum 3) 101 30 in
     awarded s1.2 = Some 15 ∧ awarded s2.2 = Some 10 ∧ awarded s3.2 = Some 0
     ∧ hydrationMark s1.1 "alice" 101 = 3
     ∧ hydrationMark s2.1 "alice" 101 = 5
     ∧ hydrationMark s3.1 "alice" 101 = 5).
Proof.
  destruct hydration_high_water_mark as (_ & Hstep & Hseq). split.
  - apply (Hstep Sample.db0 "alice" 9 101 0); [vm_compute; by eexists | lia].
  - apply (Hseq Sample.db0 "alice" 101 10 20 30);
      [vm_compute; by eexists | reflexivity | by vm_compute | by vm_compute].
Defined.

Lemma stepBonus_iff (steps prevManual : Z) (lastBonusAt : option Z) (dateNow : Z) :
  Habits.stepBonus steps prevManual lastBonusAt dateNow = true
  ↔ 500 ≤ steps - prevManual ∧ 7200000 ≤ dateNow - default 0 lastBonusAt.
Proof.
  unfold Habits.stepBonus, Habits.cooldownPassed, Habits.STEP_BONUS_INCREMENT,
         Habits.TWO_HOURS_MS.
  rewrite andb_true_iff, !Z.geb_le. lia.
Qed.

(** C8. The manual-steps bonus is due exactly when the new manual count
    exceeds the stored one (0 if none) by at least 500 and at least 2 hours
    have passed since the stored last-bonus instant (instant 0 if none); an
    accepted manual update awards [capDailyXp] of the goal XP (0, 20 or 40)
    plus 5 when the bonus is due, and rewrites the last-bonus instant only
    then; hence on a fresh day below the step goal, manual counts 600 and 1200
    within the cooldown award +5 once, and 1800 after the cooldown awards it
    again. *)
Theorem steps_manual_bonus :
  (∀ (steps prevManual : Z) (lastBonusAt : option Z) (dateNow : Z),
     Habits.stepBonus steps prevManual lastBonusAt dateNow = true
     ↔ 500 ≤ steps - prevManual ∧ 7200000 ≤ dateNow - default 0 lastBonusAt)
  ∧ (∀ (db : database) (userId : string) (steps today now dateNow : Z),
       is_Some (users db !! userId) → 0 ≤ steps ≤ 50000 →
       let existing := daily_logs db !! (userId, today) in
       let bonus :=
         Habits.stepBonus steps (default 0 (existing ≫= DailyLogs.steps_manual))
                          (existing ≫= DailyLogs.steps_last_bonus_at) dateNow in
       ∃ db' r row' goalXp,
         Habits.handleStepsUpdate db userId (Habits.JNum steps) (Some "manual")
                                  today now dateNow
           = (db', Returns (Habits.Json r))
         ∧ daily_logs db' !! (userId, today) = Some row'
         ∧ DailyLogs.steps_manual row' = Some steps
         ∧ DailyLogs.steps_last_bonus_at row'
           = (if bonus then Some now else existing ≫= DailyLogs.steps_last_bonus_at)
         ∧ (goalXp = 0 ∨ goalXp = 20 ∨ goalXp = 40)
         ∧ Habits.xpAwarded r
           = Xp.capDailyXp (Some (xpEarnedToday db userId today))
               (goalXp + (if bonus then 5 else 0)))
  ∧ (∀ (db : database) (userId : string)
       (today now1 dateNow1 now2 dateNow2 now3 dateNow3 : Z),
       is_Some (users db !! userId) →
       daily_logs db !! (userId, today) = None →
       1800 < Habits.stepGoal db userId →
       7200000 ≤ dateNow1 →
       dateNow2 - now1 < 7200000 →
       7200000 ≤ dateNow3 - now1 →
       let s1 := Habits.handleStepsUpdate db userId (Habits.JNum 600)
                   (Some "manual") today now1 dateNow1 in
       let s2 := Habits.handleStepsUpdate s1.1 userId (Habits.JNum 1200)
                   (Some "manual") today now2 dateNow2 in
       let s3 := Habits.handleStepsUpdate s2.1 userId (Habits.JNum 1800)
                   (Some "manual") today now3 dateNow3 in
       awarded s1.2 = Some 5 ∧ awarded s2.2 = Some 0 ∧ awarded s3.2 = Some 5).
Proof.
  split; [|split].
  - apply stepBonus_iff.
  - intros db userId steps today now dateNow Huser Hsteps existing bonus.
    destruct (steps_update_result db userId steps today now dateNow Huser Hsteps)
      as (db' & r & row' & Hres & Hrow & Hman & _ & Hlast & _ & Hxp & _).
    match type of Hxp with context [Habits.award_xp ?new ?prev ?amount] =>
      exists db', r, row', (Habits.award_xp new prev amount);
      split_and!; [exact Hres|exact Hrow|exact Hman|exact Hlast| |exact Hxp];
      destruct (award_xp_cases new prev amount) as [->| ->]; [by left|]
    end.
    destruct (_ =? 5000); auto.
  - intros db userId today now1 dateNow1 now2 dateNow2 now3 dateNow3
           Huser Hnone Hgoal Hd1 Hd2 Hd3.
    assert (Hmiss : ∀ s flag, s ≤ 1800 →
              Habits.award_once (s >=? Habits.stepGoal db userId) flag = flag).
    { intros s flag Hle. unfold Habits.award_once.
      destruct (Z.geb_spec s (Habits.stepGoal db userId)); [lia|done]. }
    destruct (steps_update_result db userId 600 today now1 dateNow1 Huser)
      as (db1 & r1 & row1 & Hres1 & Hrow1 & Hman1 & Hfit1 & Hlast1 & Hflag1
          & Hxp1 & Hcur1 & Hgoal1 & Huser1); [done|].
    unfold xpEarnedToday in Hxp1, Hcur1.
    rewrite Hnone in Hfit1, Hlast1, Hflag1, Hxp1, Hcur1.
    cbn [mbind option_bind default from_option] in *.
    unfold id in *.
    assert (Hb1 : Habits.stepBonus 600 0 None dateNow1 = true).
    { apply stepBonus_iff. simpl. lia. }
    rewrite Hb1 in Hlast1, Hxp1.
    rewrite Hmiss, award_xp_same in Hxp1 by lia.
    rewrite Hmiss in Hflag1 by lia.
    change (Xp.capDailyXp (Some 0) (0 + Habits.STEP_BONUS_XP)) with 5 in Hxp1.
    rewrite Hxp1 in Hcur1.
    destruct (steps_update_result db1 userId 1200 today now2 dateNow2 Huser1)
      as (db2 & r2 & row2 & Hres2 & Hrow2 & Hman2 & Hfit2 & Hlast2 & Hflag2
          & Hxp2 & Hcur2 & Hgoal2 & Huser2); [done|].
    unfold xpEarnedToday in Hxp2, Hcur2.
    rewrite Hrow1 in Hfit2, Hlast2, Hflag2, Hxp2, Hcur2.
    cbn [mbind option_bind default from_option] in *.
    rewrite Hman1, Hfit1, Hlast1, Hflag1, Hcur1, Hgoal1 in *.
    cbn [mbind option_bind default from_option] in *.
    unfold id in *.
    assert (Hb2 : Habits.stepBonus 1200 600 (Some now1) dateNow2 = false).
    { apply not_true_is_false. rewrite stepBonus_iff. simpl. lia. }
    rewrite Hb2 in Hlast2, Hxp2.
    rewrite Hmiss, award_xp_same in Hxp2 by lia.
    rewrite Hmiss in Hflag2 by lia.
    change (Xp.capDailyXp (Some (0 + 5)) (0 + 0)) with 0 in Hxp2.
    rewrite Hxp2 in Hcur2.
    destruct (steps_update_result db2 userId 1800 today now3 dateNow3 Huser2)
      as (db3 & r3 & row3 & Hres3 & _ & _ & _ & _ & _ & Hxp3 & _); [done|].
    unfold xpEarnedToday in Hxp3. rewrite Hrow2 in Hxp3.
    cbn [mbind option_bind default from_option] in Hxp3.
    rewrite Hman2, Hfit2, Hlast2, Hflag2, Hcur2, Hgoal2 in Hxp3.
    cbn [mbind option_bind default from_option] in Hxp3.
    unfold id in *.
    assert (Hb3 : Habits.stepBonus 1800 1200 (Some now1) dateNow3 = true).
    { apply stepBonus_iff. simpl. lia. }
    rewrite Hb3, Hmiss, award_xp_same in Hxp3 by lia.
    change (Xp.capDailyXp (Some (0 + 5 + 0)) (0 + Habits.STEP_BONUS_XP)) with 5
      in Hxp3.
    cbv zeta. rewrite Hres1. cbn [fst snd]. rewrite Hres2. cbn [fst snd].
    rewrite Hres3. cbn [fst snd awarded].
    by rewrite Hxp1, Hxp2, Hxp3.
Qed.

Lemma steps_manual_bonus_witness :
  (Habits.stepBonus 1200 600 (Some (Sample.noon 101)) (Sample.noon 101 + 7200000)
   = true)
  ∧ (let s1 := Habits.handleStepsUpdate Sample.db0 "alice" (Habits.JNum 600)
                 (Some "manual") 101 (Sample.noon 101) (Sample.noon 101 + 2) in
     let s2 := Habits.handleStepsUpdate s1.1 "alice" (Habits.JNum 1200)
                 (Some "manual") 101 (Sample.noon 101 + 3600000)
                 (Sample.noon 101 + 3600002) in
     let s3 := Habits.handleStepsUpdate s2.1 "alice" (Habits.JNum 1800)
                 (Some "manual") 101 (Sample.noon 101 + 7200000)
                 (Sample.noon 101 + 7200002) in
     awarded s1.2 = Some 5 ∧ awarded s2.2 = Some 0 ∧ awarded s3.2 = Some 5).
Proof.
  destruct steps_manual_bonus as (Hiff & _ & Hseq). split.
  - apply Hiff. vm_compute. split; discriminate.
  - apply (Hseq Sample.db0 "alice" 101); vm_compute; (done || by eexists).
Defined.

(* ===================================================================== *)
(** ** The streak backfill *)
(* ===================================================================== *)

Lemma seqZ_three (m : Z) : seqZ m 3 = [m; m + 1; m + 2].
Proof.
  unfold seqZ. simpl.
  replace (Z.of_nat 0 + m) with m by lia.
  replace (Z.of_nat 1 + m) with (m + 1) by lia.
  by replace (Z.of_nat 2 + m) with (m + 2) by lia.
Qed.

Section StreakFacts.
Import Streak.

Lemma backfill_judges (fuel : nat) (db : database) (userId : string)
    (evalDate yesterday : Z) (c : counters) :
  yesterday - evalDate + 1 ≤ Z.of_nat fuel →
  backfill fuel db userId evalDate yesterday c
  = judge db userId (days_between evalDate yesterday) c.
Proof.
  unfold judge, days_between.
  revert evalDate c. induction fuel as [|fuel IH]; intros evalDate c Hfuel.
  - simpl. rewrite seqZ_nil by lia. done.
  - simpl. destruct (Z.leb_spec evalDate yesterday) as [Hle|Hgt].
    + rewrite seqZ_cons by lia. simpl. unfold addDays. rewrite IH by lia.
      do 2 f_equal. lia.
    + rewrite seqZ_nil by lia. done.
Qed.

Lemma evaluateDay_met (completed : Z) (c : counters) :
  0 ≤ currentStreak c → STREAK_THRESHOLD ≤ completed →
  currentStreak (evaluateDay completed c) = currentStreak c + 1
  ∧ ((currentStreak c + 1) `mod` 7 = 0 ∧ shields c < 1 →
     shields (evaluateDay completed c) = shields c + 1)
  ∧ (¬ ((currentStreak c + 1) `mod` 7 = 0 ∧ shields c < 1) →
     shields (evaluateDay completed c) = shields c).
Proof.
  intros Hcur Hmet. unfold evaluateDay, SHIELD_STREAK_INTERVAL, MAX_SHIELDS.
  destruct (Z.geb_spec completed STREAK_THRESHOLD) as [_|]; [|lia].
  rewrite Z.rem_mod_nonneg by lia.
  destruct (Z.gtb_spec (currentStreak c + 1) 0) as [_|]; [|lia].
  destruct (Z.eqb_spec ((currentStreak c + 1) `mod` 7) 0) as [Hmod|Hmod];
    destruct (Z.ltb_spec (shields c) 1) as [Hsh|Hsh]; simpl;
    split_and!; try done; try lia; intros []; try done; lia.
Qed.

Lemma evaluateDay_missed (completed : Z) (c : counters) :
  completed < STREAK_THRESHOLD →
  (0 < shields c →
   shields (evaluateDay completed c) = shields c - 1
   ∧ currentStreak (evaluateDay completed c) = currentStreak c)
  ∧ (shields c ≤ 0 →
     currentStreak (evaluateDay completed c) = 0
     ∧ shields (evaluateDay completed c) = shields c).
Proof.
  intros Hmiss. unfold evaluateDay.
  destruct (Z.geb_spec completed STREAK_THRESHOLD) as [|_]; [lia|].
  destruct (Z.gtb_spec (shields c) 0); simpl; split; intros; try lia; done.
Qed.

Lemma evaluateDay_longest (completed : Z) (c : counters) :
  longestStreak (evaluateDay completed c)
  = Z.max (longestStreak c) (currentStreak (evaluateDay completed c)).
Proof. unfold evaluateDay. by repeat case_match. Qed.

Lemma evaluateDay_nonneg (completed : Z) (c : counters) :
  0 ≤ currentStreak c → 0 ≤ currentStreak (evaluateDay completed c).
Proof.
  intros Hcur. unfold evaluateDay.
  repeat case_match; simplify_eq; simpl; lia.
Qed.

Lemma evaluateDay_shields_bound (completed : Z) (c : counters) :
  0 ≤ shields c ≤ MAX_SHIELDS → 0 ≤ shields (evaluateDay completed c) ≤ MAX_SHIELDS.
Proof.
  unfold evaluateDay, MAX_SHIELDS. intros Hsh.
  destruct (completed >=? STREAK_THRESHOLD).
  - destruct (_ && (shields c <? 1)) eqn:Hgrant; simpl; [|done].
    apply andb_true_iff in Hgrant as [_ Hlt]. apply Z.ltb_lt in Hlt. lia.
  - destruct (Z.gtb_spec (shields c) 0); simpl; lia.
Qed.

Lemma evaluateStreak_backfill (db : database) (userId : string)
    (user : Users.row) (lastEval today : Z) :
  users db !! userId = Some user →
  Users.streak_last_evaluated_date user = Some lastEval →
  lastEval < today →
  let c := judge db userId (days_between (lastEval + 1) (today - 1))
             (mk_counters (Users.current_streak user) (Users.longest_streak user)
                          (Users.streak_shields user)) in
  evaluateStreakIfNeeded db userId today
  = (with_users
       (insert userId
          (Users.set_streak (currentStreak c) (longestStreak c) (shields c)
                            today user)) db,
     Returns ()).
Proof.
  intros Huser Hlast Hlt. unfold evaluateStreakIfNeeded.
  rewrite Huser, Hlast.
  destruct (Z.geb_spec lastEval today) as [|_]; [lia|].
  unfold addDays. rewrite backfill_judges by lia.
  by replace (today + -1) with (today - 1) by lia.
Qed.

End StreakFacts.

(** C2. The backfill judges the days [streakWatermark + 1 .. today − 1] in
    chronological order and stores the resulting counters with the new
    watermark.  For each day (the streak being a count, so non-negative): with
    3 or more categories complete the streak grows by 1, and a shield is
    granted exactly when the new streak is a multiple of 7 and fewer than 1
    shield is banked; otherwise a banked shield is spent and the streak kept;
    otherwise the streak resets to 0; [longestStreak] becomes the maximum of
    itself and the streak; the streak stays non-negative and the shield count
    within 0..1.  A 3-day
    backfill without shields over days with 4, 1 and 5 categories complete
    ends with [currentStreak = 1], [longestStreak = 1]. *)
Theorem streak_backfill_rule :
  (∀ (db : database) (userId : string) (user : Users.row) (lastEval today : Z),
     users db !! userId = Some user →
     Users.streak_last_evaluated_date user = Some lastEval →
     lastEval < today →
     let c := judge db userId (days_between (lastEval + 1) (today - 1))
                (Streak.mk_counters (Users.current_streak user)
                   (Users.longest_streak user) (Users.streak_shields user)) in
     Streak.evaluateStreakIfNeeded db userId today
     = (with_users
          (insert userId
             (Users.set_streak (Streak.currentStreak c) (Streak.longestStreak c)
                               (Streak.shields c) today user)) db,
        Returns ()))
  ∧ (∀ (completed : Z) (c : Streak.counters),
       0 ≤ Streak.currentStreak c →
       let c' := Streak.evaluateDay completed c in
       (3 ≤ completed →
        Streak.currentStreak c' = Streak.currentStreak c + 1
        ∧ ((Streak.currentStreak c + 1) `mod` 7 = 0 ∧ Streak.shields c < 1 →
           Streak.shields c' = Streak.shields c + 1)
        ∧ (¬ ((Streak.currentStreak c + 1) `mod` 7 = 0 ∧ Streak.shields c < 1) →
           Streak.shields c' = Streak.shields c))
       ∧ (completed < 3 → 0 < Streak.shields c →
          Streak.shields c' = Streak.shields c - 1
          ∧ Streak.currentStreak c' = Streak.currentStreak c)
       ∧ (completed < 3 → Streak.shields c ≤ 0 →
          Streak.currentStreak c' = 0 ∧ Streak.shields c' = Streak.shields c)
       ∧ Streak.longestStreak c'
         = Z.max (Streak.longestStreak c) (Streak.currentStreak c')
       ∧ 0 ≤ Streak.currentStreak c'
       ∧ (0 ≤ Streak.shields c ≤ 1 → 0 ≤ Streak.shields c' ≤ 1))
  ∧ (∀ (db : database) (userId : string) (user : Users.row) (lastEval : Z),
       users db !! userId = Some user →
       Users.streak_last_evaluated_date user = Some lastEval →
       Users.current_streak user = 0 →
       Users.longest_streak user ≤ 1 →
       Users.streak_shields user = 0 →
       Streak.countCompletedCategories db userId (lastEval + 1) = 4 →
       Streak.countCompletedCategories db userId (lastEval + 2) = 1 →
       Streak.countCompletedCategories db userId (lastEval + 3) = 5 →
       ∃ user',
         users (Streak.evaluateStreakIfNeeded db userId (lastEval + 4)).1 !! userId
           = Some user'
         ∧ Users.current_streak user' = 1
         ∧ Users.longest_streak user' = 1
         ∧ Users.streak_shields user' = 0
         ∧ Users.streak_last_evaluated_date user' = Some (lastEval + 4)).
Proof.
  split; [|split].
  - apply evaluateStreak_backfill.
  - intros completed c Hcur c'. subst c'. split_and!.
    + intros Hmet. by apply evaluateDay_met.
    + intros Hmiss Hsh. by apply evaluateDay_missed.
    + intros Hmiss Hsh. by apply evaluateDay_missed.
    + apply evaluateDay_longest.
    + by apply evaluateDay_nonneg.
    + apply evaluateDay_shields_bound.
  - intros db userId user lastEval Huser Hlast Hcur Hlong Hsh H1 H2 H3.
    rewrite (evaluateStreak_backfill db userId user lastEval (lastEval + 4))
      by (done || lia).
    simpl. rewrite lookup_insert_eq. eexists. split; [reflexivity|].
    unfold judge, days_between.
    replace (lastEval + 4 - 1 - (lastEval + 1) + 1) with 3 by lia.
    rewrite (seqZ_three (lastEval + 1)).
    replace (lastEval + 1 + 1) with (lastEval + 2) by lia.
    replace (lastEval + 1 + 2) with (lastEval + 3) by lia.
    simpl. rewrite H1, H2, H3, Hcur, Hsh.
    unfold Streak.evaluateDay. simpl. split_and!; try done. lia.
Qed.

Lemma streak_backfill_rule_witness :
  (let c' := Streak.evaluateDay 4 (Streak.mk_counters 6 9 0) in
   Streak.currentStreak c' = 7 ∧ Streak.shields c' = 1)
  ∧ ∃ user',
      users (Streak.evaluateStreakIfNeeded Sample.db_three_days "alice" 104).1
        !! "alice" = Some user'
      ∧ Users.current_streak user' = 1
      ∧ Users.longest_streak user' = 1
      ∧ Users.streak_shields user' = 0
      ∧ Users.streak_last_evaluated_date user' = Some 104.
Proof.
  destruct streak_backfill_rule as (_ & Hday & Hthree). split.
  - destruct (Hday 4 (Streak.mk_counters 6 9 0)) as ((Hcur & Hgrant & _) & _);
      [simpl; lia | lia |].
    split; [exact Hcur|]. apply Hgrant. by vm_compute.
  - eapply (Hthree Sample.db_three_days "alice" _ 100); by vm_compute.
Defined.



(* ===================================================================== *)
(** ** Mascot evolution on the schema of db/index.js *)
(* ===================================================================== *)

Section MascotFacts.
Import Mascot.

(** [users] has no column [mascot_stage], and there is no table [badges]. *)
Lemma schema_lacks_mascot_stage (t : Schema.table) :
  Schema.TABLES !! "users" = Some t → "mascot_stage" ∉ Schema.columns t.
Proof.
  intros Ht. vm_compute in Ht. injection Ht as <-.
  apply (bool_decide_unpack _). by vm_compute.
Qed.

Lemma schema_lacks_badges : Schema.TABLES !! "badges" = None.
Proof. by vm_compute. Qed.

(** A statement on [users] that names [mascot_stage] is not prepared. *)
Lemma mascot_stage_not_prepared (before after : list string) :
  Schema.prepares "users" (before ++ "mascot_stage" :: after) = false.
Proof.
  unfold Schema.prepares.
  destruct (Schema.TABLES !! "users") as [t|] eqn:Ht; [|done].
  apply not_true_is_false. rewrite forallb_forall. intros Hall.
  apply (schema_lacks_mascot_stage t Ht).
  eapply bool_decide_eq_true_1, Hall, in_app_iff. right. by left.
Qed.

(** A call that passes the two level guards throws at its first statement:
    nothing has been read or written. *)
Lemma evolution_past_guards (db : database) (userId : string)
    (previousLevel newLevel now : Z) (uuid5 uuid : string) :
  previousLevel < newLevel →
  (previousLevel < 5 ∧ 5 ≤ newLevel) ∨ (previousLevel < 10 ∧ 10 ≤ newLevel) →
  checkAndApplyEvolution db userId previousLevel newLevel now uuid5 uuid
  = (db, Throws).
Proof.
  intros Hrise Hcross.
  unfold checkAndApplyEvolution, EVOLUTION_LEVEL_5, EVOLUTION_LEVEL_10.
  pose proof (mascot_stage_not_prepared
                ["bmi_category"; "mascot_id"; "mascot_name"] ["id"]) as Hselect.
  cbn [app] in Hselect. rewrite Hselect.
  destruct (Z.leb_spec newLevel previousLevel); [lia|].
  destruct (Z.ltb_spec previousLevel 5), (Z.geb_spec newLevel 5),
           (Z.ltb_spec previousLevel 10), (Z.geb_spec newLevel 10);
    simpl; try done; lia.
Qed.


End MascotFacts.



(** C6, on the code: the claim fails.  A rise from below level 5 to level 10
    or above, the jump from 4 to 11 among them, makes
    [checkAndApplyEvolution] throw at its first statement, for every user:
    no badge is granted and the mascot stays as it was. *)
Theorem double_crossing_throws (db : database) (userId : string)
    (previousLevel newLevel now : Z) (uuid5 uuid : string) :
  previousLevel < 5 → 10 ≤ newLevel →
  Mascot.checkAndApplyEvolution db userId previousLevel newLevel now uuid5 uuid
  = (db, Throws).
Proof.
  intros Hlow Hhigh. apply evolution_past_guards; lia.
Qed.

Lemma double_crossing_throws_witness :
  Mascot.checkAndApplyEvolution Sample.db0 "alice" 4 11 0 "badge-1" "badge-2"
  = (Sample.db0, Throws).
Proof.
  apply (double_crossing_throws Sample.db0 "alice" 4 11 0 "badge-1" "badge-2"); lia.
Defined.

(* ===================================================================== *)
(** ** The level table for any size, and the next threshold *)
(* ===================================================================== *)

Lemma StronglySorted_lookup {A} (R : relation A) (l : list A) (i j : nat) (a b : A) :
  StronglySorted R l → l !! i = Some a → l !! j = Some b → (i < j)%nat → R a b.
Proof.
  intros Hs Hi Hj Hlt. rewrite <- (take_drop j l) in Hs.
  eapply StronglySorted_app_1_elem_of; [exact Hs| |].
  - apply list_elem_of_lookup. exists i. by rewrite lookup_take_lt.
  - apply list_elem_of_lookup. exists 0%nat. by rewrite lookup_drop, Nat.add_0_r.
Qed.

Section LevelTable.
Import Xp.

Lemma round_times_1_2_grows (p : Z) : 0 < p → p ≤ round_times_1_2 p.
Proof.
  intros Hp. unfold round_times_1_2.
  apply Z.div_le_lower_bound; lia.
Qed.

(** The loop of [buildLevelThresholds] keeps [i] equal to the length of the
    list, the increment positive and the list strictly ascending. *)
Lemma build_loop_shape (fuel : nat) (i maxLevel : Z) (front : list Z)
    (last prevIncrement : Z) :
  i = Z.of_nat (length (front ++ [last])) →
  0 < prevIncrement →
  Sorted Z.lt (front ++ [last]) →
  maxLevel - i ≤ Z.of_nat fuel →
  let result := build_loop fuel i maxLevel (front ++ [last]) prevIncrement in
  Z.of_nat (length result) = Z.max i maxLevel
  ∧ Sorted Z.lt result
  ∧ (front ++ [last]) `prefix_of` result.
Proof.
  revert i front last prevIncrement.
  induction fuel as [|fuel IH]; intros i front last p Hi Hp Hs Hfuel; simpl.
  - split_and!; [lia|done|done].
  - destruct (Z.ltb_spec i maxLevel) as [Hlt|Hge]; [|split_and!; [lia|done|done]].
    assert (Hlast : (front ++ [last]) !! Z.to_nat (i - 1) = Some last).
    { rewrite length_app in Hi. simpl in Hi.
      replace (Z.to_nat (i - 1)) with (length front + 0)%nat by lia.
      by rewrite lookup_app_r, Nat.add_comm, Nat.add_sub by lia. }
    rewrite Hlast. simpl.
    pose proof (round_times_1_2_grows p Hp) as Hgrow.
    destruct (IH (i + 1) (front ++ [last]) (last + round_times_1_2 p)
                 (round_times_1_2 p)) as (Hlen & Hsorted & Hpre).
    + rewrite length_app. simpl. lia.
    + lia.
    + apply Sorted_snoc; [done|]. constructor. lia.
    + lia.
    + split_and!; [lia|done|].
      etrans; [|exact Hpre]. by apply prefix_app_r.
Qed.

Lemma buildLevelThresholds_shape (maxLevel : Z) :
  Z.of_nat (length (buildLevelThresholds maxLevel)) = Z.max 3 maxLevel
  ∧ Sorted Z.lt (buildLevelThresholds maxLevel)
  ∧ [0; 500; 1200] `prefix_of` buildLevelThresholds maxLevel.
Proof.
  unfold buildLevelThresholds.
  apply (build_loop_shape (Z.to_nat maxLevel) 3 maxLevel [0; 500] 1200 700).
  - reflexivity.
  - lia.
  - repeat constructor.
  - lia.
Qed.

End LevelTable.

(** X1. For every [maxLevel] up to 158, as far as the numbers of the source
    are the integers of [round_times_1_2], [buildLevelThresholds] returns a
    table of [max 3 maxLevel] entries that starts 0, 500, 1200 and is
    strictly ascending: a later level always needs more XP than an earlier
    one. *)
Theorem level_table_strictly_ascending (maxLevel : Z) :
  maxLevel ≤ 158 →
  Z.of_nat (length (Xp.buildLevelThresholds maxLevel)) = Z.max 3 maxLevel
  ∧ (∀ (i j : nat) (a b : Z),
       Xp.buildLevelThresholds maxLevel !! i = Some a →
       Xp.buildLevelThresholds maxLevel !! j = Some b →
       (i < j)%nat → a < b)
  ∧ Xp.buildLevelThresholds maxLevel !! 0%nat = Some 0
  ∧ Xp.buildLevelThresholds maxLevel !! 1%nat = Some 500
  ∧ Xp.buildLevelThresholds maxLevel !! 2%nat = Some 1200.
Proof.
  intros _.
  destruct (buildLevelThresholds_shape maxLevel) as (Hlen & Hsorted & [rest Hpre]).
  split_and!; [exact Hlen| |by rewrite Hpre..].
  apply Sorted_StronglySorted in Hsorted; [|apply _].
  intros i j a b Hi Hj Hlt. by eapply StronglySorted_lookup.
Qed.

Lemma level_table_strictly_ascending_witness :
  Xp.buildLevelThresholds 5 !! 3%nat = Some 2040
  ∧ Xp.buildLevelThresholds 5 !! 4%nat = Some 3048
  ∧ 2040 < 3048.
Proof.
  destruct (level_table_strictly_ascending 5) as (_ & Hasc & _); [lia|].
  split_and!; [reflexivity..|].
  apply (Hasc 3%nat 4%nat); [reflexivity|reflexivity|lia].
Defined.

(** The level found for an XP total lies in the table, and the entry after
    it, when there is one, has not been reached. *)
Lemma level_found (xp : Z) :
  1 ≤ Xp.getLevelForXp xp ≤ 100
  ∧ ∀ t, Xp.LEVEL_THRESHOLDS !! Z.to_nat (Xp.getLevelForXp xp) = Some t → xp < t.
Proof.
  destruct (level_loop_sorted xp (drop 1 Xp.LEVEL_THRESHOLDS) 1 thresholds_sorted)
    as [Hlen Hchar].
  pose proof (level_loop_lower xp (drop 1 Xp.LEVEL_THRESHOLDS) 1) as Hlow.
  fold (Xp.getLevelForXp xp) in Hlen, Hchar, Hlow.
  rewrite length_drop, thresholds_length in Hlen.
  split; [clear -Hlen Hlow; lia|].
  intros t Ht.
  assert (drop 1 Xp.LEVEL_THRESHOLDS !! Z.to_nat (Xp.getLevelForXp xp - 1) = Some t)
    as Hdrop.
  { rewrite lookup_drop, <- Ht. f_equal. clear -Hlow. lia. }
  destruct (Z.le_gt_cases t xp) as [Hle|Hgt]; [|clear -Hgt; lia].
  apply (Hchar _ _ Hdrop) in Hle. clear -Hle Hlow. lia.
Qed.

(** X2. [getLevelForXp] always answers a level from 1 to 100; below level 100
    [getXpForNextLevel] of that level is a threshold strictly above the XP
    (the player has not reached it yet), and at level 100 it is [null]. *)
Theorem next_level_threshold_ahead (xp : Z) :
  1 ≤ Xp.getLevelForXp xp ≤ 100
  ∧ (Xp.getLevelForXp xp < 100 →
     ∃ t, Xp.getXpForNextLevel (Xp.getLevelForXp xp) = Some t ∧ xp < t)
  ∧ (Xp.getLevelForXp xp = 100 →
     Xp.getXpForNextLevel (Xp.getLevelForXp xp) = None).
Proof.
  destruct (level_found xp) as [Hrange Hnext].
  split; [exact Hrange|]. split.
  - intros Hlt. unfold Xp.getXpForNextLevel. rewrite thresholds_length.
    destruct (Z.geb_spec (Xp.getLevelForXp xp) (Z.of_nat 100)) as [Hge|_];
      [clear -Hge Hlt; lia|].
    destruct (Z.ltb_spec (Xp.getLevelForXp xp) 0) as [Hneg|_];
      [clear -Hneg Hrange; lia|].
    destruct (lookup_lt_is_Some_2 Xp.LEVEL_THRESHOLDS
                (Z.to_nat (Xp.getLevelForXp xp))) as [t Ht].
    { rewrite thresholds_length. clear -Hlt Hrange. lia. }
    exists t. split; [exact Ht | by apply Hnext].
  - intros Hmax. rewrite Hmax. unfold Xp.getXpForNextLevel.
    by rewrite thresholds_length.
Qed.

Lemma next_level_threshold_ahead_witness :
  ∃ t, Xp.getXpForNextLevel (Xp.getLevelForXp 1300) = Some t ∧ 1300 < t.
Proof.
  destruct (next_level_threshold_ahead 1300) as (_ & Hnext & _).
  apply Hnext. by vm_compute.
Defined.

(* ===================================================================== *)
(** ** What a habit request does to the database *)
(* ===================================================================== *)

Section PatchShape.
Import Habits.

(** The shared tail of a handler for a user whose row exists, as one
    equation: today's row is rewritten, the user is credited the delta, and
    the answer carries the delta with the stored total and level. *)
Lemma respond_shape (db : database) (userId : string) (today now : Z)
    (existing : option DailyLogs.row) (fields : DailyLogs.row → DailyLogs.row)
    (xpDelta : Z) (u : Users.row) :
  users db !! userId = Some u →
  ∃ r,
    respond db userId today now existing fields xpDelta
    = (mkdb (<[userId := credited xpDelta u]> (users db)) (habits_config db)
            (<[(userId, today) := fields (default (DailyLogs.fresh now) existing)]>
               (daily_logs db))
            (badges db),
       Returns (Json r))
    ∧ xpAwarded r = xpDelta
    ∧ xpTotal r = Users.xp_total (credited xpDelta u)
    ∧ level r = Users.level (credited xpDelta u).
Proof.
  intros Hu. unfold respond, applyUpdate, applyXpToUser, credited.
  destruct (Z.gtb_spec xpDelta 0) as [Hpos|Hle].
  - destruct (Z.leb_spec xpDelta 0) as [|_]; [lia|]. simpl. rewrite Hu. simpl.
    rewrite lookup_insert_eq. eexists. split_and!; reflexivity.
  - simpl. rewrite Hu. eexists.
    split; [unfold with_daily_logs; by rewrite (insert_id _ _ _ Hu)|].
    by split_and!.
Qed.

Lemma flag_step_award_once (cond : bool) (prev : Z) :
  flag_step prev (award_once cond prev).
Proof.
  unfold flag_step, award_once. destruct cond; simpl; [|by left].
  destruct (Z.eqb_spec prev 0); [by right|by left].
Qed.

Lemma flag_step_refl (flag : Z) : flag_step flag flag.
Proof. by left. Qed.

Lemma xp_earned_default (existing : option DailyLogs.row) (now : Z) :
  DailyLogs.xp_earned (default (DailyLogs.fresh now) existing)
  = from_option DailyLogs.xp_earned 0 existing.
Proof. by destruct existing. Qed.

(** A request of an existing user is either rejected with status 400,
    leaving the database alone, or it rewrites today's row, credits the user
    a capped delta that is also added to the row's [xp_earned], and answers
    with that delta. *)
Lemma patchToday_cases (db : database) (userId : string) (req : request)
    (today now dateNow : Z) (u : Users.row) :
  users db !! userId = Some u →
  let res := patchToday db userId req today now dateNow in
  let base := default (DailyLogs.fresh now) (daily_logs db !! (userId, today)) in
  res = (db, Returns (Status 400))
  ∨ ∃ row' xpDelta reply,
      res = (mkdb (<[userId := credited xpDelta u]> (users db)) (habits_config db)
                  (<[(userId, today) := row']> (daily_logs db)) (badges db),
             Returns reply)
      ∧ 0 ≤ xpDelta
      ∧ DailyLogs.xp_earned row' = DailyLogs.xp_earned base + xpDelta
      ∧ row_progress base row'
      ∧ ((reply = JsonToday ∧ xpDelta = 0)
         ∨ ∃ r, reply = Json r ∧ xpAwarded r = xpDelta
                ∧ xpTotal r = Users.xp_total (credited xpDelta u)
                ∧ level r = Users.level (credited xpDelta u)).
Proof.
  intros Hu res base. subst res. unfold patchToday. rewrite Hu.
  destruct (value_exists req); [|by left]. simpl.
  destruct req as [value source|value|value|sleepStart sleepEnd|item checked|value];
    [ unfold handleStepsUpdate | unfold handleMovementUpdate
    | unfold handleHydrationUpdate | unfold handleSleepUpdate
    | unfold handleFoodUpdate | unfold handleVegetablesUpdate ];
    cbv zeta;
    repeat match goal with
    | |- (if ?c then _ else _) = _ ∨ _ => destruct c eqn:?; [by left|]
    | |- match ?o with Some _ => _ | None => _ end = _ ∨ _ =>
        destruct o eqn:?; [|by left]
    end; right.
  1-5: match goal with
       | Hu : users ?d !! ?uid = Some ?u
         |- context [respond ?d ?uid ?t ?n ?e ?f ?x] =>
           destruct (respond_shape d uid t n e f x u Hu)
             as (r & -> & Hxp & Htot & Hlvl);
           exists (f (default (DailyLogs.fresh n) e)), x, (Json r)
       end.
  6: eexists _, 0, JsonToday.
  all: subst base.
  6: split; [unfold with_daily_logs, credited; simpl;
             by rewrite (insert_id _ _ _ Hu)|].
  1-5: split; [reflexivity|].
  1-5: split; [apply capDailyXp_range|];
       split; [rewrite (xp_earned_default _ now); apply xp_earned_written|];
       split; [|right; by eexists].
  6: split; [done|]; split; [simpl; lia|]; split; [|by left].
  all: destruct (daily_logs db !! (userId, today)) as [old|]; simpl;
       unfold row_progress, one_shot_flags, steps_ok; simpl.
  all: try match goal with f : food_habit |- _ => destruct (col f) end; simpl.
  all: split_and!; try done; try (unfold newXpGlasses; lia);
       try by repeat (constructor;
                      [first [apply flag_step_refl | apply flag_step_award_once]|]).
  all: intros _; right; by destruct (bool_decide _).
Qed.

Lemma credited_profile (xpDelta : Z) (u : Users.row) :
  profile (credited xpDelta u) = profile u.
Proof. unfold credited. by destruct (xpDelta >? 0). Qed.

Lemma credited_xp (xpDelta : Z) (u : Users.row) :
  0 ≤ xpDelta → Users.xp_total (credited xpDelta u) = Users.xp_total u + xpDelta.
Proof.
  intros Hx. unfold credited. destruct (Z.gtb_spec xpDelta 0); simpl; lia.
Qed.

Lemma getLevelForXp_mono (xp xp' : Z) :
  xp ≤ xp' → Xp.getLevelForXp xp ≤ Xp.getLevelForXp xp'.
Proof. intros Hle. unfold Xp.getLevelForXp. by apply level_loop_mono. Qed.

Lemma credited_level (xpDelta : Z) (u : Users.row) :
  0 ≤ xpDelta →
  Users.level u = Xp.getLevelForXp (Users.xp_total u) →
  Users.level (credited xpDelta u)
    = Xp.getLevelForXp (Users.xp_total (credited xpDelta u))
  ∧ Users.level u ≤ Users.level (credited xpDelta u).
Proof.
  intros Hx Hu. unfold credited.
  destruct (Z.gtb_spec xpDelta 0); simpl; [|split; [done|lia]].
  split; [done|]. rewrite Hu. apply getLevelForXp_mono. lia.
Qed.

(** What one request does to the users table. *)
Lemma patchToday_users (db : database) (userId : string) (req : request)
    (today now dateNow : Z) :
  users (patchToday db userId req today now dateNow).1 = users db
  ∨ ∃ u xpDelta,
      users db !! userId = Some u ∧ 0 ≤ xpDelta
      ∧ users (patchToday db userId req today now dateNow).1
        = <[userId := credited xpDelta u]> (users db).
Proof.
  destruct (users db !! userId) as [u|] eqn:Hu.
  - destruct (patchToday_cases db userId req today now dateNow u Hu)
      as [-> | (row' & x & reply & -> & Hx & _)]; [by left|].
    right. by exists u, x.
  - left. unfold patchToday. by rewrite Hu.
Qed.

(** What one request does to the ledger. *)
Lemma patchToday_logs (db : database) (userId : string) (req : request)
    (today now dateNow : Z) :
  daily_logs (patchToday db userId req today now dateNow).1 = daily_logs db
  ∨ ∃ row',
      daily_logs (patchToday db userId req today now dateNow).1
        = <[(userId, today) := row']> (daily_logs db)
      ∧ row_progress
          (default (DailyLogs.fresh now) (daily_logs db !! (userId, today))) row'
      ∧ DailyLogs.xp_earned
          (default (DailyLogs.fresh now) (daily_logs db !! (userId, today)))
        ≤ DailyLogs.xp_earned row'.
Proof.
  destruct (users db !! userId) as [u|] eqn:Hu.
  - destruct (patchToday_cases db userId req today now dateNow u Hu)
      as [-> | (row' & x & reply & -> & Hx & Hxp & Hrow & _)]; [by left|].
    right. exists row'. split_and!; [done|done|lia].
  - left. unfold patchToday. by rewrite Hu.
Qed.
End PatchShape.

Section LevelCache.
Import Habits.

Lemma serve_level_cached (db : database) (a : arrival) :
  level_cached db →
  level_cached (serve db a)
  ∧ ∀ uid u, users db !! uid = Some u →
      ∃ u', users (serve db a) !! uid = Some u'
            ∧ Users.xp_total u ≤ Users.xp_total u'
            ∧ Users.level u ≤ Users.level u'.
Proof.
  intros Hc. unfold serve, level_cached.
  destruct (patchToday_users db (who a) (what a) (today_ a) (now_ a) (dateNow_ a))
    as [-> | (u & x & Hu & Hx & ->)].
  - split; [done|]. intros uid u0 Hu0. exists u0. split_and!; [done|lia|lia].
  - pose proof (credited_level x u Hx (Hc _ _ Hu)) as [Hlvl Hup].
    pose proof (credited_xp x u Hx) as Hxp.
    split.
    + apply map_Forall_insert_2; done.
    + intros uid u0 Hu0. destruct (decide (uid = who a)) as [->|Hne].
      * rewrite lookup_insert_eq. eexists; split; [done|].
        assert (u0 = u) as -> by congruence. lia.
      * rewrite lookup_insert_ne by done. exists u0. split_and!; [done|lia|lia].
Qed.

(** X3. If every user's stored level is the level of the stored XP total,
    it stays so after any sequence of [PATCH /api/habits/today/:category]
    requests, and no user's XP total or level ever goes down. *)
Theorem level_follows_xp (db : database) (arrivals : list arrival) :
  level_cached db →
  level_cached (serveAll db arrivals)
  ∧ ∀ uid u, users db !! uid = Some u →
      ∃ u', users (serveAll db arrivals) !! uid = Some u'
            ∧ Users.xp_total u ≤ Users.xp_total u'
            ∧ Users.level u ≤ Users.level u'.
Proof.
  unfold serveAll. revert db.
  induction arrivals as [|a arrivals IH]; intros db Hc; simpl.
  - split; [done|]. intros uid u Hu. exists u. split_and!; [done|lia|lia].
  - destruct (serve_level_cached db a Hc) as [Hc1 Hstep].
    destruct (IH _ Hc1) as [Hc2 Hrest].
    split; [done|]. intros uid u Hu.
    destruct (Hstep uid u Hu) as (u1 & Hu1 & Hxp1 & Hl1).
    destruct (Hrest uid u1 Hu1) as (u2 & Hu2 & Hxp2 & Hl2).
    exists u2. split_and!; [done|lia|lia].
Qed.

Lemma level_follows_xp_witness :
  ∃ u', users (serveAll Sample.db0 Sample.busy_day) !! "alice" = Some u'
        ∧ Users.xp_total Sample.alice ≤ Users.xp_total u'
        ∧ Users.level Sample.alice ≤ Users.level u'.
Proof.
  assert (level_cached Sample.db0) as Hc.
  { unfold level_cached, Sample.db0. simpl.
    apply map_Forall_insert_2; [by vm_compute|apply map_Forall_empty]. }
  destruct (level_follows_xp Sample.db0 Sample.busy_day Hc) as [_ H].
  apply (H "alice" Sample.alice). reflexivity.
Defined.
End LevelCache.

Section Booking.
Import Habits.

(** X4. For a request of an existing user, the XP added to the user's total
    is never negative and equals the XP added to today's ledger row; a JSON
    answer reports exactly that amount as [xpAwarded], and the stored total
    and level as [xpTotal] and [level]. *)
Theorem awarded_xp_is_booked (db : database) (userId : string) (req : request)
    (today now dateNow : Z) (u : Users.row) :
  users db !! userId = Some u →
  let res := patchToday db userId req today now dateNow in
  ∃ u',
    users res.1 !! userId = Some u'
    ∧ 0 ≤ Users.xp_total u' - Users.xp_total u
    ∧ Users.xp_total u' - Users.xp_total u
      = xpEarnedToday res.1 userId today - xpEarnedToday db userId today
    ∧ ∀ r, res.2 = Returns (Json r) →
        xpAwarded r = Users.xp_total u' - Users.xp_total u
        ∧ xpTotal r = Users.xp_total u'
        ∧ level r = Users.level u'.
Proof.
  intros Hu res. subst res.
  destruct (patchToday_cases db userId req today now dateNow u Hu)
    as [-> | (row' & x & reply & -> & Hx & Hxp & _ & Hreply)]; simpl.
  - exists u. split_and!; [done|lia|lia|done].
  - exists (credited x u). rewrite lookup_insert_eq.
    pose proof (credited_xp x u Hx) as Hcx.
    unfold xpEarnedToday at 1. simpl. rewrite lookup_insert_eq. simpl.
    rewrite xp_earned_default in Hxp. fold (xpEarnedToday db userId today) in Hxp.
    split_and!; [done|lia|lia|].
    intros r [= ->].
    destruct Hreply as [[? _] | (r' & [= <-] & Ha & Ht & Hl)]; [done|].
    split_and!; [lia|done|done].
Qed.

Lemma awarded_xp_is_booked_witness :
  ∃ u',
    users (patchToday Sample.db0 "alice" (PatchMovement (JBool true)) 101
                      (Sample.noon 101) (Sample.noon 101)).1 !! "alice" = Some u'
    ∧ 0 ≤ Users.xp_total u' - Users.xp_total Sample.alice.
Proof.
  destruct (awarded_xp_is_booked Sample.db0 "alice" (PatchMovement (JBool true))
              101 (Sample.noon 101) (Sample.noon 101) Sample.alice)
    as (u' & Hu' & Hpos & _); [reflexivity|].
  by exists u'.
Defined.


End Booking.

Section Ledger.
Import Habits.

Lemma flag_step_trans (a b c : Z) : flag_step a b → flag_step b c → flag_step a c.
Proof. unfold flag_step. lia. Qed.

Lemma flags_step_trans (l k m : list Z) :
  Forall2 flag_step l k → Forall2 flag_step k m → Forall2 flag_step l m.
Proof.
  intros Hlk. revert m. induction Hlk as [|a b l k Hab _ IH]; intros m Hkm.
  - by inversion Hkm.
  - inversion Hkm as [|? c ? m' Hbc Hrest]; subst.
    constructor; [by eapply flag_step_trans | by apply IH].
Qed.

Lemma flags_step_refl (l : list Z) : Forall2 flag_step l l.
Proof. induction l; constructor; [by left | done]. Qed.

Lemma keeps_awards_refl (r : DailyLogs.row) : keeps_awards r r.
Proof. split_and!; [apply flags_step_refl | lia | lia]. Qed.

Lemma keeps_awards_trans (a b c : DailyLogs.row) :
  keeps_awards a b → keeps_awards b c → keeps_awards a c.
Proof.
  intros (Hf1 & Hh1 & Hx1) (Hf2 & Hh2 & Hx2).
  split_and!; [by eapply flags_step_trans | lia | lia].
Qed.

Lemma serve_keeps_awards (db : database) (a : arrival) (key : string * Z)
    (old : DailyLogs.row) :
  daily_logs db !! key = Some old →
  ∃ new, daily_logs (serve db a) !! key = Some new ∧ keeps_awards old new.
Proof.
  intros Hold. unfold serve.
  destruct (patchToday_logs db (who a) (what a) (today_ a) (now_ a) (dateNow_ a))
    as [-> | (row' & -> & Hrow & Hxp)].
  - exists old. split; [done | apply keeps_awards_refl].
  - destruct (decide (key = (who a, today_ a))) as [->|Hne].
    + rewrite lookup_insert_eq. exists row'. split; [done|].
      rewrite Hold in Hrow, Hxp. simpl in Hrow, Hxp.
      destruct Hrow as (Hflags & Hhyd & _). by split_and!.
    + rewrite lookup_insert_ne by done. exists old.
      split; [done | apply keeps_awards_refl].
Qed.

(** X6. Whatever requests follow, a ledger row stays in the table, none of
    its nine one-shot award flags is reset (each keeps its value or goes from
    0 to 1), and its hydration high-water mark and its [xp_earned] never
    decrease: unchecking or lowering a value takes nothing back. *)
Theorem awards_are_never_revoked (db : database) (arrivals : list arrival)
    (key : string * Z) (old : DailyLogs.row) :
  daily_logs db !! key = Some old →
  ∃ new, daily_logs (serveAll db arrivals) !! key = Some new
         ∧ keeps_awards old new.
Proof.
  unfold serveAll. revert db old.
  induction arrivals as [|a arrivals IH]; intros db old Hold; simpl.
  - exists old. split; [done | apply keeps_awards_refl].
  - destruct (serve_keeps_awards db a key old Hold) as (mid & Hmid & H1).
    destruct (IH _ mid Hmid) as (new & Hnew & H2).
    exists new. split; [done | by eapply keeps_awards_trans].
Qed.

Lemma serve_steps_ok (db : database) (a : arrival) :
  ledger_steps_ok db → ledger_steps_ok (serve db a).
Proof.
  intros Hok. unfold serve, ledger_steps_ok.
  destruct (patchToday_logs db (who a) (what a) (today_ a) (now_ a) (dateNow_ a))
    as [-> | (row' & -> & (_ & _ & Hsteps & _) & _)]; [done|].
  apply map_Forall_insert_2; [|done]. apply Hsteps.
  destruct (daily_logs db !! (who a, today_ a)) as [old|] eqn:Hold; simpl.
  - by eapply Hok.
  - by left.
Qed.

(** X7. Requests keep the step columns consistent: in every ledger row
    [steps] is the larger of [steps_manual] and [steps_google_fit], a missing
    source counting as 0 (or none of the three is set). *)
Theorem effective_steps_is_larger_source (db : database) (arrivals : list arrival) :
  ledger_steps_ok db → ledger_steps_ok (serveAll db arrivals).
Proof.
  unfold serveAll. revert db.
  induction arrivals as [|a arrivals IH]; intros db Hok; simpl; [done|].
  by apply IH, serve_steps_ok.
Qed.
End Ledger.

Section LedgerWitnesses.
Import Habits.

Lemma awards_are_never_revoked_witness :
  ∃ new,
    daily_logs
      (serveAll (with_daily_logs (insert ("alice", 101) (DailyLogs.fresh 5))
                                 Sample.db0)
                Sample.busy_day) !! ("alice", 101) = Some new
    ∧ keeps_awards (DailyLogs.fresh 5) new.
Proof.
  apply (awards_are_never_revoked
           (with_daily_logs (insert ("alice", 101) (DailyLogs.fresh 5)) Sample.db0)
           Sample.busy_day ("alice", 101) (DailyLogs.fresh 5)).
  reflexivity.
Defined.

Lemma effective_steps_is_larger_source_witness :
  ledger_steps_ok (serveAll Sample.db0 Sample.three_days).
Proof.
  apply (effective_steps_is_larger_source Sample.db0 Sample.three_days).
  unfold ledger_steps_ok. simpl. apply map_Forall_empty.
Defined.
End LedgerWitnesses.

Section Frame.
Import Habits.

(** X8. A request touches at most the row of the requesting user and that
    user's ledger row of today: goals, badges, other users, other days, and
    the user's BMI category, mascot and streak columns are unchanged, and an
    existing row of today keeps its [created_at]. *)
Theorem patch_touches_one_user_one_day (db : database) (userId : string)
    (req : request) (today now dateNow : Z) :
  let db' := (patchToday db userId req today now dateNow).1 in
  habits_config db' = habits_config db
  ∧ badges db' = badges db
  ∧ (∀ key, key ≠ (userId, today) → daily_logs db' !! key = daily_logs db !! key)
  ∧ (∀ uid, uid ≠ userId → users db' !! uid = users db !! uid)
  ∧ profile <$> users db' !! userId = profile <$> users db !! userId
  ∧ (∀ old, daily_logs db !! (userId, today) = Some old →
       ∃ new, daily_logs db' !! (userId, today) = Some new
              ∧ DailyLogs.created_at new = DailyLogs.created_at old).
Proof.
  intros db'. subst db'.
  destruct (users db !! userId) as [u|] eqn:Hu.
  - destruct (patchToday_cases db userId req today now dateNow u Hu)
      as [-> | (row' & x & reply & -> & _ & _ & Hrow & _)]; simpl.
    + split_and!; try done; [by rewrite Hu|].
      intros old Hold. by exists old.
    + split_and!; try done.
      * intros key Hne. by rewrite lookup_insert_ne.
      * intros uid Hne. by rewrite lookup_insert_ne.
      * rewrite lookup_insert_eq. simpl. by rewrite credited_profile.
      * intros old Hold. rewrite lookup_insert_eq. exists row'. split; [done|].
        rewrite Hold in Hrow. by destruct Hrow as (_ & _ & _ & ->).
  - unfold patchToday. rewrite Hu. simpl.
    split_and!; try done; [by rewrite Hu|]. intros old Hold. by exists old.
Qed.

Lemma patch_touches_one_user_one_day_witness :
  daily_logs (patchToday Sample.db_three_days "alice" (PatchHydration (JNum 3))
                         104 (Sample.noon 104) (Sample.noon 104)).1
    !! ("alice", 103)
  = daily_logs Sample.db_three_days !! ("alice", 103).
Proof.
  destruct (patch_touches_one_user_one_day Sample.db_three_days "alice"
              (PatchHydration (JNum 3)) 104 (Sample.noon 104) (Sample.noon 104))
    as (_ & _ & Hlogs & _).
  apply Hlogs. by intros [= ?].
Defined.
End Frame.

Section Books.
Import Habits.

Lemma xp_from_logs_insert (db db' : database) (key : string * Z)
    (row' : DailyLogs.row) (uid : string) :
  daily_logs db' = <[key := row']> (daily_logs db) →
  Views.xp_from_logs db' uid
  = Views.xp_from_logs db uid
    + (if bool_decide (key.1 = uid)
       then DailyLogs.xp_earned row'
            - from_option DailyLogs.xp_earned 0 (daily_logs db !! key)
       else 0).
Proof.
  unfold Views.xp_from_logs. intros ->. generalize (daily_logs db) as logs.
  intros logs.
  set (f := λ (key : string * Z) (row : DailyLogs.row) (acc : Z),
              if bool_decide (key.1 = uid)
              then acc + DailyLogs.xp_earned row else acc).
  assert (∀ j1 j2 z1 z2 y, f j1 z1 (f j2 z2 y) = f j2 z2 (f j1 z1 y)) as Hcomm.
  { intros. unfold f. repeat case_bool_decide; lia. }
  destruct (logs !! key) as [old|] eqn:Hold; simpl.
  - rewrite <-(insert_delete_id logs key old Hold) at 2.
    rewrite <-(insert_delete_eq logs key row').
    rewrite (map_fold_insert_L f 0 key row' (delete key logs));
      [|by intros; apply Hcomm|by apply lookup_delete_eq].
    rewrite (map_fold_insert_L f 0 key old (delete key logs));
      [|by intros; apply Hcomm|by apply lookup_delete_eq].
    unfold f at 1 3. case_bool_decide; lia.
  - rewrite map_fold_insert_L; [|by intros; apply Hcomm|done].
    unfold f at 1. case_bool_decide; lia.
Qed.

Lemma serve_books (db : database) (a : arrival) (uid : string) (u : Users.row) :
  users db !! uid = Some u →
  ∃ u', users (serve db a) !! uid = Some u'
        ∧ Users.xp_total u' - Views.xp_from_logs (serve db a) uid
          = Users.xp_total u - Views.xp_from_logs db uid.
Proof.
  intros Hu. unfold serve.
  destruct (users db !! who a) as [requester|] eqn:Hreq.
  - destruct (patchToday_cases db (who a) (what a) (today_ a) (now_ a)
                (dateNow_ a) requester Hreq)
      as [-> | (row' & x & reply & -> & Hx & Hxp & _)]; simpl.
    + by exists u.
    + rewrite xp_earned_default in Hxp.
      erewrite (xp_from_logs_insert db _ (who a, today_ a) row' uid);
        [|reflexivity].
      simpl. destruct (decide (uid = who a)) as [->|Hne].
      * rewrite lookup_insert_eq. eexists; split; [done|].
        assert (requester = u) as -> by congruence.
        rewrite credited_xp by done. rewrite bool_decide_eq_true_2 by done. lia.
      * rewrite lookup_insert_ne by done. exists u. split; [done|].
        rewrite bool_decide_eq_false_2 by done. lia.
  - unfold patchToday. rewrite Hreq. by exists u.
Qed.

(** X9. Over any sequence of requests the difference between a user's
    [xp_total] and the sum of [xp_earned] over that user's ledger rows (the
    [xpFromLogs] of the stats route) does not change. *)
Theorem total_moves_with_the_ledger (db : database) (arrivals : list arrival)
    (uid : string) (u : Users.row) :
  users db !! uid = Some u →
  ∃ u', users (serveAll db arrivals) !! uid = Some u'
        ∧ Users.xp_total u' - Views.xp_from_logs (serveAll db arrivals) uid
          = Users.xp_total u - Views.xp_from_logs db uid.
Proof.
  unfold serveAll. revert db u.
  induction arrivals as [|a arrivals IH]; intros db u Hu; simpl.
  - by exists u.
  - destruct (serve_books db a uid u Hu) as (u1 & Hu1 & H1).
    destruct (IH _ u1 Hu1) as (u2 & Hu2 & H2).
    exists u2. split; [done|lia].
Qed.

Lemma total_moves_with_the_ledger_witness :
  ∃ u', users (serveAll Sample.db0 Sample.busy_day) !! "alice" = Some u'
        ∧ Users.xp_total u'
          - Views.xp_from_logs (serveAll Sample.db0 Sample.busy_day) "alice"
          = Users.xp_total Sample.alice - Views.xp_from_logs Sample.db0 "alice".
Proof.
  apply (total_moves_with_the_ledger Sample.db0 Sample.busy_day "alice"
           Sample.alice).
  reflexivity.
Defined.
End Books.

(* ===================================================================== *)
(** ** Sleep hours and the food checklist *)
(* ===================================================================== *)

Section Sleep.
Import Habits.

Lemma valid_hhmm_range (t : Z * Z) :
  valid_hhmm t = true → 0 ≤ t.1 ≤ 23 ∧ 0 ≤ t.2 ≤ 59.
Proof. unfold valid_hhmm. rewrite !andb_true_iff. lia. Qed.

(** X10. For two valid clock times the slept minutes lie in [0, 1440), are 0
    exactly when the two times are equal (never 24 hours), and the two
    directions add up to a full day; the stored hours (in tenths) reach the
    7-hour goal exactly from 6 h 57 min on, because of the rounding to one
    decimal. *)
Theorem sleep_duration_and_goal (s e : Z * Z) :
  valid_hhmm s = true → valid_hhmm e = true →
  0 ≤ diffMin s e < 1440
  ∧ (diffMin s e = 0 ↔ s = e)
  ∧ (s ≠ e → diffMin s e + diffMin e s = 1440)
  ∧ ∃ h, sleepHours (Some s) (Some e) = Some h
         ∧ 0 ≤ h ≤ 240
         ∧ ((h >=? SLEEP_GOAL_HOURS * 10) = true ↔ 417 ≤ diffMin s e).
Proof.
  intros Hs He.
  apply valid_hhmm_range in Hs as [Hs1 Hs2], He as [He1 He2].
  destruct s as [sh sm], e as [eh em]. simpl in *.
  unfold sleepHours, diffMin. simpl.
  assert ((sh, sm) = (eh, em) ↔ sh = eh ∧ sm = em) as Heq.
  { split; [by intros [= -> ->] | by intros [-> ->]]. }
  split_and!.
  - destruct (Z.geb_spec (eh * 60 + em) (sh * 60 + sm)); lia.
  - destruct (Z.geb_spec (eh * 60 + em) (sh * 60 + sm)); lia.
  - rewrite Heq. destruct (Z.geb_spec (eh * 60 + em) (sh * 60 + sm)); lia.
  - rewrite Heq. intros Hne.
    destruct (Z.geb_spec (eh * 60 + em) (sh * 60 + sm)),
             (Z.geb_spec (sh * 60 + sm) (eh * 60 + em)); lia.
  - eexists. split; [reflexivity|].
    unfold SLEEP_GOAL_HOURS.
    set (d := if eh * 60 + em >=? sh * 60 + sm then _ else _).
    assert (0 ≤ d < 1440) as Hd.
    { subst d. destruct (Z.geb_spec (eh * 60 + em) (sh * 60 + sm)); lia. }
    clearbody d.
    pose proof (Z.div_mod (d + 3) 6 ltac:(lia)).
    pose proof (Z.mod_pos_bound (d + 3) 6 ltac:(lia)).
    split; [lia|]. rewrite Z.geb_le. lia.
Qed.

Lemma sleep_duration_and_goal_witness :
  0 ≤ diffMin (23, 0) (5, 57) < 1440
  ∧ (diffMin (23, 0) (5, 57) = 0 ↔ (23, 0) = (5, 57))
  ∧ ((23, 0) ≠ (5, 57) → diffMin (23, 0) (5, 57) + diffMin (5, 57) (23, 0) = 1440)
  ∧ ∃ h, sleepHours (Some (23, 0)) (Some (5, 57)) = Some h
         ∧ 0 ≤ h ≤ 240
         ∧ ((h >=? SLEEP_GOAL_HOURS * 10) = true ↔ 417 ≤ diffMin (23, 0) (5, 57)).
Proof. apply (sleep_duration_and_goal (23, 0) (5, 57)); reflexivity. Defined.
End Sleep.

Section Food.
Import Habits.

Lemma buildFoodHabitsResponse_entries (log : option DailyLogs.row) :
  Views.buildFoodHabitsResponse log
  = [ Views.mk_food_entry "vegetables" "Ate 2 servings of vegetables" 10
        (bool_decide (from_option DailyLogs.food_vegetables 0 log = 1));
      Views.mk_food_entry "no_junk" "Skipped junk food today" 10
        (bool_decide (from_option DailyLogs.food_no_junk 0 log = 1));
      Views.mk_food_entry "breakfast" "Ate breakfast" 5
        (bool_decide (from_option DailyLogs.food_breakfast 0 log = 1)) ].
Proof. reflexivity. Qed.

Lemma FOOD_HABITS_keys (item : string) (habit : food_habit) :
  FOOD_HABITS !! item = Some habit →
  (item = "vegetables" ∧ habit = mk_habit 10 DailyLogs.vegetables)
  ∨ (item = "no_junk" ∧ habit = mk_habit 10 DailyLogs.no_junk)
  ∨ (item = "breakfast" ∧ habit = mk_habit 5 DailyLogs.breakfast).
Proof.
  unfold FOOD_HABITS. intros H.
  apply lookup_insert_Some in H as [[<- <-]|[_ H]]; [auto|].
  apply lookup_insert_Some in H as [[<- <-]|[_ H]]; [auto|].
  apply lookup_singleton_Some in H as [<- <-]. auto.
Qed.

Lemma checked_bit (checked : js_value) :
  bool_decide ((if is_true_or_one checked then 1 else 0) = 1)
  = is_true_or_one checked.
Proof. by destruct (is_true_or_one checked). Qed.

(** X11. After an accepted food update the checklist that
    [buildFoodHabitsResponse] builds from today's row is the former checklist
    with the submitted item set to the submitted state; the other two items
    are as before. *)
Theorem food_checkbox_round_trip (db : database) (userId item : string)
    (checked : js_value) (today now : Z) :
  is_Some (users db !! userId) →
  is_Some (FOOD_HABITS !! item) →
  is_boolean_or_bit checked = true →
  let db' := (handleFoodUpdate db userId (Some item) checked today now).1 in
  Views.buildFoodHabitsResponse (daily_logs db' !! (userId, today))
  = set_checked item (is_true_or_one checked)
      <$> Views.buildFoodHabitsResponse (daily_logs db !! (userId, today)).
Proof.
  intros [u Hu] [habit Hh] Hbit db'. subst db'.
  unfold handleFoodUpdate. simpl. rewrite Hh, Hbit. simpl.
  match goal with
  | |- context [respond ?d ?uid ?t ?n ?e ?f ?x] =>
      destruct (respond_shape d uid t n e f x u Hu) as (r & -> & _)
  end.
  simpl. rewrite lookup_insert_eq, !buildFoodHabitsResponse_entries.
  apply FOOD_HABITS_keys in Hh as [[-> ->]|[[-> ->]|[-> ->]]]; simpl;
    rewrite checked_bit; unfold set_checked; simpl;
    by destruct (daily_logs db !! (userId, today)).
Qed.

Lemma food_checkbox_round_trip_witness :
  Views.buildFoodHabitsResponse
    (daily_logs (handleFoodUpdate Sample.db0 "alice" (Some "no_junk") (JBool true)
                                  101 (Sample.noon 101)).1 !! ("alice", 101))
  = set_checked "no_junk" (is_true_or_one (JBool true))
      <$> Views.buildFoodHabitsResponse (daily_logs Sample.db0 !! ("alice", 101)).
Proof.
  apply (food_checkbox_round_trip Sample.db0 "alice" "no_junk" (JBool true)
           101 (Sample.noon 101)).
  - vm_compute. by eexists.
  - vm_compute. by eexists.
  - reflexivity.
Defined.
End Food.

(* ===================================================================== *)
(** ** The streak evaluation as a whole *)
(* ===================================================================== *)

Section StreakExtras.
Import Streak.

(** What an evaluation does, case by case. *)
Lemma evaluateStreak_cases (db : database) (userId : string) (today : Z)
    (user : Users.row) :
  users db !! userId = Some user →
  ∃ user',
    evaluateStreakIfNeeded db userId today
      = (with_users (insert userId user') db, Returns ())
    ∧ account user' = account user
    ∧ match Users.streak_last_evaluated_date user with
      | None =>
          user' = Users.set_last_evaluated today user
      | Some lastEval =>
          if lastEval >=? today then user' = user
          else
            Users.streak_last_evaluated_date user' = Some today
            ∧ streak_counters user'
              = judge db userId (days_between (lastEval + 1) (today - 1))
                      (streak_counters user)
      end.
Proof.
  intros Hu.
  destruct (Users.streak_last_evaluated_date user) as [lastEval|] eqn:Hlast.
  - destruct (lastEval >=? today) eqn:Hcmp.
    + exists user. unfold evaluateStreakIfNeeded. rewrite Hu, Hlast, Hcmp.
      split_and!; [|done|reflexivity].
      unfold with_users. rewrite (insert_id _ _ _ Hu). by destruct db.
    + eexists. rewrite (evaluateStreak_backfill db userId user lastEval today)
        by (try done; lia).
      split; [reflexivity|]. split; [reflexivity|]. split; [reflexivity|].
      unfold streak_counters. simpl. by destruct (judge _ _ _ _).
  - eexists. unfold evaluateStreakIfNeeded. rewrite Hu, Hlast.
    split; [reflexivity|]. split; reflexivity.
Qed.

Lemma judge_same_logs (db db' : database) (userId : string) (days : list Z)
    (c : counters) :
  daily_logs db' = daily_logs db → habits_config db' = habits_config db →
  judge db' userId days c = judge db userId days c.
Proof.
  intros Hlogs Hcfg. unfold judge. revert c.
  induction days as [|d days IH]; intros c; simpl; [done|].
  rewrite IH. do 2 f_equal. unfold countCompletedCategories.
  by rewrite Hlogs, Hcfg.
Qed.

Lemma judge_app (db : database) (userId : string) (days days' : list Z)
    (c : counters) :
  judge db userId (days ++ days') c
  = judge db userId days' (judge db userId days c).
Proof. unfold judge. by rewrite foldl_app. Qed.

Lemma evaluateDay_ok (completed : Z) (c : counters) :
  counters_ok c →
  counters_ok (evaluateDay completed c)
  ∧ longestStreak c ≤ longestStreak (evaluateDay completed c).
Proof.
  intros [Hcur Hsh].
  pose proof (evaluateDay_nonneg completed c (proj1 Hcur)).
  pose proof (evaluateDay_shields_bound completed c Hsh).
  pose proof (evaluateDay_longest completed c).
  unfold counters_ok. lia.
Qed.

Lemma judge_ok (db : database) (userId : string) (days : list Z) (c : counters) :
  counters_ok c →
  counters_ok (judge db userId days c)
  ∧ longestStreak c ≤ longestStreak (judge db userId days c).
Proof.
  unfold judge. revert c. induction days as [|d days IH]; intros c Hc; simpl.
  - split; [done|lia].
  - destruct (evaluateDay_ok (countCompletedCategories db userId d) c Hc)
      as [Hc1 Hl1].
    destruct (IH _ Hc1) as [Hc2 Hl2]. split; [done|lia].
Qed.

(** X12. Evaluating the streak again for the same or an earlier date, right
    after an evaluation, changes nothing and returns normally. *)
Theorem evaluation_is_idempotent (db : database) (userId : string)
    (today again : Z) :
  is_Some (users db !! userId) → again ≤ today →
  let db1 := (evaluateStreakIfNeeded db userId today).1 in
  evaluateStreakIfNeeded db1 userId again = (db1, Returns ()).
Proof.
  intros [user Hu] Hle db1. subst db1.
  destruct (evaluateStreak_cases db userId today user Hu)
    as (user' & -> & _ & Hcase). simpl.
  assert (∃ w, Users.streak_last_evaluated_date user' = Some w ∧ today ≤ w)
    as (w & Hw & Hge).
  { destruct (Users.streak_last_evaluated_date user) as [lastEval|] eqn:Hlast.
    - destruct (Z.geb_spec lastEval today).
      + subst user'. exists lastEval. split; [done|lia].
      + destruct Hcase as [Hw _]. exists today. split; [done|lia].
    - subst user'. exists today. split; [done|lia]. }
  unfold evaluateStreakIfNeeded at 1. simpl. rewrite lookup_insert_eq, Hw.
  destruct (Z.geb_spec w again); [done|lia].
Qed.

Lemma evaluation_is_idempotent_witness :
  evaluateStreakIfNeeded (evaluateStreakIfNeeded Sample.db_three_days "alice" 104).1
                         "alice" 104
  = ((evaluateStreakIfNeeded Sample.db_three_days "alice" 104).1, Returns ()).
Proof.
  apply (evaluation_is_idempotent Sample.db_three_days "alice" 104 104).
  - vm_compute. by eexists.
  - lia.
Defined.

(** X13. The evaluations that judge no day: without a stored date only the
    date is stored; with a stored date of today or later nothing is written;
    and with yesterday as the stored date the loop body never runs, so only
    the date advances and the counters stay as they are. *)
Theorem evaluation_without_judging (db : database) (userId : string)
    (today : Z) (user : Users.row) :
  users db !! userId = Some user →
  (Users.streak_last_evaluated_date user = None →
   evaluateStreakIfNeeded db userId today
   = (with_users (insert userId (Users.set_last_evaluated today user)) db,
      Returns ()))
  ∧ (∀ lastEval, Users.streak_last_evaluated_date user = Some lastEval →
       today ≤ lastEval →
       evaluateStreakIfNeeded db userId today = (db, Returns ()))
  ∧ (Users.streak_last_evaluated_date user = Some (today - 1) →
     evaluateStreakIfNeeded db userId today
     = (with_users (insert userId (Users.set_last_evaluated today user)) db,
        Returns ())).
Proof.
  intros Hu. split_and!.
  - intros Hlast. unfold evaluateStreakIfNeeded. by rewrite Hu, Hlast.
  - intros lastEval Hlast Hle. unfold evaluateStreakIfNeeded. rewrite Hu, Hlast.
    destruct (Z.geb_spec lastEval today); [done|lia].
  - intros Hlast.
    rewrite (evaluateStreak_backfill db userId user (today - 1) today)
      by (try done; lia).
    unfold days_between. rewrite seqZ_nil by lia. simpl.
    by destruct user.
Qed.

Lemma evaluation_without_judging_witness :
  evaluateStreakIfNeeded Sample.db0 "alice" 101
  = (with_users (insert "alice" (Users.set_last_evaluated 101 Sample.alice))
                Sample.db0,
     Returns ()).
Proof.
  destruct (evaluation_without_judging Sample.db0 "alice" 101 Sample.alice)
    as (_ & _ & H); [reflexivity|].
  apply H. reflexivity.
Defined.

(** X14. If the counters satisfy [0 ≤ current_streak ≤ longest_streak] and
    [0 ≤ streak_shields ≤ 1] before an evaluation, they do so after it, and
    [longest_streak] has not decreased. *)
Theorem streak_counters_stay_in_range (db : database) (userId : string)
    (today : Z) (user : Users.row) :
  users db !! userId = Some user →
  counters_ok (streak_counters user) →
  ∃ user',
    users (evaluateStreakIfNeeded db userId today).1 !! userId = Some user'
    ∧ counters_ok (streak_counters user')
    ∧ Users.longest_streak user ≤ Users.longest_streak user'.
Proof.
  intros Hu Hok.
  destruct (evaluateStreak_cases db userId today user Hu)
    as (user' & -> & _ & Hcase). simpl. rewrite lookup_insert_eq.
  exists user'. split; [done|].
  destruct (Users.streak_last_evaluated_date user) as [lastEval|].
  - destruct (lastEval >=? today).
    + subst user'. split; [done|lia].
    + destruct Hcase as [_ Hc].
      destruct (judge_ok db userId (days_between (lastEval + 1) (today - 1))
                  (streak_counters user) Hok) as [Hok' Hlong].
      rewrite <- Hc in Hok', Hlong. split; [done|]. exact Hlong.
  - subst user'. split; [done|simpl; lia].
Qed.

Lemma streak_counters_stay_in_range_witness :
  ∃ user',
    users (evaluateStreakIfNeeded Sample.db0 "alice" 105).1 !! "alice"
      = Some user'
    ∧ counters_ok (streak_counters user')
    ∧ Users.longest_streak Sample.alice ≤ Users.longest_streak user'.
Proof.
  apply (streak_counters_stay_in_range Sample.db0 "alice" 105 Sample.alice).
  - reflexivity.
  - unfold counters_ok, MAX_SHIELDS. simpl. lia.
Defined.

(** X15. An evaluation writes nothing but the four streak columns of the
    user's own row: the ledger, the goals, the badges, the other users and the
    user's BMI category, mascot, XP and level are unchanged; afterwards the
    stored date is the later of the former one and today. *)
Theorem evaluation_touches_streak_columns_only (db : database) (userId : string)
    (today : Z) :
  let db' := (evaluateStreakIfNeeded db userId today).1 in
  daily_logs db' = daily_logs db
  ∧ habits_config db' = habits_config db
  ∧ badges db' = badges db
  ∧ (∀ uid, uid ≠ userId → users db' !! uid = users db !! uid)
  ∧ account <$> users db' !! userId = account <$> users db !! userId
  ∧ (∀ user, users db !! userId = Some user →
       ∃ user', users db' !! userId = Some user'
         ∧ Users.streak_last_evaluated_date user'
           = Some (from_option (Z.max today) today
                     (Users.streak_last_evaluated_date user))).
Proof.
  intros db'. subst db'.
  destruct (users db !! userId) as [user|] eqn:Hu.
  - destruct (evaluateStreak_cases db userId today user Hu)
      as (user' & -> & Hacc & Hcase). simpl.
    split_and!; try done.
    + intros uid Hne. by rewrite lookup_insert_ne.
    + rewrite lookup_insert_eq. simpl. by rewrite Hacc.
    + intros ? [= <-]. rewrite lookup_insert_eq. exists user'. split; [done|].
      destruct (Users.streak_last_evaluated_date user) as [lastEval|] eqn:Hlast;
        simpl.
      * destruct (Z.geb_spec lastEval today).
        -- subst user'. rewrite Hlast. f_equal. lia.
        -- destruct Hcase as [-> _]. f_equal. lia.
      * by subst user'.
  - unfold evaluateStreakIfNeeded. rewrite Hu. simpl.
    split_and!; try done. by rewrite Hu.
Qed.

Lemma evaluation_touches_streak_columns_only_witness :
  ∃ user',
    users (evaluateStreakIfNeeded Sample.db0 "alice" 105).1 !! "alice" = Some user'
    ∧ Users.streak_last_evaluated_date user' = Some 105.
Proof.
  destruct (evaluation_touches_streak_columns_only Sample.db0 "alice" 105)
    as (_ & _ & _ & _ & _ & H).
  apply (H Sample.alice). reflexivity.
Defined.

(** X16. Two evaluations, on [first] and then on [second], with the stored
    date before [first]: together they judge the days after the stored date
    up to [first - 1] and the days from [first + 1] to [second - 1]. The day
    [first], on which an evaluation ran, is judged by neither, whatever was
    logged on it. *)
Theorem evaluation_day_is_never_judged (db db2 : database) (userId : string)
    (user : Users.row) (watermark first second : Z) :
  users db !! userId = Some user →
  Users.streak_last_evaluated_date user = Some watermark →
  watermark < first → first < second →
  users db2 !! userId = users (evaluateStreakIfNeeded db userId first).1 !! userId →
  ∃ user2,
    users (evaluateStreakIfNeeded db2 userId second).1 !! userId = Some user2
    ∧ Users.streak_last_evaluated_date user2 = Some second
    ∧ streak_counters user2
      = judge db2 userId (days_between (first + 1) (second - 1))
          (judge db userId (days_between (watermark + 1) (first - 1))
                 (streak_counters user))
    ∧ first ∉ days_between (watermark + 1) (first - 1)
              ++ days_between (first + 1) (second - 1).
Proof.
  intros Hu Hlast Hlt1 Hlt2 Hsame.
  destruct (evaluateStreak_cases db userId first user Hu)
    as (user1 & Hres1 & _ & Hcase1).
  rewrite Hres1 in Hsame. simpl in Hsame. rewrite lookup_insert_eq in Hsame.
  rewrite Hlast in Hcase1.
  destruct (Z.geb_spec watermark first) as [|_]; [lia|].
  destruct Hcase1 as [Hlast1 Hc1].
  destruct (evaluateStreak_cases db2 userId second user1 Hsame)
    as (user2 & -> & _ & Hcase2). simpl. rewrite lookup_insert_eq.
  rewrite Hlast1 in Hcase2.
  destruct (Z.geb_spec first second) as [|_]; [lia|].
  destruct Hcase2 as [Hlast2 Hc2].
  exists user2. split_and!; [done|done|by rewrite Hc2, Hc1|].
  unfold days_between. rewrite elem_of_app, !elem_of_seqZ. lia.
Qed.

Lemma evaluation_day_is_never_judged_witness :
  ∃ user2,
    users (evaluateStreakIfNeeded
             (evaluateStreakIfNeeded Sample.db0 "alice" 102).1
             "alice" 104).1 !! "alice" = Some user2
    ∧ Users.streak_last_evaluated_date user2 = Some 104
    ∧ streak_counters user2
      = judge (evaluateStreakIfNeeded Sample.db0 "alice" 102).1 "alice"
              (days_between (102 + 1) (104 - 1))
              (judge Sample.db0 "alice" (days_between (100 + 1) (102 - 1))
                     (streak_counters Sample.alice))
    ∧ 102 ∉ days_between (100 + 1) (102 - 1) ++ days_between (102 + 1) (104 - 1).
Proof.
  apply (evaluation_day_is_never_judged Sample.db0
           (evaluateStreakIfNeeded Sample.db0 "alice" 102).1
           "alice" Sample.alice 100 102 104).
  - reflexivity.
  - reflexivity.
  - lia.
  - lia.
  - reflexivity.
Defined.

(** X17. [countCompletedCategories] is between 0 and 5. *)
Theorem completed_categories_range (db : database) (userId : string)
    (dateStr : Z) :
  0 ≤ countCompletedCategories db userId dateStr ≤ 5.
Proof.
  unfold countCompletedCategories.
  destruct (daily_logs db !! (userId, dateStr)) as [log|]; [|lia].
  cbv zeta. unfold bump. repeat case_match; lia.
Qed.
End StreakExtras.

(* ===================================================================== *)
(** ** Mascot evolution *)
(* ===================================================================== *)

Section MascotExtras.
Import Mascot.

(** Every category has its three mascots in stage order, with three
    different ids. *)
Lemma mascot_stages :
  map_Forall (λ _ stages,
                ∃ a b c, stages = [a; b; c]
                  ∧ stage a = 1 ∧ stage b = 2 ∧ stage c = 3
                  ∧ id a ≠ id b ∧ id a ≠ id c ∧ id b ≠ id c)
             MASCOT_EVOLUTION.
Proof.
  unfold MASCOT_EVOLUTION.
  repeat (apply map_Forall_insert_2; [by eexists _, _, _|]).
  apply map_Forall_empty.
Qed.

(** X18. [getMascotForLevel] answers [null] for a category that is not in
    [MASCOT_EVOLUTION], and for every category in it a mascot whose [stage]
    is 1 below level 5, 2 from level 5 and 3 from level 10. *)
Theorem mascot_stage_follows_level (bmiCategory : string) (level : Z) :
  (MASCOT_EVOLUTION !! bmiCategory = None →
   getMascotForLevel bmiCategory level = None)
  ∧ (is_Some (MASCOT_EVOLUTION !! bmiCategory) →
     ∃ m, getMascotForLevel bmiCategory level = Some m
          ∧ stage m = stage_of_level level).
Proof.
  unfold getMascotForLevel. split.
  - by intros ->.
  - intros [stages Hs]. rewrite Hs.
    destruct (mascot_stages _ _ Hs) as (a & b & c & -> & Ha & Hb & Hc & _).
    unfold getMascotStageForLevel, stage_of_level,
      EVOLUTION_LEVEL_10, EVOLUTION_LEVEL_5.
    destruct (level >=? 10); [by exists c|].
    destruct (level >=? 5); [by exists b|by exists a].
Qed.

Lemma mascot_stage_follows_level_witness :
  ∃ m, getMascotForLevel "obese_1" 7 = Some m ∧ stage m = stage_of_level 7.
Proof.
  destruct (mascot_stage_follows_level "obese_1" 7) as [_ H].
  apply H. vm_compute. by eexists.
Defined.

End MascotExtras.

(* ===================================================================== *)
(** ** The starter mascot of the onboarding *)
(* ===================================================================== *)

Section OnboardingExtras.
Import Mascot Onboarding.

Lemma getBmiInfo_categories (bmi : Z) :
  (getBmiInfo bmi).1 ∈ ["underweight"; "normal"; "overweight"; "obese_1"; "obese_2"].
Proof.
  unfold getBmiInfo. repeat case_match; simpl; set_solver.
Qed.

(** X22. Whatever the BMI, the category [getBmiInfo] gives has a starter in
    [MASCOT_MAP], and that starter is the stage-1 mascot [getMascotForLevel]
    gives for the category below level 5; so step 2 of the onboarding
    answers 200 and stores the category with that mascot. *)
Theorem starter_mascot_is_first_stage (db : database) (userId : string) (bmi : Z) :
  ∃ m,
    MASCOT_MAP !! (getBmiInfo bmi).1 = Some (id m, name m)
    ∧ stage m = 1
    ∧ (∀ level, level < 5 → getMascotForLevel (getBmiInfo bmi).1 level = Some m)
    ∧ (step2 db userId bmi).2 = 200
    ∧ ∀ user, users db !! userId = Some user →
        ∃ user', users (step2 db userId bmi).1 !! userId = Some user'
          ∧ Users.bmi_category user' = Some (getBmiInfo bmi).1
          ∧ Users.mascot_id user' = Some (id m)
          ∧ Users.mascot_name user' = Some (name m).
Proof.
  assert (∀ cat, cat ∈ ["underweight"; "normal"; "overweight"; "obese_1"; "obese_2"] →
          ∃ m, MASCOT_MAP !! cat = Some (id m, name m) ∧ stage m = 1
               ∧ ∀ level, level < 5 → getMascotForLevel cat level = Some m) as Htable.
  { intros cat Hcat. unfold getMascotForLevel, getMascotStageForLevel,
      EVOLUTION_LEVEL_10, EVOLUTION_LEVEL_5.
    repeat (apply elem_of_cons in Hcat as [->|Hcat]);
      [..|by apply elem_of_nil in Hcat].
    all: eexists (mk_mascot _ _ _); split; [by vm_compute|]; split; [done|].
    all: intros level Hlt.
    all: destruct (Z.geb_spec level 10); [lia|].
    all: destruct (Z.geb_spec level 5); [lia|]; by vm_compute. }
  destruct (Htable _ (getBmiInfo_categories bmi)) as (m & Hmap & Hstage & Hfirst).
  exists m. unfold step2. rewrite Hmap. simpl.
  split_and!; try done.
  intros user Hu. rewrite Hu. rewrite lookup_insert_eq. by eexists.
Qed.

Lemma starter_mascot_is_first_stage_witness :
  ∃ m user',
    MASCOT_MAP !! (getBmiInfo 271).1 = Some (id m, name m)
    ∧ users (step2 Sample.db0 "alice" 271).1 !! "alice" = Some user'
    ∧ Users.mascot_id user' = Some (id m).
Proof.
  destruct (starter_mascot_is_first_stage Sample.db0 "alice" 271)
    as (m & Hmap & _ & _ & _ & Huser).
  destruct (Huser Sample.alice) as (user' & Hu' & _ & Hid & _); [reflexivity|].
  by exists m, user'.
Defined.

End OnboardingExtras.

(* ===================================================================== *)
(** ** The read routes *)
(* ===================================================================== *)

Section ViewsExtras.
Import Habits Streak Views.

(** After an evaluation for [today] the stored date is [today] or later, and
    the tables other than [users] are the same. *)
Lemma evaluateStreak_settles (db : database) (userId : string) (today : Z)
    (user : Users.row) :
  users db !! userId = Some user →
  ∃ user' w,
    evaluateStreakIfNeeded db userId today
      = (mkdb (<[userId := user']> (users db)) (habits_config db)
              (daily_logs db) (badges db), Returns ())
    ∧ account user' = account user
    ∧ Users.streak_last_evaluated_date user' = Some w ∧ today ≤ w.
Proof.
  intros Hu.
  destruct (evaluateStreak_cases db userId today user Hu)
    as (user' & -> & Hacc & Hcase).
  destruct (Users.streak_last_evaluated_date user) as [lastEval|] eqn:Hlast.
  - destruct (Z.geb_spec lastEval today).
    + subst user'. exists user, lastEval. split_and!; [done|done|done|lia].
    + destruct Hcase as [Hw _]. exists user', today. split_and!; [done|done|done|lia].
  - subst user'. eexists _, today. split_and!; [done|done|done|lia].
Qed.


(** X24. On a database whose ledger rows are within the daily cap and whose
    stored levels match the stored XP totals, the dashboard shows a
    [dailyXpEarned] of at most [dailyXpCap] = 150, [onTrack] exactly when
    the completed categories reach [categoriesRequired], a [level] that is
    the level of [xpTotal], an [xpForNextLevel] that, when it is not [null], is
    strictly above [xpTotal], and the mood "happy" exactly when the current
    streak is positive. *)
Theorem dashboard_is_consistent (db db1 : database) (userId : string)
    (evalToday today : Z) (d : dashboard) :
  ledger_capped db → level_cached db →
  getDashboard db userId evalToday today = (db1, Returns d) →
  d_dailyXpEarned d ≤ d_dailyXpCap d
  ∧ d_dailyXpCap d = 150
  ∧ (d_onTrack d = true ↔ d_categoriesRequired d ≤ d_categoriesCompletedToday d)
  ∧ d_level d = Xp.getLevelForXp (d_xpTotal d)
  ∧ (∀ t, d_xpForNextLevel d = Some t → d_xpTotal d < t)
  ∧ (d_mood d = "happy" ↔ 0 < d_current d).
Proof.
  intros Hcap Hlvl. unfold getDashboard.
  destruct (users db !! userId) as [user|] eqn:Hu.
  - destruct (evaluateStreak_settles db userId evalToday user Hu)
      as (user' & w & -> & Hacc & _). simpl. rewrite lookup_insert_eq.
    intros [= <- <-]. cbn [d_dailyXpEarned d_dailyXpCap d_categoriesCompletedToday
      d_onTrack d_categoriesRequired d_level d_xpTotal d_xpForNextLevel d_mood
      d_current].
    assert (Users.xp_total user' = Users.xp_total user
            ∧ Users.level user' = Users.level user) as [Hxp Hl].
    { unfold account in Hacc. by simplify_eq. }
    rewrite Hxp, Hl, (Hlvl _ _ Hu).
    destruct (level_found (Users.xp_total user)) as (_ & Hnext).
    split; [|split; [reflexivity|]; split; [|split; [reflexivity|]; split]].
    3: { intros t. unfold Xp.getXpForNextLevel.
         destruct (_ >=? _); [done|]. destruct (_ <? 0); [done|]. apply Hnext. }
    + destruct (daily_logs db !! (userId, today)) as [row|] eqn:Hrow; simpl.
      * by eapply Hcap.
      * unfold Xp.DAILY_XP_CAP. clear. lia.
    + by rewrite Z.geb_le.
    + clear. destruct (Z.gtb_spec (Users.current_streak user') 0); split;
        try done; lia.
  - unfold evaluateStreakIfNeeded. rewrite Hu. done.
Qed.

Lemma dashboard_is_consistent_witness :
  ∃ db1 d, getDashboard Sample.db0 "alice" 101 101 = (db1, Returns d)
           ∧ d_dailyXpEarned d ≤ d_dailyXpCap d
           ∧ d_level d = Xp.getLevelForXp (d_xpTotal d).
Proof.
  assert (∃ db1 d, getDashboard Sample.db0 "alice" 101 101 = (db1, Returns d))
    as (db1 & d & Hres) by (do 2 eexists; reflexivity).
  exists db1, d. split; [exact Hres|].
  destruct (dashboard_is_consistent Sample.db0 db1 "alice" 101 101 d)
    as (Hcap & _ & _ & Hlvl & _).
  - unfold ledger_capped. simpl. apply map_Forall_empty.
  - unfold level_cached, Sample.db0. simpl.
    apply map_Forall_insert_2; [by vm_compute|apply map_Forall_empty].
  - exact Hres.
  - by split.
Defined.



(** X26. After a request answered with the JSON body, [GET
    /api/habits/today] for the same day answers with a [today] object whose
    [xpEarned] is the day's former total plus the [xpAwarded] of that
    answer; the streak evaluation it runs first leaves the ledger alone. *)
Theorem today_reports_the_award (db : database) (userId : string)
    (req : request) (today now dateNow evalToday : Z) (r : response) :
  (patchToday db userId req today now dateNow).2 = Returns (Json r) →
  ∃ db2 answer values,
    getToday (patchToday db userId req today now dateNow).1 userId evalToday today
    = (db2, Returns (Some answer))
    ∧ tr_date answer = today
    ∧ tr_today answer = Some values
    ∧ tv_xpEarned values = xpEarnedToday db userId today + xpAwarded r
    ∧ daily_logs db2 = daily_logs (patchToday db userId req today now dateNow).1.
Proof.
  destruct (users db !! userId) as [u|] eqn:Hu;
    [|by unfold patchToday; rewrite Hu].
  destruct (patchToday_cases db userId req today now dateNow u Hu)
    as [-> | (row' & x & reply & -> & Hx & Hxp & _ & Hreply)]; [done|].
  simpl. intros [= ->].
  destruct Hreply as [[? _] | (r' & [= <-] & Hawarded & _)]; [done|].
  unfold getToday. simpl. rewrite lookup_insert_eq.
  match goal with
  | |- context [evaluateStreakIfNeeded ?d ?uid ?t] =>
      destruct (evaluateStreak_settles d uid t (credited x u))
        as (user' & w & -> & _); [by simpl; rewrite lookup_insert_eq|]
  end.
  simpl. rewrite lookup_insert_eq. simpl.
  do 3 eexists. split_and!; try done. simpl.
  rewrite Hxp, xp_earned_default, Hawarded. done.
Qed.

Lemma today_reports_the_award_witness :
  ∃ r db2 answer values,
    (patchToday Sample.db0 "alice" (PatchMovement (JBool true)) 101
                (Sample.noon 101) (Sample.noon 101)).2 = Returns (Json r)
    ∧ getToday (patchToday Sample.db0 "alice" (PatchMovement (JBool true)) 101
                           (Sample.noon 101) (Sample.noon 101)).1 "alice" 101 101
      = (db2, Returns (Some answer))
    ∧ tr_today answer = Some values
    ∧ tv_xpEarned values = xpEarnedToday Sample.db0 "alice" 101 + xpAwarded r.
Proof.
  assert (∃ r, (patchToday Sample.db0 "alice" (PatchMovement (JBool true)) 101
                  (Sample.noon 101) (Sample.noon 101)).2 = Returns (Json r))
    as [r Hr] by (eexists; reflexivity).
  destruct (today_reports_the_award Sample.db0 "alice" (PatchMovement (JBool true))
              101 (Sample.noon 101) (Sample.noon 101) 101 r Hr)
    as (db2 & answer & values & Hget & _ & Htoday & Hxp & _).
  by exists r, db2, answer, values.
Defined.

Lemma total_days_insert (db db' : database) (key : string * Z)
    (row' : DailyLogs.row) (uid : string) :
  daily_logs db' = <[key := row']> (daily_logs db) →
  total_days db' uid
  = total_days db uid
    + (if bool_decide (key.1 = uid ∧ daily_logs db !! key = None) then 1 else 0).
Proof.
  unfold total_days. intros ->. generalize (daily_logs db) as logs. intros logs.
  set (f := λ (key : string * Z) (_ : DailyLogs.row) (acc : Z),
              if bool_decide (key.1 = uid) then acc + 1 else acc).
  assert (∀ j1 j2 z1 z2 y, f j1 z1 (f j2 z2 y) = f j2 z2 (f j1 z1 y)) as Hcomm.
  { intros. unfold f. repeat case_bool_decide; lia. }
  destruct (logs !! key) as [old|] eqn:Hold; simpl.
  - rewrite <-(insert_delete_id logs key old Hold) at 2.
    rewrite <-(insert_delete_eq logs key row').
    rewrite (map_fold_insert_L f 0 key row' (delete key logs));
      [|by intros; apply Hcomm|by apply lookup_delete_eq].
    rewrite (map_fold_insert_L f 0 key old (delete key logs));
      [|by intros; apply Hcomm|by apply lookup_delete_eq].
    rewrite bool_decide_eq_false_2 by (by intros [_ ?]).
    unfold f at 1 3. lia.
  - rewrite map_fold_insert_L; [|by intros; apply Hcomm|done].
    unfold f at 1. repeat case_bool_decide; try lia; tauto.
Qed.

(** X27. [totalDaysLogged] of the stats route: a request answered with an
    error status leaves the ledger, and so everyone's count, as it is; every
    other request leaves a row for today and raises the requester's count by
    one exactly when that row is new, and no other user's count. *)
Theorem days_logged_counts_first_requests (db : database) (userId : string)
    (req : request) (today now dateNow : Z) (uid : string) :
  let res := patchToday db userId req today now dateNow in
  (∀ code, res.2 = Returns (Status code) →
     daily_logs res.1 = daily_logs db
     ∧ total_days res.1 uid = total_days db uid)
  ∧ ((∀ code, res.2 ≠ Returns (Status code)) →
     is_Some (daily_logs res.1 !! (userId, today))
     ∧ total_days res.1 uid
       = total_days db uid
         + (if bool_decide (uid = userId ∧ daily_logs db !! (userId, today) = None)
            then 1 else 0)).
Proof.
  intros res. subst res.
  destruct (users db !! userId) as [u|] eqn:Hu.
  - destruct (patchToday_cases db userId req today now dateNow u Hu)
      as [-> | (row' & x & reply & -> & _ & _ & _ & Hreply)]; simpl.
    + split; [done|]. intros Hnot. by destruct (Hnot 400).
    + split.
      * intros code [= ->]. by destruct Hreply as [[? _] | (r & ? & _)].
      * intros _. rewrite lookup_insert_eq. split; [by eexists|].
        erewrite (total_days_insert db _ (userId, today) row' uid);
          [|reflexivity].
        simpl. f_equal.
        by rewrite (bool_decide_ext
                      (userId = uid ∧ daily_logs db !! (userId, today) = None)
                      (uid = userId ∧ daily_logs db !! (userId, today) = None))
          by (split; intros [-> ?]; by split).
  - unfold patchToday. rewrite Hu. simpl.
    split; [done|]. intros Hnot. by destruct (Hnot 401).
Qed.

Lemma days_logged_counts_first_requests_witness :
  total_days (patchToday Sample.db0 "alice" (PatchMovement (JBool true)) 101
                         (Sample.noon 101) (Sample.noon 101)).1 "alice"
  = total_days Sample.db0 "alice"
    + (if bool_decide ("alice" = "alice"
                       ∧ daily_logs Sample.db0 !! ("alice", 101) = None)
       then 1 else 0).
Proof.
  destruct (days_logged_counts_first_requests Sample.db0 "alice"
              (PatchMovement (JBool true)) 101 (Sample.noon 101) (Sample.noon 101)
              "alice") as [_ Haccepted].
  apply Haccepted. intros code. vm_compute. discriminate.
Defined.
End ViewsExtras.

(* ===================================================================== *)
(** ** Which steps updates are accepted *)
(* ===================================================================== *)

Section StepsValidation.
Import Habits.

(** X28. A steps update of an existing user whose value is a number that is
    an integer below 10^21 is rejected with status 400, leaving the database
    as it was, exactly when the source is neither "manual" (the default) nor
    "google_fit", or the count is negative, or it is a manual count above
    50000; a Google Fit count is not held to that bound.  Every other such
    update is answered with the JSON body and stores the count in the column
    of its source. *)
Theorem steps_rejected_iff (db : database) (userId : string) (steps : Z)
    (source : option string) (today now dateNow : Z) :
  is_Some (users db !! userId) →
  steps < 10 ^ 21 →
  let res := handleStepsUpdate db userId (JNum steps) source today now dateNow in
  let bad :=
    (effective_source source ≠ "manual" ∧ effective_source source ≠ "google_fit")
    ∨ steps < 0
    ∨ (effective_source source = "manual" ∧ MAX_MANUAL_STEPS < steps) in
  (bad → res = (db, Returns (Status 400)))
  ∧ (¬ bad →
     ∃ r row, res.2 = Returns (Json r)
       ∧ daily_logs res.1 !! (userId, today) = Some row
       ∧ (effective_source source = "manual" →
          DailyLogs.steps_manual row = Some steps)
       ∧ (effective_source source = "google_fit" →
          DailyLogs.steps_google_fit row = Some steps)).
Proof.
  intros [u Hu] _ res bad. subst res bad.
  unfold handleStepsUpdate, MAX_MANUAL_STEPS. cbv zeta.
  change (parseInt (JNum steps)) with (Some steps). cbv iota beta.
  destruct (decide (effective_source source = "manual")) as [Hm|Hm].
  - rewrite (bool_decide_eq_true_2 _ Hm). simpl.
    destruct (Z.ltb_spec steps 0); [split; [done|intros []; auto]|].
    destruct (Z.gtb_spec steps 50000); [split; [done|intros []; auto]|].
    split; [intros [[? _]|[?|[_ ?]]]; [done|lia|lia]|]. intros _.
    match goal with
    | |- context [respond ?d ?uid ?t ?n ?e ?f ?x] =>
        destruct (respond_shape d uid t n e f x u Hu) as (r & -> & _)
    end.
    simpl. rewrite lookup_insert_eq. do 2 eexists.
    split_and!; [done|done|done|]. intros Hg. congruence.
  - rewrite (bool_decide_eq_false_2 _ Hm). simpl.
    destruct (decide (effective_source source = "google_fit")) as [Hg|Hg].
    + rewrite (bool_decide_eq_true_2 _ Hg). simpl.
      destruct (Z.ltb_spec steps 0); [split; [done|intros []; auto]|].
      split; [intros [[_ ?]|[?|[? _]]]; [done|lia|done]|]. intros _.
      match goal with
      | |- context [respond ?d ?uid ?t ?n ?e ?f ?x] =>
          destruct (respond_shape d uid t n e f x u Hu) as (r & -> & _)
      end.
      simpl. rewrite lookup_insert_eq. do 2 eexists.
      split_and!; [done|done|done|done].
    + rewrite (bool_decide_eq_false_2 _ Hg). simpl.
      split; [done|]. intros []. by left.
Qed.

Lemma steps_rejected_iff_witness :
  handleStepsUpdate Sample.db0 "alice" (JNum 50001) None 101
                    (Sample.noon 101) (Sample.noon 101)
  = (Sample.db0, Returns (Status 400)).
Proof.
  destruct (steps_rejected_iff Sample.db0 "alice" 50001 None 101
              (Sample.noon 101) (Sample.noon 101)) as [H _].
  - vm_compute. by eexists.
  - lia.
  - apply H. right. right.
    split; [reflexivity | unfold MAX_MANUAL_STEPS; lia].
Defined.
End StepsValidation.
